(** * dostavka: order, cart and promo-code logic of the delivery bot

    A shallow embedding of the store operations of [utils/data_manager.py],
    the pricing and validation helpers of [handlers/order_handlers.py], the
    customer handlers of [handlers/user_handlers.py] that act on the cart
    and on orders, the keyboards of [utils/keyboards.py] whose buttons carry
    an id, and the status handler of [handlers/admin_handlers.py], followed
    by the properties established for them.

    Modelling conventions.
    - A YAML document is a record of its collections; each store operation
      loads a document, changes it and saves it whole, so it is a function
      from [Store] to [Store].
    - Dictionaries with a fixed set of keys are records.  A key that may be
      missing and is read with [d.get(k)] or [d.get(k, default)] is an
      [option] field; a key read with [d[k]], or written by every producer
      of the dictionary, is a plain field.
    - Amounts of money, quantities and identifiers are integers ([Z]).
      The bonus [int(total * 0.01)] and the average
      [round(revenue / count, 2)] are computed as the source computes them,
      on doubles ([Binary64]); the percentage discount is cut to whole
      currency units.
    - [datetime.now()] is an explicit argument [now].
    - What a handler sends back to the chat is a value of type [Reply].
    - Texts are strings of bytes (UTF-8).  The data of a button is ASCII;
      labels are kept as written in the source.  [str] and [int] on
      integers are decimal printing and parsing, [None] standing for
      [ValueError].  [Py.upper], [Py.strip] and [Py.int] are [str.upper()],
      [str.strip()] and [int()] on ASCII text; where a property concerns
      other text as well, the case mapping is left open ([Promocodes]),
      and where it does not, it is stated for ASCII text. *)

From stdpp Require Import base numbers option list strings gmap sorting.
From Stdlib Require Import ZArith Lia Ascii String.
From Stdlib Require DecimalString DecimalZ DecimalPos.

Local Open Scope Z_scope.

(** ** Python built-ins used by the source *)

Module Py.

(** [sum(xs)]: accumulation from the left, starting at 0. *)
Definition sum (xs : list Z) : Z := fold_left Z.add xs 0.

(** [max(xs, default=d)]. *)
Definition max_default (xs : list Z) (d : Z) : Z :=
  match xs with
  | [] => d
  | x :: r => fold_left Z.max r x
  end.

(** [c.upper()] on one ASCII character. *)
Definition upper_ascii (c : ascii) : ascii :=
  let n := nat_of_ascii c in
  if ((97 <=? n) && (n <=? 122))%nat then ascii_of_nat (n - 32) else c.

(** [s.upper()] on ASCII text. *)
Fixpoint upper (s : string) : string :=
  match s with
  | EmptyString => EmptyString
  | String c r => String (upper_ascii c) (upper r)
  end.

(** The characters [str.strip()] removes among ASCII codes. *)
Definition is_space (c : ascii) : bool :=
  let n := nat_of_ascii c in
  (((9 <=? n) && (n <=? 13)) || ((28 <=? n) && (n <=? 32)))%nat.

Fixpoint lstrip (s : string) : string :=
  match s with
  | EmptyString => EmptyString
  | String c r => if is_space c then lstrip r else s
  end.

(** [s.rstrip()]: a suffix made of spaces only is dropped. *)
Fixpoint rstrip (s : string) : string :=
  match s with
  | EmptyString => EmptyString
  | String c r =>
      match rstrip r with
      | EmptyString => if is_space c then EmptyString else String c EmptyString
      | r' => String c r'
      end
  end.

Definition strip (s : string) : string := rstrip (lstrip s).

(** Truth value of a string: the empty string is false. *)
Definition truthy (s : string) : bool :=
  match s with EmptyString => false | _ => true end.

(** Tuples of integers are compared lexicographically. *)
Fixpoint lex_compare (a b : list Z) : comparison :=
  match a, b with
  | [], [] => Eq
  | [], _ :: _ => Lt
  | _ :: _, [] => Gt
  | x :: a', y :: b' =>
      match x ?= y with
      | Eq => lex_compare a' b'
      | c => c
      end
  end.

(** [for x in xs: if p(x): <change x>; break]: the first element that
    satisfies [p] is changed in place, the others are not visited. *)
Fixpoint update_first {A} (p : A -> bool) (f : A -> A) (xs : list A) : list A :=
  match xs with
  | [] => []
  | x :: r => if p x then f x :: r else x :: update_first p f r
  end.

(** [next((x for x in xs if p(x)), None)]. *)
Fixpoint first {A} (p : A -> bool) (xs : list A) : option A :=
  match xs with
  | [] => None
  | x :: r => if p x then Some x else first p r
  end.

(** [sorted(xs, key=key, reverse=True)] for keys that are tuples of
    integers: greatest key first, elements with equal keys in the order they
    had in [xs].  Python's sort is stable, so the result does not depend on
    the method; here each element is inserted into the sorted rest. *)
Fixpoint insert_desc {A} (key : A -> list Z) (x : A) (xs : list A) : list A :=
  match xs with
  | [] => [x]
  | y :: r =>
      match lex_compare (key y) (key x) with
      | Gt => y :: insert_desc key x r
      | _ => x :: y :: r
      end
  end.

Definition sorted_desc {A} (key : A -> list Z) (xs : list A) : list A :=
  foldr (insert_desc key) [] xs.

(** [s.split(sep)] for a separator of one character: the pieces between
    the occurrences of [sep]; there is always at least one piece. *)
Fixpoint split (sep : ascii) (s : string) : list string :=
  match s with
  | EmptyString => [EmptyString]
  | String c r =>
      if Ascii.eqb c sep then EmptyString :: split sep r
      else match split sep r with
           | w :: ws => String c w :: ws
           | [] => [String c EmptyString]
           end
  end.

(** The longest run of decimal digits that [str] and [int] convert without
    a [ValueError] (the default of [sys.set_int_max_str_digits]). *)
Definition max_str_digits : nat := 4300.

(** [str(z)], also for [{z}] inside an f-string: the decimal digits of [z]
    without leading zeros, behind a minus sign for a negative [z]; [None]
    stands for [ValueError]. *)
Definition str (z : Z) : option string :=
  let within (digits : string) :=
    if (String.length digits <=? max_str_digits)%nat then Some digits
    else None in
  match Z.to_int z with
  | Decimal.Pos d => within (DecimalString.NilZero.string_of_uint d)
  | Decimal.Neg d =>
      option_map (String "-") (within (DecimalString.NilZero.string_of_uint d))
  end.

Definition is_digit (c : ascii) : bool :=
  let n := nat_of_ascii c in ((48 <=? n) && (n <=? 57))%nat.

(** The digits of an integer literal: single underscores between digits are
    dropped; an underscore elsewhere, any other character, or no digit at
    all is an error. *)
Fixpoint digits_of (after_digit : bool) (s : string) : option string :=
  match s with
  | EmptyString => if after_digit then Some EmptyString else None
  | String c r =>
      if is_digit c then option_map (String c) (digits_of true r)
      else if Ascii.eqb c "_" && after_digit then digits_of false r
      else None
  end.

(** [int(s)] on ASCII text: surrounding white space is dropped, one sign
    may come first, then the digits; [None] stands for [ValueError]. *)
Definition int (s : string) : option Z :=
  let t := strip s in
  let '(negative, body) :=
    match t with
    | String "-" r => (true, r)
    | String "+" r => (false, r)
    | _ => (false, t)
    end in
  match digits_of false body with
  | Some digits =>
      if (String.length digits <=? max_str_digits)%nat then
        match DecimalString.NilEmpty.uint_of_string digits with
        | Some d => Some (if negative then - Z.of_uint d else Z.of_uint d)
        | None => None
        end
      else None
  | None => None
  end.

(** [s.startswith(sub)]. *)
Fixpoint startswith (s sub : string) {struct sub} : bool :=
  match sub, s with
  | EmptyString, _ => true
  | String _ _, EmptyString => false
  | String a sub', String b s' => Ascii.eqb a b && startswith s' sub'
  end.

(** [sub in s] for two texts: [sub] starts at some place of [s]. *)
Fixpoint contains (sub s : string) : bool :=
  startswith s sub
  || match s with
     | EmptyString => false
     | String _ r => contains sub r
     end.

(** A byte that continues a character of UTF-8 text. *)
Definition is_continuation (c : ascii) : bool :=
  let n := nat_of_ascii c in ((128 <=? n) && (n <? 192))%nat.

(** [s[:n]] on UTF-8 text: the bytes of the first [n] characters. *)
Fixpoint take_chars (n : nat) (s : string) : string :=
  match s with
  | EmptyString => EmptyString
  | String c r =>
      if is_continuation c then String c (take_chars n r)
      else
        match n with
        | O => EmptyString
        | S n' => String c (take_chars n' r)
        end
  end.

End Py.

(** ** Dates and times of day *)

Module Clock.

(** [datetime.time]. *)
Record time := Time { hour : Z; minute : Z; second : Z; microsecond : Z }.

(** [datetime.datetime]. *)
Record datetime := DateTime { year : Z; month : Z; day : Z; tod : time }.

(** A calendar date as stored in [expiry_date] ('%Y-%m-%d'). *)
Record date := Date { d_year : Z; d_month : Z; d_day : Z }.

Definition time_key (t : time) : list Z :=
  [hour t; minute t; second t; microsecond t].

Definition datetime_key (d : datetime) : list Z :=
  [year d; month d; day d] ++ time_key (tod d).

(** [a <= b] on times. *)
Definition time_le (a b : time) : bool :=
  match Py.lex_compare (time_key a) (time_key b) with
  | Gt => false
  | _ => true
  end.

(** [a > b] on datetimes. *)
Definition datetime_gt (a b : datetime) : bool :=
  match Py.lex_compare (datetime_key a) (datetime_key b) with
  | Gt => true
  | _ => false
  end.

(** [datetime.strptime(s, '%Y-%m-%d')] of a well-formed date: midnight at
    the start of that day. *)
Definition midnight (d : date) : datetime :=
  DateTime (d_year d) (d_month d) (d_day d) (Time 0 0 0 0).

(** [strftime('%Y-%m-%d %H:%M:%S')]: the fields down to the second. *)
Definition strftime (d : datetime) : list Z :=
  [year d; month d; day d; hour (tod d); minute (tod d); second (tod d)].

Definition digit_of (c : ascii) : option Z :=
  let n := nat_of_ascii c in
  if ((48 <=? n) && (n <=? 57))%nat then Some (Z.of_nat (n - 48)) else None.

(** The directive [%H] is the pattern [2[0-3]|[0-1]\d|\d]: the
    alternatives are tried in this order on the head of the input; each
    result is the hour and the rest of the input. *)
Definition hour_alternatives (s : string) : list (Z * string) :=
  match s with
  | String a r1 =>
      match digit_of a with
      | None => []
      | Some x =>
          let one := [(x, r1)] in
          match r1 with
          | String b r2 =>
              match digit_of b with
              | Some y =>
                  if (x =? 2) && (y <=? 3) then (20 + y, r2) :: one
                  else if x <=? 1 then (10 * x + y, r2) :: one
                  else one
              | None => one
              end
          | EmptyString => one
          end
      end
  | EmptyString => []
  end.

(** The directive [%M] is the pattern [[0-5]\d|\d]. *)
Definition minute_alternatives (s : string) : list (Z * string) :=
  match s with
  | String a r1 =>
      match digit_of a with
      | None => []
      | Some x =>
          let one := [(x, r1)] in
          match r1 with
          | String b r2 =>
              match digit_of b with
              | Some y => if x <=? 5 then (10 * x + y, r2) :: one else one
              | None => one
              end
          | EmptyString => one
          end
      end
  | EmptyString => []
  end.

Fixpoint first_success {A B} (f : A -> option B) (xs : list A) : option B :=
  match xs with
  | [] => None
  | x :: r => match f x with Some y => Some y | None => first_success f r end
  end.

(** After the hour the pattern asks for a colon and a minute; the first
    minute alternative that matches is taken. *)
Definition after_hour (h : Z) (rest : string) : option (Z * Z * string) :=
  match rest with
  | String c r =>
      if Ascii.eqb c ":"%char then
        match minute_alternatives r with
        | (m, tl) :: _ => Some (h, m, tl)
        | [] => None
        end
      else None
  | EmptyString => None
  end.

(** The match of the compiled format ['%H:%M'] at the start of [s]: hour,
    minute and the text left over. *)
Definition match_HM (s : string) : option (Z * Z * string) :=
  first_success (fun '(h, rest) => after_hour h rest) (hour_alternatives s).

(** [datetime.strptime(s, '%H:%M').time()]; [None] stands for the
    [ValueError] raised when the text does not match the format or when
    unconverted text remains. *)
Definition strptime_HM (s : string) : option time :=
  match match_HM s with
  | Some (h, m, tl) =>
      if String.eqb tl EmptyString then Some (Time h m 0 0) else None
  | None => None
  end.

End Clock.

(** ** Binary floating point, for the bonus and for the average *)

Module Binary64.

(** The double written [0.01] is [mantissa_001 * 2^-59]. *)
Definition mantissa_001 : Z := 5764607523034235.

(** [N / 2^e] rounded to the nearest integer, a tie going to the even one. *)
Definition round_shift (N e : Z) : Z :=
  let q := N / 2 ^ e in
  let r := N mod 2 ^ e in
  if 2 * r <? 2 ^ e then q
  else if 2 ^ e <? 2 * r then q + 1
  else if Z.even q then q else q + 1.

(** The product of the integer [n >= 0] and the double [0.01], rounded to a
    significand of 53 bits: the pair [(m, e)] stands for [m * 2^(e - 59)]. *)
Definition mul_001 (n : Z) : Z * Z :=
  let N := n * mantissa_001 in
  let e := Z.max 0 (Z.log2 N - 52) in
  (round_shift N e, e).

(** [int(n * 0.01)]; the sign is carried separately, as the format does. *)
Definition int_mul_001 (n : Z) : Z :=
  let '(m, e) := mul_001 (Z.abs n) in
  Z.sgn n * ((m * 2 ^ e) / 2 ^ 59).

(** [float(n)] for an integer [n], as an integer again: [n] rounded to a
    significand of 53 bits, which leaves integers below 2^53 as they are.
    An integer is converted this way before it is multiplied by a double. *)
Definition of_int (n : Z) : Z :=
  let e := Z.max 0 (Z.log2 (Z.abs n) - 52) in
  Z.sgn n * (round_shift (Z.abs n) e * 2 ^ e).

(** [N / D] for [D > 0], rounded to the nearest integer, a tie going to the
    even one. *)
Definition round_div (N D : Z) : Z :=
  let q := N / D in
  let r := N mod D in
  if 2 * r <? D then q
  else if D <? 2 * r then q + 1
  else if Z.even q then q else q + 1.

(** The exponent of the leading bit of the quotient [a / b] of two positive
    integers: the [k] with [2^k <= a / b < 2^(k+1)]. *)
Definition quotient_log2 (a b : Z) : Z :=
  let k := Z.log2 a - Z.log2 b in
  if a * 2 ^ Z.max 0 (- k) <? b * 2 ^ Z.max 0 k then k - 1 else k.

(** [a / b] for integers [a] and [b > 0]: the quotient rounded to a
    significand of 53 bits, a tie going to the even significand.  The pair
    [(m, e)] stands for the double [m * 2^e]. *)
Definition div (a b : Z) : Z * Z :=
  if a =? 0 then (0, 0)
  else
    let e := quotient_log2 (Z.abs a) b - 52 in
    (Z.sgn a * round_div (Z.abs a * 2 ^ Z.max 0 (- e)) (b * 2 ^ Z.max 0 e), e).

(** [round(x, 2)] for the double [x = m * 2^e], in hundredths: the multiple
    of 0.01 nearest to the exact value of the double, a tie going to the even
    hundredth. *)
Definition round2 (x : Z * Z) : Z :=
  let '(m, e) := x in
  round_div (100 * m * 2 ^ Z.max 0 e) (2 ^ Z.max 0 (- e)).

End Binary64.

(** ** The entity store ([utils/data_manager.py]) *)

Module DataManager.

Record Product := mkProduct {
  p_id : Z;
  p_name : string;
  p_price : Z;
  p_category_id : Z;
  p_available : option bool
}.

Record User := mkUser {
  telegram_id : Z;
  first_name : option string;
  u_phone : option string;
  addresses : list string;
  bonus_points : option Z;
  total_orders : option Z
}.

(** A cart line, also a line of a stored order. *)
Record Item := mkItem {
  product_id : Z;
  product_name : string;
  price : Z;
  quantity : Z
}.

(** The dictionary [order_data] handed to [create_order]. *)
Record OrderData := mkOrderData {
  user_id : Z;
  items : list Item;
  subtotal : Z;
  delivery_cost : Z;
  discount : Z;
  promo_code : option string;
  total : Z;
  delivery_address : option string;
  phone : option string;
  payment_method : string;
  comment : string
}.

(** A stored order: [order_data] with the keys the store adds. *)
Record Order := mkOrder {
  id : Z;
  status : string;
  created_at : list Z;
  delivered_at : option (list Z);
  data : OrderData
}.

(** [expiry_date] holds a date that ['%Y-%m-%d'] accepts. *)
Record Promo := mkPromo {
  code : string;
  active : bool;
  min_order : option Z;
  expiry_date : Clock.date;
  max_uses : option Z;
  current_uses : option Z;
  discount_percent : option Z;
  discount_fixed : option Z
}.

(** [statistics] of settings.yaml.  [average_order] is in hundredths: it is
    the decimal with two places that [round] arrives at, of which the source
    stores the nearest double. *)
Record Statistics := mkStatistics {
  s_total_orders : Z;
  s_total_revenue : Z;
  s_average_order : Z
}.

(** The documents products.yaml, users.yaml, orders.yaml, promocodes.yaml
    and the [statistics] entry of settings.yaml. *)
Record Store := mkStore {
  products : list Product;
  users : list User;
  orders : list Order;
  promocodes : list Promo;
  statistics : option Statistics
}.

Definition set_users (us : list User) (st : Store) : Store :=
  mkStore (products st) us (orders st) (promocodes st) (statistics st).

Definition set_orders (os : list Order) (st : Store) : Store :=
  mkStore (products st) (users st) os (promocodes st) (statistics st).

Definition set_promocodes (ps : list Promo) (st : Store) : Store :=
  mkStore (products st) (users st) (orders st) ps (statistics st).

Definition set_statistics (s : Statistics) (st : Store) : Store :=
  mkStore (products st) (users st) (orders st) (promocodes st) (Some s).

(** *** Products *)

Definition get_product (st : Store) (pid : Z) : option Product :=
  Py.first (fun p => p_id p =? pid) (products st).

(** *** Users *)

Definition get_user (st : Store) (uid : Z) : option User :=
  Py.first (fun u => telegram_id u =? uid) (users st).

(** [update_user(telegram_id, updates)]: [updates] is merged into the
    first user with that id. *)
Definition update_user (uid : Z) (updates : User -> User) (st : Store) : Store :=
  set_users (Py.update_first (fun u => telegram_id u =? uid) updates (users st)) st.

Definition with_total_orders (n : Z) (u : User) : User :=
  mkUser (telegram_id u) (first_name u) (u_phone u) (addresses u)
         (bonus_points u) (Some n).

Definition with_bonus_points (n : Z) (u : User) : User :=
  mkUser (telegram_id u) (first_name u) (u_phone u) (addresses u)
         (Some n) (total_orders u).

Definition add_bonus_points (uid : Z) (points : Z) (st : Store) : Store :=
  match get_user st uid with
  | Some user =>
      let current_points := default 0 (bonus_points user) in
      update_user uid (with_bonus_points (current_points + points)) st
  | None => st
  end.

(** *** Statistics *)

Definition _update_statistics (order_total : Z) (st : Store) : Store :=
  let old := statistics st in
  let total_orders := from_option s_total_orders 0 old + 1 in
  let total_revenue := from_option s_total_revenue 0 old + order_total in
  let average_order :=
    if 0 <? total_orders
    then Binary64.round2 (Binary64.div total_revenue total_orders)
    else 0 in
  set_statistics (mkStatistics total_orders total_revenue average_order) st.

(** *** Orders *)

Definition create_order (now : Clock.datetime) (order_data : OrderData)
    (st : Store) : Store * Z :=
  let order_id := Py.max_default (map id (orders st)) 0 + 1 in
  let order := mkOrder order_id "new" (Clock.strftime now) None order_data in
  let st1 := set_orders (orders st ++ [order]) st in
  let st2 :=
    match get_user st1 (user_id order_data) with
    | Some user =>
        let st' :=
          update_user (user_id order_data)
            (with_total_orders (default 0 (total_orders user) + 1)) st1 in
        let bonus :=
          Binary64.int_mul_001 (Binary64.of_int (total order_data)) in
        if 0 <? bonus then add_bonus_points (user_id order_data) bonus st'
        else st'
    | None => st1
    end in
  (_update_statistics (total order_data) st2, order_id).

Definition get_order (st : Store) (order_id : Z) : option Order :=
  Py.first (fun o => id o =? order_id) (orders st).

(** The body of the loop of [update_order_status] on the matching order. *)
Definition stamp_status (now : Clock.datetime) (new_status : string)
    (o : Order) : Order :=
  mkOrder (id o) new_status (created_at o)
          (if String.eqb new_status "delivered"
           then Some (Clock.strftime now) else delivered_at o)
          (data o).

Definition update_order_status (now : Clock.datetime) (order_id : Z)
    (new_status : string) (st : Store) : Store :=
  set_orders
    (Py.update_first (fun o => id o =? order_id)
                     (stamp_status now new_status) (orders st)) st.

(** *** Promo codes *)

Definition code_matches (c : string) (p : Promo) : bool :=
  String.eqb (Py.upper (code p)) (Py.upper c).

Definition get_promocode (st : Store) (c : string) : option Promo :=
  Py.first (code_matches c) (promocodes st).

(** The body of [if promo:] in [check_promocode]: minimum order, expiry,
    usage limit, in this order. *)
Definition check_conditions (now : Clock.datetime) (order_total : Z)
    (promo : Promo) : option Promo :=
  if order_total <? default 0 (min_order promo) then None
  else if Clock.datetime_gt now (Clock.midnight (expiry_date promo)) then None
  else
    match max_uses promo with
    | Some cap =>
        if cap <=? default 0 (current_uses promo) then None else Some promo
    | None => Some promo
    end.

Definition check_promocode (now : Clock.datetime) (st : Store) (c : string)
    (order_total : Z) : option Promo :=
  match Py.first (fun p => code_matches c p && active p) (promocodes st) with
  | Some promo => check_conditions now order_total promo
  | None => None
  end.

(** A missing key, [None] and 0 are all false. *)
Definition nonzero (x : option Z) : bool :=
  match x with Some v => negb (v =? 0) | None => false end.

(** [order_total * percent / 100] is a true division in the source; here
    the quotient is cut to whole currency units. *)
Definition calculate_discount (promo : Promo) (order_total : Z) : Z :=
  if nonzero (discount_percent promo)
  then order_total * default 0 (discount_percent promo) / 100
  else if nonzero (discount_fixed promo)
  then Z.min (default 0 (discount_fixed promo)) order_total
  else 0.

Definition increment_uses (p : Promo) : Promo :=
  mkPromo (code p) (active p) (min_order p) (expiry_date p) (max_uses p)
          (Some (default 0 (current_uses p) + 1))
          (discount_percent p) (discount_fixed p).

Definition use_promocode (c : string) (st : Store) : Store :=
  set_promocodes (Py.update_first (code_matches c) increment_uses (promocodes st)) st.

(** *** Lists of orders *)

Definition get_user_orders (st : Store) (uid : Z) : list Order :=
  Py.sorted_desc created_at
    (filter (fun o => user_id (data o) = uid) (orders st)).

(** [if status:] is false for [None] and for the empty text. *)
Definition get_all_orders (st : Store) (wanted : option string) : list Order :=
  match wanted with
  | Some s =>
      if Py.truthy s then filter (fun o => status o = s) (orders st)
      else Py.sorted_desc created_at (orders st)
  | None => Py.sorted_desc created_at (orders st)
  end.

Definition get_pending_orders (st : Store) : list Order :=
  Py.sorted_desc created_at
    (filter (fun o => status o <> "delivered"%string
                      /\ status o <> "cancelled"%string) (orders st)).

(** A series of status changes of one order, each at its own moment. *)
Definition update_order_statuses (order_id : Z)
    (changes : list (Clock.datetime * string)) (st : Store) : Store :=
  fold_left (fun st '(now, s) => update_order_status now order_id s st)
            changes st.

(** *** The menu *)

(** [if category_id:] is false for [None] and for 0. *)
Definition get_products (st : Store) (category_id : option Z) : list Product :=
  match category_id with
  | Some c =>
      if negb (c =? 0)
      then List.filter (fun p => (p_category_id p =? c)
                                 && default true (p_available p)) (products st)
      else List.filter (fun p => default true (p_available p)) (products st)
  | None => List.filter (fun p => default true (p_available p)) (products st)
  end.

Definition get_all_products (st : Store) : list Product := products st.

Definition set_products (ps : list Product) (st : Store) : Store :=
  mkStore ps (users st) (orders st) (promocodes st) (statistics st).

(** [update_product(product_id, updates)]: [updates] is merged into the
    first product with that id. *)
Definition update_product (pid : Z) (updates : Product -> Product) (st : Store)
    : Store :=
  set_products (Py.update_first (fun p => p_id p =? pid) updates (products st)) st.

Definition with_available (b : bool) (p : Product) : Product :=
  mkProduct (p_id p) (p_name p) (p_price p) (p_category_id p) (Some b).

Definition with_price (n : Z) (p : Product) : Product :=
  mkProduct (p_id p) (p_name p) n (p_category_id p) (p_available p).

Definition delete_product (pid : Z) (st : Store) : Store :=
  update_product pid (with_available false) st.

(** *** Saved addresses *)

Definition with_addresses (a : list string) (u : User) : User :=
  mkUser (telegram_id u) (first_name u) (u_phone u) a
         (bonus_points u) (total_orders u).

Definition add_user_address (uid : Z) (address : string) (st : Store) : Store :=
  match get_user st uid with
  | Some user =>
      if existsb (String.eqb address) (addresses user) then st
      else update_user uid (with_addresses (addresses user ++ [address])) st
  | None => st
  end.

(** *** Adding promo codes *)

Definition get_all_promocodes (st : Store) : list Promo := promocodes st.

Definition add_promocode (promo_data : Promo) (st : Store) : Store :=
  set_promocodes (promocodes st ++ [promo_data]) st.

End DataManager.

(** ** The promo-code operations over any case mapping

    The source compares codes through [str.upper()], which maps the letters
    of every script, while [Py.upper] maps the letters a-z.  Here are the
    operations that compare codes once more, with the case mapping left
    open: [upper] stands for [str.upper()] on any text.  With [Py.upper]
    for [upper] they are the operations of [DataManager]. *)

Module Promocodes.
Import DataManager.

Section CaseMapping.
Variable upper : string -> string.

(** [p['code'].upper() == code.upper()]. *)
Definition code_matches (c : string) (p : Promo) : bool :=
  String.eqb (upper (code p)) (upper c).

Definition get_promocode (st : Store) (c : string) : option Promo :=
  Py.first (code_matches c) (promocodes st).

Definition check_promocode (now : Clock.datetime) (st : Store) (c : string)
    (order_total : Z) : option Promo :=
  match Py.first (fun p => code_matches c p && active p) (promocodes st) with
  | Some promo => check_conditions now order_total promo
  | None => None
  end.

Definition use_promocode (c : string) (st : Store) : Store :=
  set_promocodes (Py.update_first (code_matches c) increment_uses (promocodes st)) st.

End CaseMapping.

End Promocodes.

(** ** Pricing and validation ([handlers/order_handlers.py]) *)

Module OrderHandlers.
Import DataManager.

(** The [delivery] section of config.yaml. *)
Record Config := mkConfig {
  min_order_amount : option Z;
  free_delivery_from : option Z;
  cfg_delivery_cost : option Z;
  wh_start : option string;
  wh_end : option string
}.

Definition ORDER_STATUSES : list string :=
  ["new"; "accepted"; "preparing"; "on_the_way"; "delivered"]%string.

(** [xs.index(x)] for an [x] known to be in [xs]. *)
Fixpoint index (x : string) (xs : list string) : nat :=
  match xs with
  | [] => 0
  | y :: r => if String.eqb y x then 0%nat else S (index x r)
  end.

Definition get_next_status (current_status : string) : string :=
  if existsb (String.eqb current_status) ORDER_STATUSES then
    let current_index := index current_status ORDER_STATUSES in
    if (current_index <? List.length ORDER_STATUSES - 1)%nat
    then default current_status (ORDER_STATUSES !! (current_index + 1)%nat)
    else current_status
  else current_status.

Definition line_amount (item : Item) : Z := price item * quantity item.

Record Totals := mkTotals {
  t_subtotal : Z;
  t_delivery_cost : Z;
  t_discount : Z;
  t_total : Z
}.

Definition calculate_order_totals (cart : list Item) (delivery_cost discount : Z)
    : Totals :=
  let subtotal := Py.sum (map line_amount cart) in
  let total := subtotal + delivery_cost - discount in
  mkTotals subtotal delivery_cost discount (Z.max 0 total).

Definition get_delivery_cost (subtotal : Z) (config : Config) : Z :=
  let free_from := default 1500 (free_delivery_from config) in
  let delivery_cost := default 200 (cfg_delivery_cost config) in
  if free_from <=? subtotal then 0 else delivery_cost.

Definition start_str (config : Config) : string :=
  default "10:00"%string (wh_start config).

Definition end_str (config : Config) : string :=
  default "23:00"%string (wh_end config).

(** The [try] block: both texts are parsed before any comparison, and a
    [ValueError] from either sends control to [return True]. *)
Definition is_order_within_working_hours (config : Config)
    (now : Clock.datetime) : bool :=
  match Clock.strptime_HM (start_str config) with
  | Some start_time =>
      match Clock.strptime_HM (end_str config) with
      | Some end_time =>
          let current_time := Clock.tod now in
          if Clock.time_le start_time end_time
          then Clock.time_le start_time current_time
               && Clock.time_le current_time end_time
          else Clock.time_le start_time current_time
               || Clock.time_le current_time end_time
      | None => true
      end
  | None => true
  end.

(** The three messages [validate_order] can return. *)
Inductive Rejection :=
| EmptyCart
| BelowMinimum (min_order : Z)
| OutsideHours (start finish : string).

Definition validate_order (cart : list Item) (config : Config)
    (now : Clock.datetime) : bool * option Rejection :=
  match cart with
  | [] => (false, Some EmptyCart)
  | _ =>
      let subtotal := Py.sum (map line_amount cart) in
      let min_order := default 0 (min_order_amount config) in
      if subtotal <? min_order then (false, Some (BelowMinimum min_order))
      else if negb (is_order_within_working_hours config now)
      then (false, Some (OutsideHours (start_str config) (end_str config)))
      else (true, None)
  end.

(** One entry of [by_status]. *)
Record StatusEntry := mkStatusEntry { se_count : Z; se_revenue : Z }.

(** The dictionary [get_order_statistics] returns.  [average_order] is kept
    as the pair of dividend and divisor of the source's division; the key
    [completed_orders] is missing where the source does not write it. *)
Record OrderStatistics := mkOrderStatistics {
  os_total_orders : Z;
  os_total_revenue : Z;
  os_average_order : Z * Z;
  os_completed_orders : option Z;
  os_by_status : gmap string StatusEntry
}.

(** One round of the loop over the orders. *)
Definition count_order (by_status : gmap string StatusEntry) (order : Order)
  : gmap string StatusEntry :=
  let entry := default (mkStatusEntry 0 0) (by_status !! status order) in
  <[status order := mkStatusEntry (se_count entry + 1)
                                  (se_revenue entry + total (data order))]>
    by_status.

Definition get_order_statistics (orders : list Order) : OrderStatistics :=
  match orders with
  | [] => mkOrderStatistics 0 0 (0, 1) None ∅
  | _ =>
      let total_revenue :=
        Py.sum (map (fun o => total (data o))
                    (filter (fun o => status o <> "cancelled"%string) orders)) in
      let completed := filter (fun o => status o = "delivered"%string) orders in
      mkOrderStatistics
        (Z.of_nat (List.length orders))
        total_revenue
        (total_revenue, Z.of_nat (List.length orders))
        (Some (Z.of_nat (List.length completed)))
        (fold_left count_order orders ∅)
  end.

End OrderHandlers.

(** ** Customer handlers ([handlers/user_handlers.py]) *)

Module UserHandlers.
Import DataManager.

(** [context.user_data] of one customer. *)
Record Session := mkSession {
  ud_cart : option (list Item);
  ud_current_quantity : option Z;
  ud_order_subtotal : option Z;
  ud_delivery_cost : option Z;
  ud_order_total : option Z;
  ud_discount : option Z;
  ud_promo_code : option string;
  ud_delivery_address : option string;
  ud_phone : option string
}.

(** The empty dictionary a customer starts with. *)
Definition empty_session : Session :=
  mkSession None None None None None None None None None.

Definition set_cart (c : list Item) (ud : Session) : Session :=
  mkSession (Some c) (ud_current_quantity ud) (ud_order_subtotal ud)
            (ud_delivery_cost ud) (ud_order_total ud) (ud_discount ud)
            (ud_promo_code ud) (ud_delivery_address ud) (ud_phone ud).

Definition set_current_quantity (q : Z) (ud : Session) : Session :=
  mkSession (ud_cart ud) (Some q) (ud_order_subtotal ud)
            (ud_delivery_cost ud) (ud_order_total ud) (ud_discount ud)
            (ud_promo_code ud) (ud_delivery_address ud) (ud_phone ud).

(** What the handlers answer. *)
Inductive Reply :=
| ProductNotFound
| ProductShown (quantity : Z)
| AddedToCart (name : string) (quantity : Z)
| CartEmpty
| CartShown (cart : list Item)
| MinimumOrder (amount : Z)
| CheckoutShown
| PromoApplied (discount : Z)
| PromoInvalid
| AddressMissing
| PhoneMissing
| PaymentShown
| OrderCreated (order_id : Z)
| OrderNotFound
| NoAvailableItems
| CannotCancel
| OrderCancelled (order_id : Z).

Inductive QtyButton := QtyMinus | QtyPlus.
Inductive CartButton :=
| CartMinus (pid : Z) | CartPlus (pid : Z) | RemoveFromCart (pid : Z).
Inductive PayButton := PayCash | PayCardOnDelivery | PayOnline.

(** *** Choosing a product and a quantity *)

Definition product_callback (pid : Z) (st : Store) (ud : Session)
    : Session * Reply :=
  match get_product st pid with
  | None => (ud, ProductNotFound)
  | Some _ => (set_current_quantity 1 ud, ProductShown 1)
  end.

Definition quantity_callback (b : QtyButton) (ud : Session) : Session * Reply :=
  let current_qty := default 1 (ud_current_quantity ud) in
  let current_qty :=
    match b with
    | QtyMinus => if 1 <? current_qty then current_qty - 1 else current_qty
    | QtyPlus => if current_qty <? 99 then current_qty + 1 else current_qty
    end in
  (set_current_quantity current_qty ud, ProductShown current_qty).

(** *** The cart *)

Definition add_quantity (n : Z) (item : Item) : Item :=
  mkItem (product_id item) (product_name item) (price item) (quantity item + n).

Definition has_product (pid : Z) (item : Item) : bool := product_id item =? pid.

Definition add_to_cart_callback (pid : Z) (st : Store) (ud : Session)
    : Session * Reply :=
  let quantity := default 1 (ud_current_quantity ud) in
  match get_product st pid with
  | None => (ud, ProductNotFound)
  | Some product =>
      let cart := default [] (ud_cart ud) in
      let cart :=
        match Py.first (has_product pid) cart with
        | Some _ => Py.update_first (has_product pid) (add_quantity quantity) cart
        | None => cart ++ [mkItem pid (p_name product) (p_price product) quantity]
        end in
      (set_cart cart ud, AddedToCart (p_name product) quantity)
  end.

(** The loop of [cart_modify_callback] for the minus and plus buttons.  It
    stops at the first line of the product.  [cart.remove(item)] deletes
    the first line equal to [item]; every line before [item] has another
    product id, so the line deleted is [item] itself. *)
Fixpoint modify_quantity (minus : bool) (pid : Z) (cart : list Item) : list Item :=
  match cart with
  | [] => []
  | item :: rest =>
      if has_product pid item then
        if minus then
          let item := add_quantity (-1) item in
          if quantity item <=? 0 then rest else item :: rest
        else add_quantity 1 item :: rest
      else item :: modify_quantity minus pid rest
  end.

Definition show_cart (cart : list Item) : Reply :=
  match cart with [] => CartEmpty | _ => CartShown cart end.

Definition cart_modify_callback (b : CartButton) (ud : Session)
    : Session * Reply :=
  let cart := default [] (ud_cart ud) in
  let cart :=
    match b with
    | CartMinus pid => modify_quantity true pid cart
    | CartPlus pid => modify_quantity false pid cart
    | RemoveFromCart pid => filter (fun item => product_id item ≠ pid) cart
    end in
  (set_cart cart ud, show_cart cart).

Definition clear_cart_callback (ud : Session) : Session * Reply :=
  (set_cart [] ud, CartEmpty).

(** *** Checkout *)

Definition checkout_callback (config : OrderHandlers.Config) (uid : Z)
    (st : Store) (ud : Session) : Session * Reply :=
  match default [] (ud_cart ud) with
  | [] => (ud, CartEmpty)
  | cart =>
      let user := get_user st uid in
      let total := Py.sum (map OrderHandlers.line_amount cart) in
      let min_order := default 0 (OrderHandlers.min_order_amount config) in
      if total <? min_order then (ud, MinimumOrder min_order)
      else
        let free_delivery_from :=
          default 1500 (OrderHandlers.free_delivery_from config) in
        let delivery_cost :=
          if total <? free_delivery_from
          then default 200 (OrderHandlers.cfg_delivery_cost config) else 0 in
        let address := user ≫= (fun u => head (addresses u)) in
        let phone := user ≫= u_phone in
        (mkSession (ud_cart ud) (ud_current_quantity ud) (Some total)
                   (Some delivery_cost) (Some (total + delivery_cost))
                   (Some 0) (ud_promo_code ud) address phone,
         CheckoutShown)
  end.

Definition receive_promocode (now : Clock.datetime) (text : string)
    (st : Store) (ud : Session) : Session * Reply :=
  let code := Py.upper (Py.strip text) in
  let subtotal := default 0 (ud_order_subtotal ud) in
  match check_promocode now st code subtotal with
  | Some promo =>
      let discount := calculate_discount promo subtotal in
      (mkSession (ud_cart ud) (ud_current_quantity ud) (ud_order_subtotal ud)
                 (ud_delivery_cost ud)
                 (Some (subtotal + default 0 (ud_delivery_cost ud) - discount))
                 (Some discount) (Some code)
                 (ud_delivery_address ud) (ud_phone ud),
       PromoApplied discount)
  | None => (ud, PromoInvalid)
  end.

Definition is_set (x : option string) : bool :=
  match x with Some v => Py.truthy v | None => false end.

(** [confirm_order_callback] changes nothing; it offers the payment buttons
    once an address and a phone number are known. *)
Definition confirm_order_callback (ud : Session) : Reply :=
  if negb (is_set (ud_delivery_address ud)) then AddressMissing
  else if negb (is_set (ud_phone ud)) then PhoneMissing
  else PaymentShown.

Definition payment_name (b : PayButton) : string :=
  match b with
  | PayCash => "cash"
  | PayCardOnDelivery => "card_on_delivery"
  | PayOnline => "online"
  end.

Definition payment_method_callback (now : Clock.datetime) (b : PayButton)
    (uid : Z) (st : Store) (ud : Session) : Store * Session * Reply :=
  let order_data :=
    mkOrderData uid (default [] (ud_cart ud))
                (default 0 (ud_order_subtotal ud))
                (default 0 (ud_delivery_cost ud))
                (default 0 (ud_discount ud))
                (ud_promo_code ud)
                (default 0 (ud_order_total ud))
                (ud_delivery_address ud) (ud_phone ud)
                (payment_name b) "" in
  let '(st, order_id) := create_order now order_data st in
  let st :=
    match ud_promo_code ud with
    | Some c => if Py.truthy c then use_promocode c st else st
    | None => st
    end in
  (st,
   mkSession (Some []) (ud_current_quantity ud) (ud_order_subtotal ud)
             (ud_delivery_cost ud) (ud_order_total ud) (Some 0) None
             (ud_delivery_address ud) (ud_phone ud),
   OrderCreated order_id).

(** *** Past orders *)

(** One round of the loop of [reorder_callback]. *)
Definition reorder_step (st : Store) (cart : list Item) (item : Item) : list Item :=
  match get_product st (product_id item) with
  | Some product =>
      if default true (p_available product)
      then cart ++ [mkItem (product_id item) (product_name item)
                           (p_price product) (quantity item)]
      else cart
  | None => cart
  end.

Definition reorder_callback (order_id : Z) (st : Store) (ud : Session)
    : Session * Reply :=
  match get_order st order_id with
  | None => (ud, OrderNotFound)
  | Some order =>
      let cart := fold_left (reorder_step st) (items (data order)) [] in
      match cart with
      | [] => (set_cart cart ud, NoAvailableItems)
      | _ => (set_cart cart ud, CartShown cart)
      end
  end.

Definition not_cancellable (s : string) : bool :=
  existsb (String.eqb s) ["on_the_way"; "delivered"; "cancelled"]%string.

Definition cancel_order_callback (now : Clock.datetime) (order_id : Z)
    (st : Store) : Store * Reply :=
  match get_order st order_id with
  | None => (st, OrderNotFound)
  | Some order =>
      if not_cancellable (status order) then (st, CannotCancel)
      else (update_order_status now order_id "cancelled" st,
            OrderCancelled order_id)
  end.

(** *** The bot as a whole: one store, one session per customer

    An action is a button pressed or, for the promo code, the text sent
    after the button that asks for it. *)

Inductive Action :=
| PressProduct (pid : Z)
| PressQuantity (b : QtyButton)
| PressAddToCart (pid : Z)
| PressCart (b : CartButton)
| PressClearCart
| PressCheckout
| SendPromocode (text : string)
| PressConfirm
| PressPay (b : PayButton)
| PressReorder (order_id : Z)
| PressCancel (order_id : Z).

(** An update of the chat: who, what and when. *)
Record Update := mkUpdate {
  upd_user : Z;
  upd_now : Clock.datetime;
  upd_action : Action
}.

Record Bot := mkBot {
  store : Store;
  sessions : gmap Z Session
}.

Definition session_of (bot : Bot) (uid : Z) : Session :=
  default empty_session (sessions bot !! uid).

Definition handle (config : OrderHandlers.Config) (bot : Bot) (u : Update)
    : Bot :=
  let uid := upd_user u in
  let now := upd_now u in
  let st := store bot in
  let ud := session_of bot uid in
  let '(st, ud) :=
    match upd_action u with
    | PressProduct pid => (st, fst (product_callback pid st ud))
    | PressQuantity b => (st, fst (quantity_callback b ud))
    | PressAddToCart pid => (st, fst (add_to_cart_callback pid st ud))
    | PressCart b => (st, fst (cart_modify_callback b ud))
    | PressClearCart => (st, fst (clear_cart_callback ud))
    | PressCheckout => (st, fst (checkout_callback config uid st ud))
    | SendPromocode text => (st, fst (receive_promocode now text st ud))
    | PressConfirm => (st, ud)
    | PressPay b => fst (payment_method_callback now b uid st ud)
    | PressReorder order_id => (st, fst (reorder_callback order_id st ud))
    | PressCancel order_id => (fst (cancel_order_callback now order_id st), ud)
    end in
  mkBot st (<[uid := ud]> (sessions bot)).

Definition run (config : OrderHandlers.Config) (bot : Bot)
    (updates : list Update) : Bot :=
  fold_left (handle config) updates bot.

End UserHandlers.

(** ** utils/keyboards.py: the inline keyboards that carry order ids

    A keyboard is a list of rows of buttons; a button has a label and the
    [callback_data] that comes back as [query.data] when it is pressed.
    The data is built with an f-string, so building a keyboard fails
    ([None]) where printing the order id fails. *)

Module Keyboards.

Record Button := mkButton { text : string; callback_data : string }.

Definition InlineKeyboardMarkup := list (list Button).

Definition get_order_detail_keyboard (order_id : Z) (status : string)
  : option InlineKeyboardMarkup :=
  let back := [mkButton "⬅️ К списку заказов" "back_to_orders"] in
  if String.eqb status "delivered" then
    match Py.str order_id with
    | Some s => Some [[mkButton "🔄 Повторить заказ" ("reorder_" ++ s)]; back]
    | None => None
    end
  else if negb (existsb (String.eqb status)
                        ["cancelled"; "on_the_way"; "delivered"]%string) then
    match Py.str order_id with
    | Some s =>
        Some [[mkButton "❌ Отменить заказ" ("cancel_order_" ++ s)]; back]
    | None => None
    end
  else Some [back].

(** The status codes of the admin keyboard with their labels. *)
Definition statuses : list (string * string) :=
  [("new", "🆕 Новый"); ("accepted", "✅ Принят");
   ("preparing", "👨‍🍳 Готовится"); ("on_the_way", "🚗 В пути");
   ("delivered", "📦 Доставлен"); ("cancelled", "❌ Отменён")]%string.

Definition status_button (order_id : Z) (entry : string * string)
  : option (list Button) :=
  match Py.str order_id with
  | Some s =>
      Some [mkButton (snd entry) ("set_status_" ++ s ++ "_" ++ fst entry)]
  | None => None
  end.

Definition get_admin_order_status_keyboard (order_id : Z)
    (current_status : string) : option InlineKeyboardMarkup :=
  match mapM (status_button order_id)
             (filter (fun entry => fst entry <> current_status) statuses) with
  | Some buttons =>
      Some (buttons ++ [[mkButton "⬅️ Назад" "admin_back_to_orders"]])
  | None => None
  end.

(** The keyboard under a product.  The label in the middle is the quantity
    chosen so far. *)
Definition get_product_quantity_keyboard (product_id quantity : Z)
  : option InlineKeyboardMarkup :=
  match Py.str product_id with
  | None => None
  | Some p =>
      match Py.str quantity with
      | None => None
      | Some q =>
          Some [[mkButton "➖" ("qty_minus_" ++ p);
                 mkButton q ("qty_show_" ++ p);
                 mkButton "➕" ("qty_plus_" ++ p)];
                [mkButton "🛒 Добавить в корзину" ("add_to_cart_" ++ p)];
                [mkButton "⬅️ Назад" "back_to_products"]]
      end
  end.

(** The row of one cart line.  The label of the first button carries the
    first 20 characters of the product name. *)
Definition cart_row (item : DataManager.Item) : option (list Button) :=
  match Py.str (DataManager.product_id item) with
  | None => None
  | Some p =>
      match Py.str (DataManager.quantity item) with
      | None => None
      | Some q =>
          Some [mkButton ("❌ " ++ Py.take_chars 20
                                     (DataManager.product_name item))
                         ("remove_from_cart_" ++ p);
                mkButton "➖" ("cart_minus_" ++ p);
                mkButton q "noop";
                mkButton "➕" ("cart_plus_" ++ p)]
      end
  end.

Definition get_cart_keyboard (cart_items : list DataManager.Item)
    (has_items : bool) : option InlineKeyboardMarkup :=
  let shopping := [mkButton "🍱 Продолжить покупки" "continue_shopping"] in
  if has_items then
    match mapM cart_row cart_items with
    | Some rows =>
        Some (rows ++ [[mkButton "🗑 Очистить корзину" "clear_cart"];
                       [mkButton "✅ Оформить заказ" "checkout"];
                       shopping])
    | None => None
    end
  else Some [shopping].

(** The keyboard under a product in the admin menu: hide for a product that
    is shown, show for one that is hidden. *)
Definition get_admin_product_actions_keyboard (product_id : Z)
    (is_available : bool) : option InlineKeyboardMarkup :=
  match Py.str product_id with
  | None => None
  | Some p =>
      Some [[mkButton "✏️ Изменить цену" ("admin_edit_price_" ++ p)];
            [mkButton "📝 Изменить описание" ("admin_edit_desc_" ++ p)];
            (if is_available
             then [mkButton "🚫 Скрыть товар" ("admin_hide_" ++ p)]
             else [mkButton "✅ Показать товар" ("admin_show_" ++ p)]);
            [mkButton "⬅️ Назад" "admin_products"]]
  end.

End Keyboards.

(** ** handlers/admin_handlers.py: changing the status of an order *)

Module AdminHandlers.
Import DataManager.

Inductive Exception := ValueError | IndexError.

(** What [set_order_status_callback] answers; [StatusChanged] carries the
    status written, the customer who is notified and the pending orders that
    are listed afterwards. *)
Inductive Reply :=
| AccessDenied
| OrderNotFound
| StatusChanged (new_status : string) (customer : Z) (pending : list Order)
| Raised (e : Exception).

(** [admin_ids] is the list under [bot.admin_ids] of config.yaml, [None]
    when the key is missing. *)
Definition is_admin (admin_ids : option (list Z)) (user_id : Z) : bool :=
  existsb (Z.eqb user_id) (default [] admin_ids).

Definition set_order_status_callback (now : Clock.datetime)
    (admin_ids : option (list Z)) (user : Z) (query_data : string)
    (st : Store) : Store * Reply :=
  if negb (is_admin admin_ids user) then (st, AccessDenied)
  else
    let parts := Py.split "_" query_data in
    match nth_error parts 2 with
    | None => (st, Raised IndexError)
    | Some part =>
        match Py.int part with
        | None => (st, Raised ValueError)
        | Some order_id =>
            match nth_error parts 3 with
            | None => (st, Raised IndexError)
            | Some new_status =>
                match get_order st order_id with
                | None => (st, OrderNotFound)
                | Some order =>
                    let st' :=
                      update_order_status now order_id new_status st in
                    (st', StatusChanged new_status (user_id (data order))
                                        (get_pending_orders st'))
                end
            end
        end
    end.

(** How the price conversation goes on: the text is refused and asked for
    again, the price is written and confirmed, or the conversation ends
    without a word. *)
Inductive PriceReply :=
| PriceRejected
| PriceUpdated (new_price : Z)
| PriceSilent.

(** [admin_product_id] is the id [admin_edit_price_callback] has left in
    the session, [None] when there is none. *)
Definition receive_admin_price (text : string) (admin_product_id : option Z)
    (st : Store) : Store * PriceReply :=
  match Py.int (Py.strip text) with
  | None => (st, PriceRejected)
  | Some new_price =>
      if new_price <=? 0 then (st, PriceRejected)
      else
        match admin_product_id with
        | Some product_id =>
            if product_id =? 0 then (st, PriceSilent)
            else (update_product product_id (with_price new_price) st,
                  PriceUpdated new_price)
        | None => (st, PriceSilent)
        end
  end.

(** What [admin_toggle_product_callback] answers; the product list is the
    one shown afterwards. *)
Inductive ToggleReply :=
| ToggleDenied
| ToggleRaised (e : Exception)
| ProductHidden (products : list Product)
| ProductVisible (products : list Product).

Definition admin_toggle_product_callback (admin_ids : option (list Z))
    (user : Z) (query_data : string) (st : Store) : Store * ToggleReply :=
  if negb (is_admin admin_ids user) then (st, ToggleDenied)
  else
    match Py.int (List.last (Py.split "_" query_data) EmptyString) with
    | None => (st, ToggleRaised ValueError)
    | Some product_id =>
        if Py.contains "hide" query_data then
          let st' := update_product product_id (with_available false) st in
          (st', ProductHidden (get_all_products st'))
        else
          let st' := update_product product_id (with_available true) st in
          (st', ProductVisible (get_all_products st'))
    end.

End AdminHandlers.

(** ** handlers/user_handlers.py: the order buttons as they arrive

    The handlers of [UserHandlers] above take the order id; the source reads
    it from the data of the button with [int(query.data.split('_')[-1])].
    Here the handlers take [query.data]; [None] stands for the [ValueError]
    of [int], raised before anything is done. *)

Module CallbackQuery.
Import DataManager.

Definition last_int (query_data : string) : option Z :=
  Py.int (List.last (Py.split "_" query_data) EmptyString).

Definition reorder_callback (query_data : string) (st : Store)
    (ud : UserHandlers.Session)
  : option (UserHandlers.Session * UserHandlers.Reply) :=
  match last_int query_data with
  | Some order_id => Some (UserHandlers.reorder_callback order_id st ud)
  | None => None
  end.

Definition cancel_order_callback (now : Clock.datetime) (query_data : string)
    (st : Store) : option (Store * UserHandlers.Reply) :=
  match last_int query_data with
  | Some order_id => Some (UserHandlers.cancel_order_callback now order_id st)
  | None => None
  end.

(** What a handler does after its changes to the session: it answers, it
    returns without an answer, or it stops with a [TypeError]. *)
Inductive Outcome :=
| Answer (r : UserHandlers.Reply)
| NoAnswer
| TypeError.

(** The quantity buttons.  The new quantity is stored before the product is
    looked up; formatting the product fails when there is none. *)
Definition quantity_callback (query_data : string) (st : Store)
    (ud : UserHandlers.Session) : option (UserHandlers.Session * Outcome) :=
  match last_int query_data with
  | None => None
  | Some product_id =>
      let current_qty := default 1 (UserHandlers.ud_current_quantity ud) in
      let current_qty :=
        if Py.contains "minus" query_data && (1 <? current_qty)
        then current_qty - 1
        else if Py.contains "plus" query_data && (current_qty <? 99)
        then current_qty + 1
        else current_qty in
      Some (UserHandlers.set_current_quantity current_qty ud,
            match get_product st product_id with
            | Some _ => Answer (UserHandlers.ProductShown current_qty)
            | None => TypeError
            end)
  end.

Definition add_to_cart_callback (query_data : string) (st : Store)
    (ud : UserHandlers.Session)
  : option (UserHandlers.Session * UserHandlers.Reply) :=
  match last_int query_data with
  | Some product_id =>
      Some (UserHandlers.add_to_cart_callback product_id st ud)
  | None => None
  end.

(** The cart buttons: which button was pressed is read off the words in
    the data. *)
Definition cart_modify_callback (query_data : string)
    (ud : UserHandlers.Session) : option (UserHandlers.Session * Outcome) :=
  let run (b : UserHandlers.CartButton) :=
    let r := UserHandlers.cart_modify_callback b ud in
    Some (fst r, Answer (snd r)) in
  if Py.contains "cart_minus" query_data || Py.contains "cart_plus" query_data
  then
    match last_int query_data with
    | None => None
    | Some product_id =>
        if Py.contains "minus" query_data
        then run (UserHandlers.CartMinus product_id)
        else run (UserHandlers.CartPlus product_id)
    end
  else if Py.contains "remove_from_cart" query_data then
    match last_int query_data with
    | None => None
    | Some product_id => run (UserHandlers.RemoveFromCart product_id)
    end
  else Some (ud, NoAnswer).

End CallbackQuery.

(** ** Notions of the specification

    These follow the wording of the specification, not the code; the
    theorems below relate the two. *)

Module Spec.
Import DataManager.

(** The sum over the cart of unit price times quantity. *)
Fixpoint cart_sum (cart : list Item) : Z :=
  match cart with
  | [] => 0
  | item :: rest => price item * quantity item + cart_sum rest
  end.

(** A time of day as the number of microseconds since midnight. *)
Definition micros (t : Clock.time) : Z :=
  ((Clock.hour t * 60 + Clock.minute t) * 60 + Clock.second t) * 1000000
  + Clock.microsecond t.

(** The ranges of the fields of a [datetime.time]. *)
Definition valid_time (t : Clock.time) : Prop :=
  0 <= Clock.hour t < 24 /\ 0 <= Clock.minute t < 60 /\
  0 <= Clock.second t < 60 /\ 0 <= Clock.microsecond t < 1000000.

(** The usage counter of a promo code, 0 when it was never written. *)
Definition uses (p : Promo) : Z := default 0 (current_uses p).

(** The minimum order amount of a promo code, 0 when none is given. *)
Definition minimum (p : Promo) : Z := default 0 (min_order p).

(** The test of the code: [datetime.now() > expiry], the expiry date being
    read as the first instant of that day. *)
Definition past_expiry (now : Clock.datetime) (p : Promo) : Prop :=
  Clock.datetime_gt now (Clock.midnight (expiry_date p)) = true.

(** A usage cap is set and the counter has reached it. *)
Definition cap_reached (p : Promo) : Prop :=
  exists cap, max_uses p = Some cap /\ cap <= uses p.

(** The counter does not exceed the cap, when a cap is set. *)
Definition within_cap (p : Promo) : Prop :=
  forall cap, max_uses p = Some cap -> uses p <= cap.

(** Codes are unique up to letter case. *)
Definition unique_codes (ps : list Promo) : Prop :=
  NoDup (map (fun p => Py.upper (code p)) ps).

(** A line of a past order priced at today's price; nothing when the
    product is gone or marked unavailable. *)
Definition reprice (st : Store) (item : Item) : option Item :=
  match get_product st (product_id item) with
  | Some product =>
      if default true (p_available product)
      then Some (mkItem (product_id item) (product_name item)
                        (p_price product) (quantity item))
      else None
  | None => None
  end.

(** Every line of the cart has a quantity between [lo] and [hi]. *)
Definition quantities_within (lo hi : Z) (cart : list Item) : Prop :=
  Forall (fun item => lo <= quantity item <= hi) cart.

Definition quantities_at_least (lo : Z) (cart : list Item) : Prop :=
  Forall (fun item => lo <= quantity item) cart.

(** Order [a] was not created before order [b]. *)
Definition not_older (a b : Order) : Prop :=
  Py.lex_compare (created_at a) (created_at b) <> Lt.

(** The order still needs attention. *)
Definition pending (o : Order) : Prop :=
  status o <> "delivered"%string /\ status o <> "cancelled"%string.

(** Order ids are unique in the store. *)
Definition unique_ids (st : Store) : Prop := NoDup (map id (orders st)).

(** The code a customer has entered, if any, is in the registry and has
    not reached its cap. *)
Definition code_in_hand (st : Store) (ud : UserHandlers.Session) : Prop :=
  forall c, UserHandlers.ud_promo_code ud = Some c -> Py.truthy c = true ->
            exists p, get_promocode st c = Some p /\ ~ cap_reached p.

(** A cart holds one line per product, each with a quantity of 1 or more. *)
Definition cart_ok (cart : list Item) : Prop :=
  NoDup (map product_id cart) /\ quantities_at_least 1 cart.

(** The cart of a session is in order and the quantity chosen in the
    product view is between 1 and 99. *)
Definition session_ok (ud : UserHandlers.Session) : Prop :=
  cart_ok (default [] (UserHandlers.ud_cart ud))
  /\ 1 <= default 1 (UserHandlers.ud_current_quantity ud) <= 99.

(** Every session is in order, and so are the lines of every stored order. *)
Definition bot_ok (bot : UserHandlers.Bot) : Prop :=
  (forall uid ud, UserHandlers.sessions bot !! uid = Some ud -> session_ok ud)
  /\ Forall (fun o => cart_ok (items (data o)))
            (orders (UserHandlers.store bot)).

(** The statistics count every stored order and add up their totals. *)
Definition statistics_match (st : Store) : Prop :=
  from_option s_total_orders 0 (statistics st) = Z.of_nat (List.length (orders st))
  /\ from_option s_total_revenue 0 (statistics st)
     = foldr Z.add 0 (map (fun o => total (data o)) (orders st)).

(** Every character of a text satisfies [p]. *)
Fixpoint all_chars (p : ascii -> bool) (s : string) : bool :=
  match s with
  | EmptyString => true
  | String c r => p c && all_chars p r
  end.

(** The characters of a printed integer: digits and the minus sign. *)
Definition numeric_char (c : ascii) : bool :=
  Py.is_digit c || Ascii.eqb c "-".

(** The orders of one status, and the sum of the totals of some orders. *)
Definition with_status (s : string) (os : list Order) : list Order :=
  filter (fun o => status o = s) os.

Definition revenue_of (os : list Order) : Z :=
  foldr Z.add 0 (map (fun o => total (data o)) os).

(** Codes are unique up to the case mapping [upper]. *)
Definition unique_by (upper : string -> string) (ps : list Promo) : Prop :=
  NoDup (map (fun p => upper (code p)) ps).

(** The expiry date [d] has passed: the day of [now] is a later day. *)
Definition date_passed (now : Clock.datetime) (d : Clock.date) : Prop :=
  Clock.d_year d < Clock.year now
  \/ (Clock.d_year d = Clock.year now /\ Clock.d_month d < Clock.month now)
  \/ (Clock.d_year d = Clock.year now /\ Clock.d_month d = Clock.month now
      /\ Clock.d_day d < Clock.day now).

(** The day of [now] is the expiry date [d] and its first instant,
    00:00:00.000000, is over. *)
Definition expiry_day_begun (now : Clock.datetime) (d : Clock.date) : Prop :=
  Clock.d_year d = Clock.year now /\ Clock.d_month d = Clock.month now
  /\ Clock.d_day d = Clock.day now /\ 0 < micros (Clock.tod now).

(** A code with the expiry date [d] is refused for its date at [now]. *)
Definition expired (now : Clock.datetime) (d : Clock.date) : Prop :=
  date_passed now d \/ expiry_day_begun now d.

(** ASCII text: every byte is below 128.  On such text [Py.upper],
    [Py.strip] and [Py.int] are [str.upper()], [str.strip()] and [int()]. *)
Definition ascii (s : string) : Prop :=
  all_chars (fun c => (nat_of_ascii c <? 128)%nat) s = true.

Definition ascii_codes (ps : list Promo) : Prop :=
  Forall (fun p => ascii (code p)) ps.

(** The text of an update, if it carries one, is ASCII. *)
Definition ascii_update (u : UserHandlers.Update) : Prop :=
  match UserHandlers.upd_action u with
  | UserHandlers.SendPromocode text => ascii text
  | _ => True
  end.

End Spec.

(** ** Sample data used by the worked scenarios *)

Module Sample.
Import DataManager OrderHandlers UserHandlers.

Definition noon : Clock.datetime :=
  Clock.DateTime 2024 5 17 (Clock.Time 12 0 0 0).

Definition late_evening : Clock.datetime :=
  Clock.DateTime 2024 5 17 (Clock.Time 23 30 0 0).

(** An overnight window. *)
Definition night_config : Config :=
  mkConfig (Some 500) (Some 1500) (Some 200) (Some "22:00"%string)
           (Some "02:00"%string).

(** A daytime window. *)
Definition day_config : Config :=
  mkConfig (Some 500) (Some 1500) (Some 200) (Some "10:00"%string)
           (Some "23:00"%string).

Definition rolls : Item := mkItem 1 "Philadelphia" 300 2.

Definition evening_stamp : list Z := [2024; 5; 1; 19; 30; 0].

(** Two customers. *)
Definition customer : User :=
  mkUser 42 (Some "first"%string) (Some "+70000000042"%string)
         ["Lenina 10"%string] (Some 5) (Some 3).

Definition neighbour : User :=
  mkUser 43 (Some "second"%string) (Some "+70000000043"%string)
         ["Lenina 12"%string] (Some 0) (Some 0).

(** The menu: one product on sale, one withdrawn. *)
Definition philadelphia : Product := mkProduct 1 "Philadelphia" 350 1 (Some true).
Definition unagi : Product := mkProduct 2 "Unagi" 420 1 (Some false).

(** A delivered order of both products at the prices of its day, and an
    order still in the kitchen. *)
Definition past_items : list Item :=
  [mkItem 2 "Unagi" 400 1; mkItem 1 "Philadelphia" 300 2].

Definition past_order : Order :=
  mkOrder 7 "delivered" evening_stamp (Some [2024; 5; 1; 20; 15; 0])
          (mkOrderData 42 past_items 1000 0 0 None 1000
                       (Some "Lenina 10"%string) (Some "+70000000042"%string)
                       "cash" "").

Definition open_order : Order :=
  mkOrder 8 "preparing" [2024; 5; 17; 11; 40; 0] None
          (mkOrderData 43 [rolls] 600 200 0 None 800
                       (Some "Lenina 12"%string) (Some "+70000000043"%string)
                       "online" "").

(** A promo code that may be redeemed once. *)
Definition sale : Promo :=
  mkPromo "SALE10" true (Some 500) (Clock.Date 2024 12 31) (Some 1) (Some 0)
          (Some 10) None.

Definition shop : Store :=
  mkStore [philadelphia; unagi] [customer; neighbour] [past_order; open_order]
          [sale] (Some (mkStatistics 8 7000 87500)).

(** What the first customer is about to order: a total of 1000. *)
Definition draft : OrderData :=
  mkOrderData 42 [mkItem 1 "Philadelphia" 350 2; mkItem 3 "Miso" 100 1]
              800 200 0 None 1000
              (Some "Lenina 10"%string) (Some "+70000000042"%string) "cash" "".


(** The bot before any customer has written to it. *)
Definition opening : Bot := mkBot shop ∅.

Definition press (uid : Z) (a : Action) : Update := mkUpdate uid noon a.

(** A customer picks Philadelphia, raises the quantity to 2, puts it into
    the cart, goes to checkout and enters the promo code. *)
Definition shop_and_validate (uid : Z) : list Update :=
  [press uid (PressProduct 1); press uid (PressQuantity QtyPlus);
   press uid (PressAddToCart 1); press uid PressCheckout;
   press uid (SendPromocode "sale10")].

(** Two customers validate the code one after the other, and then pay one
    after the other. *)
Definition two_redemptions : list Update :=
  shop_and_validate 42 ++ shop_and_validate 43
  ++ [press 42 PressConfirm; press 42 (PressPay PayCash);
      press 43 PressConfirm; press 43 (PressPay PayOnline)].

(** A customer raises the quantity in the product view as far as it goes
    and puts the product into the cart. *)
Definition fill_cart : list Update :=
  [press 42 (PressProduct 1)]
  ++ replicate 120 (press 42 (PressQuantity QtyPlus))
  ++ [press 42 (PressAddToCart 1)].

End Sample.

(** * Properties *)

Import DataManager OrderHandlers UserHandlers.

(** ** Python built-ins *)

Lemma fold_left_add_shift (xs : list Z) (a : Z) :
  fold_left Z.add xs a = a + fold_left Z.add xs 0.
Proof.
  revert a. induction xs as [|x xs IH]; intros a.
  - simpl. lia.
  - change (fold_left Z.add xs (a + x) = a + fold_left Z.add xs (0 + x)).
    rewrite (IH (a + x)), (IH (0 + x)). lia.
Qed.

Lemma sum_cons (x : Z) (xs : list Z) : Py.sum (x :: xs) = x + Py.sum xs.
Proof. unfold Py.sum. simpl. now rewrite fold_left_add_shift. Qed.

Lemma sum_line_amounts (cart : list Item) :
  Py.sum (map line_amount cart) = Spec.cart_sum cart.
Proof.
  induction cart as [|item rest IH]; [reflexivity|].
  rewrite map_cons, sum_cons, IH. reflexivity.
Qed.

(** ** Order totals *)

(** C1. For every cart, delivery cost and discount, [calculate_order_totals]
    returns the sum over the cart of unit price times quantity as subtotal,
    the delivery cost and the discount as given, and
    max(0, subtotal + delivery cost - discount) as total; the total is never
    negative.  The function is total: it returns on every input. *)
Theorem calculate_order_totals_spec (cart : list Item) (delivery discount : Z) :
  calculate_order_totals cart delivery discount
  = mkTotals (Spec.cart_sum cart) delivery discount
             (Z.max 0 (Spec.cart_sum cart + delivery - discount))
  /\ 0 <= t_total (calculate_order_totals cart delivery discount).
Proof.
  unfold calculate_order_totals. rewrite sum_line_amounts. split.
  - reflexivity.
  - simpl. apply Z.le_max_l.
Qed.

(** The scenario of the specification: two rolls at 300 with a delivery fee
    of 200 come to 800. *)
Example totals_scenario :
  calculate_order_totals [Sample.rolls] (get_delivery_cost 600 Sample.day_config) 0
  = mkTotals 600 200 0 800.
Proof. reflexivity. Qed.

(** A discount larger than the order is cut off at zero. *)
Example totals_clamped :
  t_total (calculate_order_totals [Sample.rolls] 200 1000) = 0.
Proof. reflexivity. Qed.

(** ** Times of day *)

Lemma lex_compare_time (a b : Clock.time) :
  Spec.valid_time a -> Spec.valid_time b ->
  match Py.lex_compare (Clock.time_key a) (Clock.time_key b) with
  | Lt => Spec.micros a < Spec.micros b
  | Eq => Spec.micros a = Spec.micros b
  | Gt => Spec.micros b < Spec.micros a
  end.
Proof.
  destruct a as [h1 m1 s1 u1], b as [h2 m2 s2 u2].
  unfold Spec.valid_time, Spec.micros, Clock.time_key; simpl.
  intros Ha Hb.
  destruct (Z.compare_spec h1 h2); [|lia|lia].
  destruct (Z.compare_spec m1 m2); [|lia|lia].
  destruct (Z.compare_spec s1 s2); [|lia|lia].
  destruct (Z.compare_spec u1 u2); lia.
Qed.

(** On well-formed times the comparison of the code is the order of the
    moments of the day. *)
Lemma time_le_micros (a b : Clock.time) :
  Spec.valid_time a -> Spec.valid_time b ->
  Clock.time_le a b = true <-> Spec.micros a <= Spec.micros b.
Proof.
  intros Ha Hb. unfold Clock.time_le.
  pose proof (lex_compare_time a b Ha Hb) as H.
  destruct (Py.lex_compare _ _); split; intros; try lia; try reflexivity;
    discriminate.
Qed.

Lemma digit_of_range (c : ascii) (x : Z) :
  Clock.digit_of c = Some x -> 0 <= x <= 9.
Proof.
  unfold Clock.digit_of.
  destruct (_ && _)%bool eqn:E; [|discriminate].
  intros [= <-]. apply andb_prop in E as [E1 E2].
  apply Nat.leb_le in E1, E2. lia.
Qed.

Lemma hour_alternatives_range (s : string) (h : Z) (rest : string) :
  In (h, rest) (Clock.hour_alternatives s) -> 0 <= h < 24.
Proof.
  unfold Clock.hour_alternatives.
  destruct s as [|a r1]; [intros []|].
  destruct (Clock.digit_of a) as [x|] eqn:Ea; [|intros []].
  apply digit_of_range in Ea.
  assert (Hone : In (h, rest) [(x, r1)] -> 0 <= h < 24).
  { intros [[= <- <-]|[]]. lia. }
  destruct r1 as [|b r2]; [exact Hone|].
  destruct (Clock.digit_of b) as [y|] eqn:Eb; [|exact Hone].
  apply digit_of_range in Eb.
  destruct ((x =? 2) && (y <=? 3))%bool eqn:E1.
  - apply andb_prop in E1 as [E1 E2].
    intros [[= <- <-]|H]; [lia|auto].
  - destruct (x <=? 1) eqn:E2; [|exact Hone].
    apply Z.leb_le in E2.
    intros [[= <- <-]|H]; [lia|auto].
Qed.

Lemma minute_alternatives_range (s : string) (m : Z) (rest : string) :
  In (m, rest) (Clock.minute_alternatives s) -> 0 <= m < 60.
Proof.
  unfold Clock.minute_alternatives.
  destruct s as [|a r1]; [intros []|].
  destruct (Clock.digit_of a) as [x|] eqn:Ea; [|intros []].
  apply digit_of_range in Ea.
  assert (Hone : In (m, rest) [(x, r1)] -> 0 <= m < 60).
  { intros [[= <- <-]|[]]. lia. }
  destruct r1 as [|b r2]; [exact Hone|].
  destruct (Clock.digit_of b) as [y|] eqn:Eb; [|exact Hone].
  apply digit_of_range in Eb.
  destruct (x <=? 5) eqn:E2; [|exact Hone].
  apply Z.leb_le in E2.
  intros [[= <- <-]|H]; [lia|auto].
Qed.

Lemma first_success_In {A B} (f : A -> option B) (xs : list A) (y : B) :
  Clock.first_success f xs = Some y -> exists x, In x xs /\ f x = Some y.
Proof.
  induction xs as [|x xs IH]; simpl; [discriminate|].
  destruct (f x) as [y'|] eqn:E.
  - intros [= <-]. eauto.
  - intros H. destruct (IH H) as (x' & Hin & Hx'). eauto.
Qed.

(** Whatever ['%H:%M'] accepts is a time of day. *)
Lemma strptime_HM_valid (s : string) (t : Clock.time) :
  Clock.strptime_HM s = Some t -> Spec.valid_time t.
Proof.
  unfold Clock.strptime_HM, Clock.match_HM.
  destruct (Clock.first_success _ _) as [[[h m] tl]|] eqn:E; [|discriminate].
  destruct (String.eqb tl EmptyString); [|discriminate].
  intros [= <-].
  apply first_success_In in E as ([h' rest] & Hin & Hf).
  apply hour_alternatives_range in Hin.
  unfold Clock.after_hour in Hf.
  destruct rest as [|c r]; [discriminate|].
  destruct (Ascii.eqb c ":"); [|discriminate].
  destruct (Clock.minute_alternatives r) as [|[m' tl'] alts] eqn:Em; [discriminate|].
  injection Hf as -> -> ->.
  assert (Hm : 0 <= m < 60).
  { apply (minute_alternatives_range r m tl). rewrite Em. now left. }
  unfold Spec.valid_time; simpl. lia.
Qed.

(** ** Working hours *)

Lemma within_hours_parsed (config : Config) (now : Clock.datetime)
    (s e : Clock.time) :
  Clock.strptime_HM (start_str config) = Some s ->
  Clock.strptime_HM (end_str config) = Some e ->
  is_order_within_working_hours config now
  = if Clock.time_le s e
    then Clock.time_le s (Clock.tod now) && Clock.time_le (Clock.tod now) e
    else Clock.time_le s (Clock.tod now) || Clock.time_le (Clock.tod now) e.
Proof.
  intros Hs He. unfold is_order_within_working_hours. now rewrite Hs, He.
Qed.

(** C8. With both configured times well-formed, the current time is within
    working hours exactly when start <= now <= end if start <= end, and
    exactly when now >= start or now <= end if start > end (the window wraps
    past midnight); 23:30 is within 22:00-02:00.  When either configured
    text is malformed the answer is true. *)
Theorem is_order_within_working_hours_spec (config : Config)
    (now : Clock.datetime) :
  (forall s e,
      Clock.strptime_HM (start_str config) = Some s ->
      Clock.strptime_HM (end_str config) = Some e ->
      Spec.valid_time (Clock.tod now) ->
      (Spec.micros s <= Spec.micros e ->
       (is_order_within_working_hours config now = true <->
        Spec.micros s <= Spec.micros (Clock.tod now) <= Spec.micros e))
      /\ (Spec.micros e < Spec.micros s ->
          (is_order_within_working_hours config now = true <->
           Spec.micros s <= Spec.micros (Clock.tod now)
           \/ Spec.micros (Clock.tod now) <= Spec.micros e)))
  /\ (Clock.strptime_HM (start_str config) = None
      \/ Clock.strptime_HM (end_str config) = None ->
      is_order_within_working_hours config now = true)
  /\ is_order_within_working_hours Sample.night_config Sample.late_evening = true.
Proof.
  split; [|split].
  - intros s e Hs He Hnow.
    pose proof (strptime_HM_valid _ _ Hs) as Vs.
    pose proof (strptime_HM_valid _ _ He) as Ve.
    rewrite (within_hours_parsed config now s e Hs He).
    pose proof (time_le_micros s e Vs Ve) as Hse.
    pose proof (time_le_micros s (Clock.tod now) Vs Hnow) as Hsn.
    pose proof (time_le_micros (Clock.tod now) e Hnow Ve) as Hne.
    split; intros Hord.
    + destruct (Clock.time_le s e); [|exfalso; apply Hse in Hord; discriminate].
      rewrite andb_true_iff, Hsn, Hne. reflexivity.
    + destruct (Clock.time_le s e); [pose proof (proj1 Hse eq_refl); lia|].
      rewrite orb_true_iff, Hsn, Hne. reflexivity.
  - unfold is_order_within_working_hours. intros [-> | H]; [reflexivity|].
    destruct (Clock.strptime_HM (start_str config)); [now rewrite H | reflexivity].
  - reflexivity.
Qed.

(** The overnight scenario, through the general statement. *)
Lemma is_order_within_working_hours_witness :
  is_order_within_working_hours Sample.night_config Sample.late_evening = true
  <-> Spec.micros (Clock.Time 22 0 0 0) <= Spec.micros (Clock.Time 23 30 0 0)
      \/ Spec.micros (Clock.Time 23 30 0 0) <= Spec.micros (Clock.Time 2 0 0 0).
Proof.
  apply (proj1 (is_order_within_working_hours_spec Sample.night_config
                  Sample.late_evening)
           (Clock.Time 22 0 0 0) (Clock.Time 2 0 0 0)).
  - reflexivity.
  - reflexivity.
  - unfold Spec.valid_time; simpl; lia.
  - unfold Spec.micros; simpl; lia.
Defined.

(** Texts that ['%H:%M'] rejects, and the default window used when the
    configuration gives none. *)
Example malformed_times :
  map Clock.strptime_HM ["24:00"; "10:60"; "10.00"; ""; "10:00 "; "1000"]%string
  = [None; None; None; None; None; None].
Proof. reflexivity. Qed.

Example malformed_start_is_open :
  is_order_within_working_hours
    (mkConfig None None None (Some "25:00"%string) (Some "23:00"%string))
    Sample.late_evening = true.
Proof. reflexivity. Qed.

(** ** Validation before checkout *)

(** C4. An empty cart is rejected as empty whatever the configuration and
    the time; a non-empty cart below the minimum order amount is rejected for
    that, whatever the time; a non-empty cart that reaches the minimum is
    rejected outside working hours and accepted within them. *)
Theorem validate_order_spec (cart : list Item) (config : Config)
    (now : Clock.datetime) :
  let min_order := default 0 (min_order_amount config) in
  (cart = [] -> validate_order cart config now = (false, Some EmptyCart))
  /\ (cart <> [] -> Spec.cart_sum cart < min_order ->
      validate_order cart config now = (false, Some (BelowMinimum min_order)))
  /\ (cart <> [] -> min_order <= Spec.cart_sum cart ->
      is_order_within_working_hours config now = false ->
      validate_order cart config now
      = (false, Some (OutsideHours (start_str config) (end_str config))))
  /\ (cart <> [] -> min_order <= Spec.cart_sum cart ->
      is_order_within_working_hours config now = true ->
      validate_order cart config now = (true, None)).
Proof.
  intros min_order. subst min_order.
  destruct cart as [|item rest].
  - repeat split; intros; try reflexivity; congruence.
  - unfold validate_order. rewrite sum_line_amounts.
    repeat split; intros.
    + discriminate.
    + rewrite (proj2 (Z.ltb_lt _ _)) by assumption. reflexivity.
    + rewrite (proj2 (Z.ltb_ge _ _)) by assumption.
      match goal with H : is_order_within_working_hours _ _ = _ |- _ => rewrite H end.
      reflexivity.
    + rewrite (proj2 (Z.ltb_ge _ _)) by assumption.
      match goal with H : is_order_within_working_hours _ _ = _ |- _ => rewrite H end.
      reflexivity.
Qed.

(** A cart of 600 under a minimum of 500, ordered at noon within 10:00-23:00,
    is accepted. *)
Lemma validate_order_witness :
  validate_order [Sample.rolls] Sample.day_config Sample.noon = (true, None).
Proof.
  apply (validate_order_spec [Sample.rolls] Sample.day_config Sample.noon).
  - discriminate.
  - simpl. lia.
  - reflexivity.
Defined.

(** Below the minimum and outside working hours at once: the minimum is
    what is reported. *)
Example validate_order_earlier_failure_wins :
  validate_order [mkItem 1 "Philadelphia" 300 1] Sample.night_config Sample.noon
  = (false, Some (BelowMinimum 500)).
Proof. reflexivity. Qed.

(** ** Loops that change the first matching element *)

Section FirstMatch.
Context {A : Type} (p : A -> bool) (f : A -> A).

Lemma first_Some_true (xs : list A) (x : A) :
  Py.first p xs = Some x -> p x = true.
Proof.
  induction xs as [|y xs IH]; simpl; [discriminate|].
  destruct (p y) eqn:E; [intros [= <-]; exact E | exact IH].
Qed.

Lemma first_None_Forall (xs : list A) :
  Py.first p xs = None <-> Forall (fun x => p x = false) xs.
Proof.
  induction xs as [|y xs IH]; simpl.
  - split; [constructor | reflexivity].
  - destruct (p y) eqn:E; split.
    + discriminate.
    + intros H. inversion H; congruence.
    + intros H. constructor; [exact E | now apply IH].
    + intros H. inversion H; subst. now apply IH.
Qed.

Lemma update_first_length (xs : list A) :
  List.length (Py.update_first p f xs) = List.length xs.
Proof.
  induction xs as [|y xs IH]; simpl; [reflexivity|].
  destruct (p y); simpl; congruence.
Qed.

Lemma update_first_None (xs : list A) :
  Py.first p xs = None -> Py.update_first p f xs = xs.
Proof.
  induction xs as [|y xs IH]; simpl; [reflexivity|].
  destruct (p y); [discriminate|]. intros H. now rewrite IH.
Qed.

(** The element found by [first] sits at some position; the loop rewrites
    that position and no other. *)
Lemma update_first_Some (xs : list A) (x : A) :
  Py.first p xs = Some x ->
  exists i : nat,
    xs !! i = Some x
    /\ (forall (j : nat) (y : A), (j < i)%nat -> xs !! j = Some y -> p y = false)
    /\ Py.update_first p f xs = <[i := f x]> xs.
Proof.
  induction xs as [|y xs IH]; simpl; [discriminate|].
  destruct (p y) eqn:E.
  - intros [= <-]. exists 0%nat. repeat split. intros j z Hj. lia.
  - intros H. destruct (IH H) as (i & Hi & Hbefore & Hupd).
    exists (S i). repeat split.
    + exact Hi.
    + intros [|j] z Hj Hz; simpl in Hz.
      * congruence.
      * apply (Hbefore j); [lia | exact Hz].
    + simpl. now rewrite Hupd.
Qed.

(** When the change keeps the key, a second search finds the changed
    element. *)
Lemma first_update_first (xs : list A) :
  (forall x, p (f x) = p x) ->
  Py.first p (Py.update_first p f xs) = f <$> Py.first p xs.
Proof.
  intros Hkey. induction xs as [|y xs IH]; simpl; [reflexivity|].
  destruct (p y) eqn:E; simpl.
  - now rewrite Hkey, E.
  - now rewrite E.
Qed.

End FirstMatch.

(** ** Changing the status of an order *)

Lemma get_order_update_order_status (now : Clock.datetime) (oid : Z)
    (s : string) (st : Store) :
  get_order (update_order_status now oid s st) oid
  = stamp_status now s <$> get_order st oid.
Proof.
  unfold get_order, update_order_status; simpl.
  apply first_update_first. reflexivity.
Qed.

(** C5. [update_order_status] writes the given status, whatever it is and
    whatever the order's status was, into the order found under the id; a
    delivery timestamp is written when the new status is 'delivered' and is
    kept as it was otherwise; the other fields of that order, the other
    orders and the other collections are unchanged.  With no order under the
    id the store is unchanged. *)
Theorem update_order_status_spec (now : Clock.datetime) (oid : Z)
    (s : string) (st : Store) :
  let st' := update_order_status now oid s st in
  (products st' = products st /\ users st' = users st
   /\ promocodes st' = promocodes st /\ statistics st' = statistics st
   /\ List.length (orders st') = List.length (orders st))
  /\ (get_order st oid = None -> st' = st)
  /\ (forall o, get_order st oid = Some o ->
      exists (i : nat) (o' : Order),
        orders st !! i = Some o
        /\ orders st' !! i = Some o'
        /\ get_order st' oid = Some o'
        /\ (forall j : nat, j <> i -> orders st' !! j = orders st !! j)
        /\ status o' = s
        /\ id o' = id o /\ created_at o' = created_at o /\ data o' = data o
        /\ (s = "delivered"%string ->
            delivered_at o' = Some (Clock.strftime now))
        /\ (s <> "delivered"%string -> delivered_at o' = delivered_at o)).
Proof.
  intros st'. subst st'. split; [|split].
  - unfold update_order_status; simpl. repeat split. apply update_first_length.
  - intros H. unfold update_order_status, get_order in *.
    rewrite update_first_None by exact H. now destruct st.
  - intros o Ho.
    destruct (update_first_Some (fun o => id o =? oid) (stamp_status now s)
                (orders st) o Ho) as (i & Hi & _ & Hupd).
    exists i, (stamp_status now s o).
    assert (Hlt : (i < List.length (orders st))%nat)
      by (apply lookup_lt_is_Some; eauto).
    repeat split.
    + exact Hi.
    + unfold update_order_status; simpl. rewrite Hupd.
      now apply list_lookup_insert_eq.
    + rewrite get_order_update_order_status, Ho. reflexivity.
    + intros j Hj. unfold update_order_status; simpl. rewrite Hupd.
      apply list_lookup_insert_ne. congruence.
    + intros ->. reflexivity.
    + intros Hs. simpl. apply String.eqb_neq in Hs. now rewrite Hs.
Qed.

(** The order in the kitchen is marked delivered: it gets the timestamp, and
    its lines and its neighbour in the collection stay as they were. *)
Lemma update_order_status_witness :
  exists (i : nat) (o' : Order),
    orders (update_order_status Sample.noon 8 "delivered" Sample.shop) !! i = Some o'
    /\ status o' = "delivered"%string
    /\ delivered_at o' = Some (Clock.strftime Sample.noon)
    /\ data o' = data Sample.open_order
    /\ orders (update_order_status Sample.noon 8 "delivered" Sample.shop) !! 0%nat
       = Some Sample.past_order.
Proof.
  destruct (update_order_status_spec Sample.noon 8 "delivered" Sample.shop)
    as (_ & _ & H).
  destruct (H Sample.open_order eq_refl)
    as (i & o' & Hi & Hi' & _ & Hframe & Hs & _ & _ & Hd & Hdel & _).
  exists i, o'. split; [exact Hi'|]. split; [exact Hs|].
  split; [apply Hdel; reflexivity|]. split; [exact Hd|].
  rewrite Hframe; [reflexivity|].
  intros <-. discriminate Hi.
Defined.

(** A delivered order that is given another status afterwards keeps its
    delivery timestamp. *)
Example delivered_at_survives :
  get_order (update_order_status Sample.noon 7 "preparing" Sample.shop) 7
  = Some (mkOrder 7 "preparing" Sample.evening_stamp
                  (Some [2024; 5; 1; 20; 15; 0]) (data Sample.past_order)).
Proof. reflexivity. Qed.

(** ** Cancellation by the customer *)

Lemma not_cancellable_iff (s : string) :
  not_cancellable s = true
  <-> s = "on_the_way"%string \/ s = "delivered"%string \/ s = "cancelled"%string.
Proof.
  unfold not_cancellable; simpl.
  rewrite !orb_true_iff, !String.eqb_eq. intuition discriminate.
Qed.

(** C7. For an order whose status is 'on_the_way', 'delivered' or
    'cancelled' the customer's cancellation is refused and the store is left
    as it was; for an order in any other status the cancellation stores the
    status 'cancelled'.  The forward flow has no status after 'delivered'
    and none after 'cancelled'. *)
Theorem cancel_order_callback_spec (now : Clock.datetime) (oid : Z)
    (st : Store) (o : Order) :
  get_order st oid = Some o ->
  let closed :=
    status o = "on_the_way"%string \/ status o = "delivered"%string
    \/ status o = "cancelled"%string in
  (closed -> cancel_order_callback now oid st = (st, CannotCancel))
  /\ (~ closed ->
      cancel_order_callback now oid st
      = (update_order_status now oid "cancelled" st, OrderCancelled oid)
      /\ exists o', get_order (fst (cancel_order_callback now oid st)) oid = Some o'
                    /\ status o' = "cancelled"%string
                    /\ id o' = id o /\ data o' = data o)
  /\ get_next_status "delivered" = "delivered"%string
  /\ get_next_status "cancelled" = "cancelled"%string.
Proof.
  intros Ho closed. subst closed. unfold cancel_order_callback. rewrite Ho.
  pose proof (not_cancellable_iff (status o)) as Hiff.
  destruct (not_cancellable (status o)).
  - split; [reflexivity|]. split; [|split; reflexivity].
    intros Hn. exfalso. apply Hn, Hiff. reflexivity.
  - split; [|split; [|split; reflexivity]].
    + intros Hc. apply Hiff in Hc. discriminate.
    + intros _. split; [reflexivity|]. simpl.
      rewrite get_order_update_order_status, Ho. simpl.
      eexists. repeat split.
Qed.

(** The order in the kitchen can be cancelled; the delivered one cannot. *)
Lemma cancel_order_callback_witness :
  cancel_order_callback Sample.noon 7 Sample.shop = (Sample.shop, CannotCancel)
  /\ cancel_order_callback Sample.noon 8 Sample.shop
     = (update_order_status Sample.noon 8 "cancelled" Sample.shop,
        OrderCancelled 8).
Proof.
  split.
  - apply (cancel_order_callback_spec Sample.noon 7 Sample.shop
             Sample.past_order eq_refl).
    right; left; reflexivity.
  - apply (cancel_order_callback_spec Sample.noon 8 Sample.shop
             Sample.open_order eq_refl).
    intros [H|[H|H]]; discriminate H.
Defined.

(** The forward flow of statuses. *)
Example next_statuses :
  map get_next_status
      ["new"; "accepted"; "preparing"; "on_the_way"; "delivered"; "cancelled"]%string
  = ["accepted"; "preparing"; "on_the_way"; "delivered"; "delivered";
     "cancelled"]%string.
Proof. reflexivity. Qed.

(** ** Binary floating point *)

Lemma round_shift_near (N e : Z) :
  0 <= e ->
  2 ^ e * (N / 2 ^ e) <= Binary64.round_shift N e * 2 ^ e
  /\ 2 * (Binary64.round_shift N e * 2 ^ e - N) <= 2 ^ e.
Proof.
  intros He. unfold Binary64.round_shift.
  assert (HP : 0 < 2 ^ e) by (apply Z.pow_pos_nonneg; lia).
  pose proof (Z.div_mod N (2 ^ e) ltac:(lia)) as Hdm.
  pose proof (Z.mod_pos_bound N (2 ^ e) HP) as Hr.
  set (P := 2 ^ e) in *. set (q := N / P) in *. set (r := N mod P) in *.
  destruct (2 * r <? P) eqn:E1; [apply Z.ltb_lt in E1; nia|].
  destruct (P <? 2 * r) eqn:E2; [apply Z.ltb_lt in E2; nia|].
  apply Z.ltb_ge in E1, E2.
  destruct (Z.even q); nia.
Qed.

Lemma int_mul_001_nonneg (n : Z) :
  0 <= n < 2 ^ 46 ->
  let '(m, e) := Binary64.mul_001 n in (m * 2 ^ e) / 2 ^ 59 = n / 100.
Proof.
  intros Hn. unfold Binary64.mul_001.
  set (N := n * Binary64.mantissa_001).
  set (e := Z.max 0 (Z.log2 N - 52)).
  assert (HN : 100 * N = n * (2 ^ 59 + 12)) by (unfold N, Binary64.mantissa_001; lia).
  assert (HN0 : 0 <= N) by (unfold N, Binary64.mantissa_001; lia).
  assert (He : 0 <= e <= 46).
  { unfold e. split; [lia|].
    destruct (Z.eq_dec N 0) as [->|HNz]; [simpl; lia|].
    assert (Z.log2 N < 99); [|lia].
    apply Z.log2_lt_pow2; [lia|]. unfold N, Binary64.mantissa_001. lia. }
  destruct (round_shift_near N e (proj1 He)) as [Hlo Hhi].
  set (m := Binary64.round_shift N e) in *.
  assert (HP : 0 < 2 ^ e <= 2 ^ 46).
  { split; [apply Z.pow_pos_nonneg; lia | apply Z.pow_le_mono_r; lia]. }
  assert (Hsplit : 2 ^ 59 = 2 ^ e * 2 ^ (59 - e)).
  { rewrite <- Z.pow_add_r by lia. f_equal. lia. }
  assert (HQ : 0 < 2 ^ (59 - e)) by (apply Z.pow_pos_nonneg; lia).
  pose proof (Z.div_mod n 100 ltac:(lia)) as Hk.
  pose proof (Z.mod_pos_bound n 100 ltac:(lia)) as Hr.
  set (k := n / 100) in *. set (r := n mod 100) in *.
  assert (Hk0 : 0 <= k) by (apply Z.div_pos; lia).
  assert (Hfloor : k * 2 ^ (59 - e) <= N / 2 ^ e).
  { apply Z.div_le_lower_bound; [lia|].
    replace (2 ^ e * (k * 2 ^ (59 - e))) with (k * 2 ^ 59) by (rewrite Hsplit; ring).
    lia. }
  assert (Hlower : k * 2 ^ 59 <= m * 2 ^ e).
  { rewrite Hsplit. set (P := 2 ^ e) in *. set (Q := 2 ^ (59 - e)) in *. nia. }
  symmetry. apply (Z.div_unique_pos _ _ k (m * 2 ^ e - k * 2 ^ 59)); [|ring].
  change (2 ^ 46) with 70368744177664 in *.
  change (2 ^ 59) with 576460752303423488 in *.
  lia.
Qed.

(** For amounts below 2^46 the truncated double product [int(n * 0.01)] is
    the truncated exact quotient by 100. *)
Lemma int_mul_001_exact (n : Z) :
  Z.abs n < 2 ^ 46 -> Binary64.int_mul_001 n = Z.quot n 100.
Proof.
  intros Hn. unfold Binary64.int_mul_001.
  pose proof (int_mul_001_nonneg (Z.abs n) ltac:(lia)) as H.
  destruct (Binary64.mul_001 (Z.abs n)) as [m e]. rewrite H.
  rewrite (Z.quot_div n 100) by lia.
  change (Z.sgn 100) with 1. change (Z.abs 100) with 100. ring.
Qed.

Example bonus_of_1000_on_doubles : Binary64.int_mul_001 1000 = 10.
Proof. reflexivity. Qed.





(** ** Creating an order *)

Lemma fold_left_max_bounds (r : list Z) (x : Z) :
  x <= fold_left Z.max r x /\ Forall (fun y => y <= fold_left Z.max r x) r.
Proof.
  revert x. induction r as [|y r IH]; intros x; simpl.
  - split; [lia | constructor].
  - destruct (IH (Z.max x y)) as [H1 H2]. split; [lia|].
    constructor; [lia | exact H2].
Qed.

Lemma fold_left_max_In (r : list Z) (x : Z) :
  In (fold_left Z.max r x) (x :: r).
Proof.
  revert x. induction r as [|y r IH]; intros x; simpl.
  - now left.
  - destruct (IH (Z.max x y)) as [H|H].
    + rewrite <- H. destruct (Z.max_spec x y) as [[_ ->]|[_ ->]]; auto.
    + auto.
Qed.

(** [max(xs, default=d)] is [d] on the empty list, and otherwise an element
    of [xs] that no element exceeds. *)
Lemma max_default_spec (xs : list Z) (d : Z) :
  (xs = [] -> Py.max_default xs d = d)
  /\ (xs <> [] -> In (Py.max_default xs d) xs)
  /\ (xs <> [] -> Forall (fun y => y <= Py.max_default xs d) xs).
Proof.
  destruct xs as [|x r]; simpl.
  - repeat split; intros; congruence.
  - split; [discriminate|]. split; intros _.
    + apply fold_left_max_In.
    + destruct (fold_left_max_bounds r x). now constructor.
Qed.

Lemma get_user_update_user (uid : Z) (f : User -> User) (st : Store) :
  (forall u, telegram_id (f u) = telegram_id u) ->
  get_user (update_user uid f st) uid = f <$> get_user st uid.
Proof.
  intros Hkey. unfold get_user, update_user; simpl.
  apply first_update_first. intros u. now rewrite Hkey.
Qed.





(** With no stored user for the order nothing is credited. *)
Lemma create_order_unknown_user (now : Clock.datetime) (od : OrderData)
    (st : Store) :
  get_user st (user_id od) = None ->
  users (fst (create_order now od st)) = users st.
Proof.
  intros Hu. unfold create_order.
  set (st1 := set_orders _ st).
  assert (Hu1 : get_user st1 (user_id od) = None) by exact Hu.
  rewrite Hu1. reflexivity.
Qed.

Example create_order_statistics :
  statistics (fst (create_order Sample.noon Sample.draft Sample.shop))
  = Some (mkStatistics 9 8000 88889).
Proof. reflexivity. Qed.

(** The average goes by the quotient as a double: 26747 / 40 is 668.675,
    the double next to it lies below, and the average is 668.67. *)
Example average_of_26747_over_40 :
  Binary64.div 26747 40 = (5881727501624934, -43)
  /\ Binary64.round2 (Binary64.div 26747 40) = 66867.
Proof. split; reflexivity. Qed.

(** ** Checking a promo code *)

Lemma code_matches_upper (c c' : string) (p : Promo) :
  Py.upper c' = Py.upper c -> code_matches c' p = code_matches c p.
Proof. unfold code_matches. now intros ->. Qed.

Lemma first_active_absent (c : string) (ps : list Promo) :
  Py.first (code_matches c) ps = None ->
  Py.first (fun p => code_matches c p && active p) ps = None.
Proof.
  rewrite !first_None_Forall. intros H.
  eapply Forall_impl; [exact H|]. now intros p ->.
Qed.

(** Among codes that are unique up to case, the entry the check selects is
    the one entry of that code, provided it is active. *)
Lemma first_active_unique (c : string) (ps : list Promo) (p : Promo) :
  Spec.unique_codes ps ->
  Py.first (code_matches c) ps = Some p ->
  Py.first (fun q => code_matches c q && active q) ps
  = if active p then Some p else None.
Proof.
  unfold Spec.unique_codes.
  induction ps as [|q ps IH]; simpl; [discriminate|].
  intros Hnd. apply NoDup_cons in Hnd as [Hq Hnd].
  destruct (code_matches c q) eqn:Em; simpl.
  - intros [= <-]. destruct (active q); [reflexivity|].
    apply first_None_Forall, Forall_forall. intros r Hr.
    destruct (code_matches c r) eqn:Er; [|reflexivity].
    exfalso. apply Hq. unfold code_matches in Em, Er.
    apply String.eqb_eq in Em, Er. rewrite Em, <- Er.
    apply list_elem_of_fmap. exists r. split; [reflexivity | exact Hr].
  - intros H. now apply IH.
Qed.

Lemma check_conditions_None (now : Clock.datetime) (order_total : Z) (p : Promo) :
  check_conditions now order_total p = None
  <-> order_total < Spec.minimum p \/ Spec.past_expiry now p \/ Spec.cap_reached p.
Proof.
  unfold check_conditions, Spec.minimum, Spec.past_expiry, Spec.cap_reached,
    Spec.uses.
  destruct (order_total <? default 0 (min_order p)) eqn:E1.
  { apply Z.ltb_lt in E1. tauto. }
  apply Z.ltb_ge in E1.
  destruct (Clock.datetime_gt now (Clock.midnight (expiry_date p))) eqn:E2.
  { tauto. }
  destruct (max_uses p) as [cap|].
  - destruct (cap <=? default 0 (current_uses p)) eqn:E3.
    + apply Z.leb_le in E3. split; [|reflexivity]. intros _. right; right. eauto.
    + apply Z.leb_gt in E3. split; [discriminate|].
      intros [H|[H|(cap' & [= <-] & H)]]; [lia | discriminate | lia].
  - split; [discriminate|].
    intros [H|[H|(cap' & [=] & _)]]; [lia | discriminate].
Qed.

Lemma check_conditions_Some (now : Clock.datetime) (order_total : Z)
    (p q : Promo) :
  check_conditions now order_total p = Some q -> q = p.
Proof.
  unfold check_conditions.
  repeat match goal with
         | |- context [if ?b then _ else _] => destruct b
         | |- context [match ?o with Some _ => _ | None => _ end] => destruct o
         end; congruence.
Qed.

Lemma lex_compare_prefix3 (a b c a' b' c' : Z) (k k' : list Z) :
  Py.lex_compare ([a; b; c] ++ k) ([a'; b'; c'] ++ k')
  = match Py.lex_compare [a; b; c] [a'; b'; c'] with
    | Eq => Py.lex_compare k k'
    | r => r
    end.
Proof.
  cbn [app Py.lex_compare].
  destruct (a ?= a'), (b ?= b'), (c ?= c'); reflexivity.
Qed.

(** The moment is past the expiry date from the first microsecond of that
    day on: a code with expiry date 2024-12-31 is refused during the 31st. *)
Lemma past_expiry_iff (now : Clock.datetime) (p : Promo) :
  Spec.valid_time (Clock.tod now) ->
  Spec.past_expiry now p <->
  match Py.lex_compare
          [Clock.year now; Clock.month now; Clock.day now]
          [Clock.d_year (expiry_date p); Clock.d_month (expiry_date p);
           Clock.d_day (expiry_date p)] with
  | Gt => True
  | Eq => 0 < Spec.micros (Clock.tod now)
  | Lt => False
  end.
Proof.
  intros Hv.
  assert (Hz : Spec.valid_time (Clock.Time 0 0 0 0))
    by (unfold Spec.valid_time; simpl; lia).
  pose proof (lex_compare_time (Clock.tod now) (Clock.Time 0 0 0 0) Hv Hz) as Ht.
  change (Spec.micros (Clock.Time 0 0 0 0)) with 0 in Ht.
  unfold Spec.past_expiry, Clock.datetime_gt, Clock.datetime_key, Clock.midnight.
  cbn [Clock.year Clock.month Clock.day Clock.tod].
  rewrite lex_compare_prefix3.
  destruct (Py.lex_compare [Clock.year now; _; _] _).
  - destruct (Py.lex_compare _ _); split; intros; try lia; try reflexivity;
      discriminate.
  - split; [discriminate | intros []].
  - split; [auto | reflexivity].
Qed.

(** The test of the code in the words of the calendar: the expiry date has
    passed, or it is the expiry date and the day has begun. *)
Lemma expired_iff (now : Clock.datetime) (p : Promo) :
  Spec.valid_time (Clock.tod now) ->
  Spec.past_expiry now p <-> Spec.expired now (expiry_date p).
Proof.
  intros Hv. rewrite (past_expiry_iff now p Hv).
  unfold Spec.expired, Spec.date_passed, Spec.expiry_day_begun.
  cbn [Py.lex_compare].
  destruct (Z.compare_spec (Clock.year now) (Clock.d_year (expiry_date p)))
    as [Ey|Ey|Ey];
    [destruct (Z.compare_spec (Clock.month now) (Clock.d_month (expiry_date p)))
       as [Em|Em|Em];
     [destruct (Z.compare_spec (Clock.day now) (Clock.d_day (expiry_date p)))
        as [Ed|Ed|Ed]| |] | |];
    intuition lia.
Qed.

(** *** The check over any case mapping *)

Section AnyCase.
Variable upper : string -> string.

Lemma first_code_In (c : string) (ps : list Promo) (p : Promo) :
  Py.first (Promocodes.code_matches upper c) ps = Some p ->
  In p ps /\ upper (code p) = upper c.
Proof.
  induction ps as [|q ps IH]; simpl; [discriminate|].
  destruct (Promocodes.code_matches upper c q) eqn:E.
  - intros [= <-]. split; [now left|].
    unfold Promocodes.code_matches in E. now apply String.eqb_eq in E.
  - intros H. destruct (IH H) as [Hin Hc]. split; [now right | exact Hc].
Qed.

Lemma first_code_None (c : string) (ps : list Promo) :
  Py.first (Promocodes.code_matches upper c) ps = None
  <-> forall p, In p ps -> upper (code p) <> upper c.
Proof.
  induction ps as [|q ps IH]; simpl; [split; [intros _ p [] | reflexivity]|].
  unfold Promocodes.code_matches at 1.
  destruct (String.eqb_spec (upper (code q)) (upper c)) as [E|E].
  - split; [discriminate|]. intros H. exfalso. apply (H q); [now left | exact E].
  - rewrite IH. split.
    + intros H p [<-|Hin]; [exact E | now apply H].
    + intros H p Hin. apply H. now right.
Qed.

Lemma first_code_unique (c : string) (ps : list Promo) (p : Promo) :
  Spec.unique_by upper ps -> In p ps -> upper (code p) = upper c ->
  Py.first (Promocodes.code_matches upper c) ps = Some p.
Proof.
  unfold Spec.unique_by.
  induction ps as [|q ps IH]; simpl; [intros _ []|].
  intros Hnd. apply NoDup_cons in Hnd as [Hq Hnd].
  intros [->|Hin] Hc.
  - unfold Promocodes.code_matches. now rewrite Hc, String.eqb_refl.
  - unfold Promocodes.code_matches at 1.
    destruct (String.eqb_spec (upper (code q)) (upper c)) as [E|E].
    + exfalso. apply Hq. rewrite E, <- Hc.
      apply list_elem_of_fmap. exists p. split; [reflexivity|].
      now apply list_elem_of_In.
    + now apply IH.
Qed.

Lemma first_active_absent_any (c : string) (ps : list Promo) :
  Py.first (Promocodes.code_matches upper c) ps = None ->
  Py.first (fun p => Promocodes.code_matches upper c p && active p) ps = None.
Proof.
  rewrite !first_None_Forall. intros H.
  eapply Forall_impl; [exact H|]. now intros p ->.
Qed.

(** Among codes that are unique up to case, the entry the check selects is
    the one entry of that code, provided it is active. *)
Lemma first_active_unique_any (c : string) (ps : list Promo) (p : Promo) :
  Spec.unique_by upper ps ->
  Py.first (Promocodes.code_matches upper c) ps = Some p ->
  Py.first (fun q => Promocodes.code_matches upper c q && active q) ps
  = if active p then Some p else None.
Proof.
  unfold Spec.unique_by.
  induction ps as [|q ps IH]; simpl; [discriminate|].
  intros Hnd. apply NoDup_cons in Hnd as [Hq Hnd].
  destruct (Promocodes.code_matches upper c q) eqn:Em; simpl.
  - intros [= <-]. destruct (active q); [reflexivity|].
    apply first_None_Forall, Forall_forall. intros r Hr.
    destruct (Promocodes.code_matches upper c r) eqn:Er; [|reflexivity].
    exfalso. apply Hq. unfold Promocodes.code_matches in Em, Er.
    apply String.eqb_eq in Em, Er. rewrite Em, <- Er.
    apply list_elem_of_fmap. exists r. split; [reflexivity | exact Hr].
  - intros H. now apply IH.
Qed.

(** C3. [check_promocode] compares codes through [str.upper()], here any
    case mapping [upper].  With codes unique up to case, the check is
    indifferent to the case of the code it is given, and it answers [None]
    exactly when no entry has the code, or the entry is inactive, or the
    order amount is below the entry's minimum, or the entry has expired, or
    a cap is set and the usage counter has reached it; any other answer is
    the entry itself.  An entry has expired not only when its expiry date
    has passed but from the first microsecond after 00:00 of the expiry
    date.  An entry used [max_uses] times is refused, and an entry used
    [max_uses - 1] times that passes the other conditions is returned. *)
Theorem check_promocode_spec (now : Clock.datetime) (st : Store) (c : string)
    (order_total : Z) :
  Spec.unique_by upper (promocodes st) ->
  Spec.valid_time (Clock.tod now) ->
  let check := Promocodes.check_promocode upper now st in
  (forall c', upper c' = upper c -> check c' order_total = check c order_total)
  /\ (check c order_total = None <->
      (forall p, In p (promocodes st) -> upper (code p) <> upper c)
      \/ exists p, In p (promocodes st) /\ upper (code p) = upper c
                   /\ (active p = false \/ order_total < Spec.minimum p
                       \/ Spec.expired now (expiry_date p)
                       \/ Spec.cap_reached p))
  /\ (forall p, check c order_total = Some p ->
                In p (promocodes st) /\ upper (code p) = upper c)
  /\ (forall p cap, In p (promocodes st) -> upper (code p) = upper c ->
                    max_uses p = Some cap -> Spec.uses p = cap ->
                    check c order_total = None)
  /\ (forall p cap, In p (promocodes st) -> upper (code p) = upper c ->
                    max_uses p = Some cap -> Spec.uses p = cap - 1 ->
                    active p = true -> Spec.minimum p <= order_total ->
                    ~ Spec.expired now (expiry_date p) ->
                    check c order_total = Some p).
Proof.
  intros Huniq Hv check. subst check.
  assert (Hsel : forall p, In p (promocodes st) -> upper (code p) = upper c ->
            Promocodes.check_promocode upper now st c order_total
            = if active p then check_conditions now order_total p else None).
  { intros p Hin Hc. unfold Promocodes.check_promocode.
    rewrite (first_active_unique_any c _ p Huniq
               (first_code_unique c _ p Huniq Hin Hc)).
    now destruct (active p). }
  assert (Habs : (forall p, In p (promocodes st) -> upper (code p) <> upper c) ->
            Promocodes.check_promocode upper now st c order_total = None).
  { intros Hno. unfold Promocodes.check_promocode.
    now rewrite (first_active_absent_any c _ (proj2 (first_code_None c _) Hno)). }
  assert (Hcond : forall p,
            check_conditions now order_total p = None
            <-> order_total < Spec.minimum p
                \/ Spec.expired now (expiry_date p) \/ Spec.cap_reached p).
  { intros p. rewrite check_conditions_None, (expired_iff now p Hv). tauto. }
  assert (Hcases : (forall p, In p (promocodes st) -> upper (code p) <> upper c)
                   \/ exists p, In p (promocodes st) /\ upper (code p) = upper c).
  { destruct (Py.first (Promocodes.code_matches upper c) (promocodes st))
      as [p|] eqn:E.
    - right. exists p. now apply first_code_In.
    - left. now apply first_code_None. }
  split; [|split; [|split; [|split]]].
  - intros c' Hc'. unfold Promocodes.check_promocode.
    assert (Hext : forall ps,
              Py.first (fun p => Promocodes.code_matches upper c' p && active p) ps
              = Py.first (fun p => Promocodes.code_matches upper c p && active p) ps).
    { induction ps as [|q ps IH]; simpl; [reflexivity|].
      unfold Promocodes.code_matches at 1 3. now rewrite Hc', IH. }
    now rewrite Hext.
  - destruct Hcases as [Hno|(p & Hin & Hc)].
    + rewrite (Habs Hno). split; [now left | reflexivity].
    + rewrite (Hsel p Hin Hc). split.
      * intros H. right. exists p. split; [exact Hin|]. split; [exact Hc|].
        destruct (active p); [right; now apply Hcond | now left].
      * intros [Hno|(q & Hq & Hcq & H)]; [now apply Hno in Hc|].
        assert (q = p) as ->.
        { pose proof (first_code_unique c _ q Huniq Hq Hcq) as E1.
          pose proof (first_code_unique c _ p Huniq Hin Hc) as E2.
          congruence. }
        destruct (active p); [|reflexivity].
        apply Hcond. destruct H as [H|H]; [discriminate | exact H].
  - intros p Hcheck.
    destruct Hcases as [Hno|(q & Hin & Hc)].
    + rewrite (Habs Hno) in Hcheck. discriminate.
    + rewrite (Hsel q Hin Hc) in Hcheck.
      destruct (active q); [|discriminate].
      apply check_conditions_Some in Hcheck. now subst.
  - intros p cap Hin Hc Hcap Huses. rewrite (Hsel p Hin Hc).
    destruct (active p); [|reflexivity].
    apply Hcond. right; right. exists cap. split; [exact Hcap | lia].
  - intros p cap Hin Hc Hcap Huses Hact Hmin Hexp.
    rewrite (Hsel p Hin Hc), Hact.
    destruct (check_conditions now order_total p) as [q|] eqn:E.
    + apply check_conditions_Some in E. now subst.
    + apply Hcond in E.
      destruct E as [E|[E|(cap' & E1 & E2)]]; [lia | contradiction |].
      rewrite Hcap in E1. injection E1 as <-. lia.
Qed.

End AnyCase.

(** With [Py.upper] the operations are those of [DataManager]. *)
Lemma promocodes_on_ascii (now : Clock.datetime) (st : Store) (c : string)
    (order_total : Z) :
  Promocodes.get_promocode Py.upper st c = get_promocode st c
  /\ Promocodes.check_promocode Py.upper now st c order_total
     = check_promocode now st c order_total
  /\ Promocodes.use_promocode Py.upper c st = use_promocode c st.
Proof. repeat split. Qed.

(** The counter one below the cap: the code is accepted, in any letter
    case. *)
Lemma check_promocode_witness :
  Promocodes.check_promocode Py.upper Sample.noon Sample.shop "sale10" 700
  = Some Sample.sale.
Proof.
  apply (check_promocode_spec Py.upper Sample.noon Sample.shop "sale10" 700)
    with (cap := 1).
  - unfold Spec.unique_by. simpl. apply NoDup_singleton.
  - unfold Spec.valid_time. simpl. lia.
  - simpl. tauto.
  - reflexivity.
  - reflexivity.
  - reflexivity.
  - reflexivity.
  - unfold Spec.minimum. simpl. lia.
  - unfold Spec.expired, Spec.date_passed, Spec.expiry_day_begun. simpl. lia.
Defined.

(** On the expiry date itself the date has not passed, the entry is there,
    active, within its minimum and below its cap, and the code is refused
    all the same. *)
Lemma check_promocode_refused_on_expiry_date :
  let now := Clock.DateTime 2024 12 31 (Clock.Time 12 0 0 0) in
  In Sample.sale (promocodes Sample.shop)
  /\ Py.upper (code Sample.sale) = Py.upper "SALE10"
  /\ active Sample.sale = true
  /\ Spec.minimum Sample.sale <= 700
  /\ ~ Spec.date_passed now (expiry_date Sample.sale)
  /\ ~ Spec.cap_reached Sample.sale
  /\ Promocodes.check_promocode Py.upper now Sample.shop "SALE10" 700 = None
  /\ check_promocode now Sample.shop "SALE10" 700 = None.
Proof.
  cbv zeta. split; [simpl; tauto|]. split; [reflexivity|].
  split; [reflexivity|]. split; [unfold Spec.minimum; simpl; lia|].
  split; [unfold Spec.date_passed; simpl; lia|].
  split.
  - intros (cap & Hc & Hu). injection Hc as <-. unfold Spec.uses in Hu.
    simpl in Hu. lia.
  - split; reflexivity.
Qed.

Example refused_on_the_expiry_day :
  check_promocode (Clock.DateTime 2024 12 31 (Clock.Time 12 0 0 0))
                  Sample.shop "SALE10" 700 = None.
Proof. reflexivity. Qed.

Example refused_at_the_cap :
  check_promocode Sample.noon (use_promocode "sale10" Sample.shop) "SALE10" 700
  = None.
Proof. reflexivity. Qed.

(** ** Ordering again *)

Lemma reorder_fold (st : Store) (lines acc : list Item) :
  fold_left (reorder_step st) lines acc = acc ++ omap (Spec.reprice st) lines.
Proof.
  revert acc. induction lines as [|item lines IH]; intros acc; simpl.
  - now rewrite app_nil_r.
  - rewrite IH. unfold reorder_step, Spec.reprice.
    destruct (get_product st (product_id item)) as [product|]; [|reflexivity].
    destruct (default true (p_available product)); [|reflexivity].
    now rewrite <- app_assoc.
Qed.

Lemma reprice_Some (st : Store) (item line : Item) :
  Spec.reprice st item = Some line <->
  exists product,
    get_product st (product_id item) = Some product
    /\ p_available product <> Some false
    /\ line = mkItem (product_id item) (product_name item)
                     (p_price product) (quantity item).
Proof.
  unfold Spec.reprice.
  destruct (get_product st (product_id item)) as [product|].
  - destruct (p_available product) as [[|]|] eqn:Ea; simpl; split.
    + intros [= <-]. exists product. rewrite Ea. repeat split. discriminate.
    + intros (q & [= <-] & _ & ->). reflexivity.
    + discriminate.
    + intros (q & [= <-] & Hq & _). now rewrite Ea in Hq.
    + intros [= <-]. exists product. rewrite Ea. repeat split. discriminate.
    + intros (q & [= <-] & _ & ->). reflexivity.
  - split; [discriminate|]. intros (q & [=] & _).
Qed.

(** C6. Reordering a stored order puts into the cart, in the order of the
    past order, one line for each past line whose product exists and is not
    marked unavailable, with the product's current price and the past
    line's product, name and quantity; the other lines are dropped without
    notice.  When every line is dropped the answer is that no items are
    available and the cart is left with no lines.  A past order of an
    unavailable product followed by an available one yields exactly the
    available line at its current price. *)
Theorem reorder_callback_spec (oid : Z) (st : Store) (ud : Session)
    (order : Order) :
  get_order st oid = Some order ->
  let cart := omap (Spec.reprice st) (items (data order)) in
  ud_cart (fst (reorder_callback oid st ud)) = Some cart
  /\ (forall line,
        line ∈ cart <->
        exists item product,
          item ∈ items (data order)
          /\ get_product st (product_id item) = Some product
          /\ p_available product <> Some false
          /\ line = mkItem (product_id item) (product_name item)
                           (p_price product) (quantity item))
  /\ (cart = [] -> snd (reorder_callback oid st ud) = NoAvailableItems)
  /\ (cart <> [] -> snd (reorder_callback oid st ud) = CartShown cart)
  /\ (forall a b pa pb,
        items (data order) = [a; b] ->
        get_product st (product_id a) = Some pa ->
        p_available pa = Some false ->
        get_product st (product_id b) = Some pb ->
        p_available pb <> Some false ->
        cart = [mkItem (product_id b) (product_name b) (p_price pb) (quantity b)]).
Proof.
  intros Ho cart. subst cart. unfold reorder_callback. rewrite Ho.
  rewrite reorder_fold. simpl.
  set (cart := omap (Spec.reprice st) (items (data order))).
  split; [|split; [|split; [|split]]].
  - now destruct cart.
  - intros line. unfold cart. rewrite list_elem_of_omap. split.
    + intros (item & Hin & Hr). apply reprice_Some in Hr as (product & ? & ? & ?).
      exists item, product. auto.
    + intros (item & product & Hin & ? & ? & ?). exists item. split; [exact Hin|].
      apply reprice_Some. exists product. auto.
  - intros ->. reflexivity.
  - intros Hne. destruct cart; [congruence | reflexivity].
  - intros a b pa pb Hitems Ha Hna Hb Hnb. unfold cart. rewrite Hitems. simpl.
    assert (Hra : Spec.reprice st a = None).
    { unfold Spec.reprice. now rewrite Ha, Hna. }
    assert (Hrb : Spec.reprice st b
                  = Some (mkItem (product_id b) (product_name b) (p_price pb)
                                 (quantity b))).
    { apply reprice_Some. exists pb. auto. }
    now rewrite Hra, Hrb.
Qed.

(** The delivered order held Unagi, since withdrawn, and Philadelphia, then
    at 300 and now at 350: the new cart holds Philadelphia at 350. *)
Lemma reorder_callback_witness :
  ud_cart (fst (reorder_callback 7 Sample.shop empty_session))
  = Some [mkItem 1 "Philadelphia" 350 2].
Proof.
  apply (reorder_callback_spec 7 Sample.shop empty_session Sample.past_order).
  reflexivity.
Defined.

(** When nothing of the past order can be bought, the cart the customer had
    is replaced by an empty one. *)
Example reorder_nothing_available :
  reorder_callback 7 (mkStore [Sample.unagi] [] [Sample.past_order] [] None)
                   (set_cart [Sample.rolls] empty_session)
  = (set_cart [] empty_session, NoAvailableItems).
Proof. reflexivity. Qed.

(** ** Quantities in the cart *)

(** The product view keeps the chosen quantity between 1 and 99. *)
Lemma quantity_callback_range (b : QtyButton) (ud : Session) :
  1 <= default 1 (ud_current_quantity ud) <= 99 ->
  1 <= default 1 (ud_current_quantity (fst (quantity_callback b ud))) <= 99.
Proof.
  intros H. unfold quantity_callback. cbn [fst set_current_quantity
    ud_current_quantity default from_option].
  destruct b.
  - destruct (1 <? _) eqn:E; [apply Z.ltb_lt in E|]; simpl; lia.
  - destruct (_ <? 99) eqn:E; [apply Z.ltb_lt in E|]; simpl; lia.
Qed.

Lemma update_first_Forall {A} (P : A -> Prop) (p : A -> bool) (f : A -> A)
    (xs : list A) :
  (forall x, P x -> P (f x)) -> Forall P xs -> Forall P (Py.update_first p f xs).
Proof.
  intros Hf. induction 1 as [|x xs Hx Hxs IH]; simpl; [constructor|].
  destruct (p x); constructor; auto.
Qed.

(** Adding to the cart keeps every quantity at 1 or more. *)
Lemma add_to_cart_at_least (pid : Z) (st : Store) (ud : Session) :
  1 <= default 1 (ud_current_quantity ud) ->
  Spec.quantities_at_least 1 (default [] (ud_cart ud)) ->
  Spec.quantities_at_least 1
    (default [] (ud_cart (fst (add_to_cart_callback pid st ud)))).
Proof.
  intros Hq Hcart. unfold add_to_cart_callback.
  destruct (get_product st pid) as [product|]; [|exact Hcart].
  cbn [fst set_cart ud_cart default from_option].
  destruct (Py.first (has_product pid) (default [] (ud_cart ud))).
  - apply update_first_Forall; [|exact Hcart].
    intros item Hitem. simpl. lia.
  - apply Forall_app. split; [exact Hcart|].
    constructor; [simpl; lia | constructor].
Qed.

Lemma modify_quantity_at_least (minus : bool) (pid : Z) (cart : list Item) :
  Spec.quantities_at_least 1 cart ->
  Spec.quantities_at_least 1 (modify_quantity minus pid cart).
Proof.
  induction 1 as [|item rest Hitem Hrest IH]; simpl; [constructor|].
  destruct (has_product pid item).
  - destruct minus.
    + destruct (quantity item + -1 <=? 0) eqn:E; [exact Hrest|].
      apply Z.leb_gt in E. constructor; [simpl; lia | exact Hrest].
    + constructor; [simpl; lia | exact Hrest].
  - constructor; assumption.
Qed.

(** The buttons of the cart keep every quantity at 1 or more: a line that
    would drop to 0 is taken out. *)
Lemma cart_modify_at_least (b : CartButton) (ud : Session) :
  Spec.quantities_at_least 1 (default [] (ud_cart ud)) ->
  Spec.quantities_at_least 1
    (default [] (ud_cart (fst (cart_modify_callback b ud)))).
Proof.
  intros Hcart. unfold cart_modify_callback.
  cbn [fst set_cart ud_cart default from_option].
  destruct b.
  - now apply modify_quantity_at_least.
  - now apply modify_quantity_at_least.
  - unfold Spec.quantities_at_least in *. rewrite Forall_forall in *.
    intros item Hin. apply Hcart. apply list_elem_of_filter in Hin. tauto.
Qed.

Example minus_removes_last_unit :
  cart_modify_callback (CartMinus 1)
    (set_cart [mkItem 1 "Philadelphia" 350 1; Sample.rolls] empty_session)
  = (set_cart [Sample.rolls] empty_session, CartShown [Sample.rolls]).
Proof. reflexivity. Qed.

(** C10. The cap of 99 is kept by the product view only.  A customer who
    has put 99 pieces of a product into the cart gets 100 pieces with the
    plus button of the cart, and 198 pieces by adding the product a second
    time: the quantities of the cart are not all within 1..99 afterwards. *)
Theorem cart_quantity_exceeds_cap :
  let bot := run Sample.day_config Sample.opening Sample.fill_cart in
  let plus := handle Sample.day_config bot (Sample.press 42 (PressCart (CartPlus 1))) in
  let again := handle Sample.day_config bot (Sample.press 42 (PressAddToCart 1)) in
  ud_cart (session_of bot 42) = Some [mkItem 1 "Philadelphia" 350 99]
  /\ ud_cart (session_of plus 42) = Some [mkItem 1 "Philadelphia" 350 100]
  /\ ud_cart (session_of again 42) = Some [mkItem 1 "Philadelphia" 350 198]
  /\ ~ Spec.quantities_within 1 99 (default [] (ud_cart (session_of plus 42)))
  /\ ~ Spec.quantities_within 1 99 (default [] (ud_cart (session_of again 42))).
Proof.
  assert (H1 : ud_cart (session_of
                 (run Sample.day_config Sample.opening Sample.fill_cart) 42)
               = Some [mkItem 1 "Philadelphia" 350 99]) by (vm_compute; reflexivity).
  assert (H2 : ud_cart (session_of
                 (handle Sample.day_config
                    (run Sample.day_config Sample.opening Sample.fill_cart)
                    (Sample.press 42 (PressCart (CartPlus 1)))) 42)
               = Some [mkItem 1 "Philadelphia" 350 100]) by (vm_compute; reflexivity).
  assert (H3 : ud_cart (session_of
                 (handle Sample.day_config
                    (run Sample.day_config Sample.opening Sample.fill_cart)
                    (Sample.press 42 (PressAddToCart 1))) 42)
               = Some [mkItem 1 "Philadelphia" 350 198]) by (vm_compute; reflexivity).
  cbv zeta. rewrite H1, H2, H3. repeat split.
  - intros H. inversion H as [|? ? Hq _]; subst. simpl in Hq. lia.
  - intros H. inversion H as [|? ? Hq _]; subst. simpl in Hq. lia.
Qed.

(** ** Redeeming a promo code *)

(** [use_promocode] adds 1 to the counter of the first entry of that code
    and changes nothing else. *)
Lemma use_promocode_spec (c : string) (st : Store) :
  (get_promocode st c = None -> use_promocode c st = st)
  /\ (forall p, get_promocode st c = Some p ->
      get_promocode (use_promocode c st) c = Some (increment_uses p)
      /\ Spec.uses (increment_uses p) = Spec.uses p + 1
      /\ max_uses (increment_uses p) = max_uses p
      /\ exists i : nat,
           promocodes st !! i = Some p
           /\ promocodes (use_promocode c st) = <[i := increment_uses p]> (promocodes st)).
Proof.
  unfold get_promocode, use_promocode. split.
  - intros H. rewrite update_first_None by exact H. now destruct st.
  - intros p Hp. cbn [promocodes set_promocodes]. repeat split.
    + rewrite first_update_first by reflexivity. now rewrite Hp.
    + destruct (update_first_Some (code_matches c) increment_uses _ p Hp)
        as (i & Hi & _ & Hupd).
      exists i. split; [exact Hi | exact Hupd].
Qed.

Lemma add_bonus_points_promocodes (uid points : Z) (st : Store) :
  promocodes (add_bonus_points uid points st) = promocodes st.
Proof. unfold add_bonus_points. now destruct (get_user st uid). Qed.

(** Creating an order leaves the promo codes alone. *)
Lemma create_order_promocodes (now : Clock.datetime) (od : OrderData)
    (st : Store) :
  promocodes (fst (create_order now od st)) = promocodes st.
Proof.
  unfold create_order. cbn [fst].
  destruct (get_user _ (user_id od)); [|reflexivity].
  destruct (0 <? _); [|reflexivity].
  unfold _update_statistics. cbn [promocodes set_statistics].
  now rewrite add_bonus_points_promocodes.
Qed.

(** One redemption carried out without interruption: the code is checked
    and, on the same store, the order is paid.  The counter of the redeemed
    code goes up by exactly 1 and stays within the cap. *)
Lemma redemption_in_one_go (now now' : Clock.datetime) (text : string)
    (b : PayButton) (uid : Z) (st : Store) (ud : Session) (p : Promo) :
  Spec.unique_codes (promocodes st) ->
  check_promocode now st (Py.upper (Py.strip text)) (default 0 (ud_order_subtotal ud))
  = Some p ->
  Py.truthy (Py.upper (Py.strip text)) = true ->
  let ud1 := fst (receive_promocode now text st ud) in
  let st2 := fst (fst (payment_method_callback now' b uid st ud1)) in
  exists p',
    get_promocode st2 (Py.upper (Py.strip text)) = Some p'
    /\ Spec.uses p' = Spec.uses p + 1
    /\ Spec.within_cap p'.
Proof.
  intros Huniq Hcheck Htruthy ud1 st2.
  set (c := Py.upper (Py.strip text)) in *.
  assert (Hget : get_promocode st c = Some p).
  { unfold check_promocode in Hcheck. unfold get_promocode.
    destruct (Py.first (fun q => code_matches c q && active q) (promocodes st))
      as [q|] eqn:Hq; [|discriminate].
    apply check_conditions_Some in Hcheck. subst q.
    destruct (Py.first (code_matches c) (promocodes st)) as [r|] eqn:Hr.
    - rewrite (first_active_unique c _ r Huniq Hr) in Hq.
      destruct (active r); congruence.
    - rewrite (first_active_absent c _ Hr) in Hq. discriminate. }
  assert (Hud1 : ud_promo_code ud1 = Some c).
  { subst ud1. unfold receive_promocode. fold c. now rewrite Hcheck. }
  assert (Hst2 : promocodes st2 = promocodes (use_promocode c st)).
  { subst st2. unfold payment_method_callback.
    destruct (create_order _ _ st) as [st1 oid] eqn:Hco.
    assert (Hpc : promocodes st1 = promocodes st).
    { pose proof (f_equal fst Hco) as E. simpl in E. rewrite <- E.
      apply create_order_promocodes. }
    rewrite Hud1, Htruthy. cbn [fst]. unfold use_promocode.
    cbn [promocodes set_promocodes]. now rewrite Hpc. }
  destruct (use_promocode_spec c st) as [_ Huse].
  destruct (Huse p Hget) as (Hget' & Huses & Hmax & _).
  exists (increment_uses p). split; [|split].
  - unfold get_promocode in *. now rewrite Hst2.
  - exact Huses.
  - intros cap Hc. rewrite Hmax in Hc. rewrite Huses.
    assert (Hnone : check_conditions now (default 0 (ud_order_subtotal ud)) p <> None).
    { unfold check_promocode in Hcheck.
      destruct (Py.first _ (promocodes st)) as [q|] eqn:Hq; [|discriminate].
      pose proof (check_conditions_Some _ _ _ _ Hcheck). subst q. congruence. }
    rewrite check_conditions_None in Hnone.
    assert (~ Spec.cap_reached p) by tauto.
    destruct (Z.le_gt_cases cap (Spec.uses p)); [|lia].
    exfalso. apply H. exists cap. auto.
Qed.

(** C9. Two customers enter a code that may be redeemed once while its
    counter is 0, and then both pay: each payment adds 1 to the counter,
    which ends at 2 with a cap of 1.  The counter was within the cap at the
    start and is not at the end. *)
Theorem promo_counter_exceeds_cap :
  let bot := run Sample.day_config Sample.opening Sample.two_redemptions in
  Forall Spec.within_cap (promocodes (store Sample.opening))
  /\ map (fun p => (code p, max_uses p, current_uses p)) (promocodes (store bot))
     = [("SALE10"%string, Some 1, Some 2)]
  /\ map (fun o => (id o, promo_code (data o), discount (data o)))
         (orders (store bot))
     = [(7, None, 0); (8, None, 0);
        (9, Some "SALE10"%string, 70); (10, Some "SALE10"%string, 70)]
  /\ ~ Forall Spec.within_cap (promocodes (store bot)).
Proof.
  assert (H1 : map (fun p => (code p, max_uses p, current_uses p))
                 (promocodes (store (run Sample.day_config Sample.opening
                                       Sample.two_redemptions)))
               = [("SALE10"%string, Some 1, Some 2)]) by (vm_compute; reflexivity).
  assert (H2 : map (fun o => (id o, promo_code (data o), discount (data o)))
                 (orders (store (run Sample.day_config Sample.opening
                                   Sample.two_redemptions)))
               = [(7, None, 0); (8, None, 0);
                  (9, Some "SALE10"%string, 70); (10, Some "SALE10"%string, 70)])
    by (vm_compute; reflexivity).
  cbv zeta. split; [|split; [exact H1 | split; [exact H2|]]].
  - repeat constructor. intros cap [= <-]. unfold Spec.uses. simpl. lia.
  - intros H.
    destruct (promocodes (store (run Sample.day_config Sample.opening
                                   Sample.two_redemptions)))
      as [|p [|q r]] eqn:E; try discriminate H1.
    injection H1 as _ Hm Hu.
    apply Forall_inv in H. specialize (H 1 Hm).
    unfold Spec.uses in H. rewrite Hu in H. simpl in H. lia.
Qed.

(** * Further properties of the store and of the handlers *)

(** ** Sorting, newest first *)

Lemma lex_compare_antisym (a b : list Z) :
  Py.lex_compare a b = CompOpp (Py.lex_compare b a).
Proof.
  revert b. induction a as [|x a IH]; intros [|y b]; simpl; try reflexivity.
  rewrite (Z.compare_antisym y x).
  destruct (y ?= x); simpl; [apply IH | reflexivity | reflexivity].
Qed.

Lemma insert_desc_perm {A} (key : A -> list Z) (x : A) (xs : list A) :
  Py.insert_desc key x xs ≡ₚ x :: xs.
Proof.
  induction xs as [|y r IH]; simpl; [reflexivity|].
  destruct (Py.lex_compare (key y) (key x)); try reflexivity.
  rewrite IH. apply Permutation_swap.
Qed.

Lemma sorted_desc_perm {A} (key : A -> list Z) (xs : list A) :
  Py.sorted_desc key xs ≡ₚ xs.
Proof.
  induction xs as [|x r IH]; simpl; [reflexivity|].
  rewrite insert_desc_perm. now rewrite IH.
Qed.

Lemma insert_desc_sorted {A} (key : A -> list Z) (x : A) (xs : list A) :
  Sorted (fun a b => Py.lex_compare (key a) (key b) <> Lt) xs ->
  Sorted (fun a b => Py.lex_compare (key a) (key b) <> Lt)
         (Py.insert_desc key x xs).
Proof.
  induction 1 as [|y r Hr IH Hhd]; simpl.
  - repeat constructor.
  - destruct (Py.lex_compare (key y) (key x)) eqn:E.
    + constructor; [now constructor|]. constructor.
      rewrite lex_compare_antisym, E. discriminate.
    + constructor; [now constructor|]. constructor.
      rewrite lex_compare_antisym, E. discriminate.
    + constructor; [exact IH|].
      destruct r as [|z r']; simpl.
      * constructor. rewrite E. discriminate.
      * destruct (Py.lex_compare (key z) (key x)); constructor;
          try (rewrite E; discriminate); now inversion Hhd.
Qed.

Lemma sorted_desc_sorted {A} (key : A -> list Z) (xs : list A) :
  Sorted (fun a b => Py.lex_compare (key a) (key b) <> Lt)
         (Py.sorted_desc key xs).
Proof.
  induction xs as [|x r IH]; simpl; [constructor|].
  now apply insert_desc_sorted.
Qed.

Lemma lex_compare_refl (a : list Z) : Py.lex_compare a a = Eq.
Proof.
  induction a as [|x a IH]; simpl; [reflexivity|]. now rewrite Z.compare_refl.
Qed.

Lemma insert_desc_stable {A} (key : A -> list Z) (k : list Z) (x : A)
    (xs : list A) :
  filter (fun y => key y = k) (Py.insert_desc key x xs)
  = filter (fun y => key y = k) (x :: xs).
Proof.
  induction xs as [|y r IH]; simpl; [reflexivity|].
  destruct (Py.lex_compare (key y) (key x)) eqn:E; try reflexivity.
  rewrite !filter_cons in *. rewrite IH.
  destruct (decide (key x = k)) as [Hx|Hx]; [|reflexivity].
  destruct (decide (key y = k)) as [Hy|Hy]; [|reflexivity].
  rewrite Hx, Hy, lex_compare_refl in E. discriminate.
Qed.

(** Elements with the same key leave the sort in the order they came in. *)
Lemma sorted_desc_stable {A} (key : A -> list Z) (k : list Z) (xs : list A) :
  filter (fun y => key y = k) (Py.sorted_desc key xs)
  = filter (fun y => key y = k) xs.
Proof.
  induction xs as [|x r IH]; simpl; [reflexivity|].
  rewrite insert_desc_stable, !filter_cons, IH. reflexivity.
Qed.

(** ** Lists of orders *)

(** X1. The list of pending orders holds exactly the stored orders that are
    neither delivered nor cancelled, each as often as it is stored; no order
    in it comes before one created later, and orders created in the same
    second keep their stored order. *)
Theorem get_pending_orders_spec (st : Store) :
  get_pending_orders st ≡ₚ filter Spec.pending (orders st)
  /\ (forall o, o ∈ get_pending_orders st <-> o ∈ orders st /\ Spec.pending o)
  /\ Sorted Spec.not_older (get_pending_orders st)
  /\ (forall t, filter (fun o => created_at o = t) (get_pending_orders st)
                = filter (fun o => created_at o = t)
                         (filter Spec.pending (orders st))).
Proof.
  unfold get_pending_orders. split; [|split; [|split]].
  - apply sorted_desc_perm.
  - intros o. rewrite sorted_desc_perm, list_elem_of_filter.
    unfold Spec.pending. intuition.
  - apply sorted_desc_sorted.
  - intros t. apply sorted_desc_stable.
Qed.

(** X2. The order history of a customer holds exactly the stored orders of
    that customer, newest first, orders of the same second in stored order;
    orders of other customers never appear. *)
Theorem get_user_orders_spec (st : Store) (uid : Z) :
  get_user_orders st uid ≡ₚ filter (fun o => user_id (data o) = uid) (orders st)
  /\ (forall o, o ∈ get_user_orders st uid
                <-> o ∈ orders st /\ user_id (data o) = uid)
  /\ Sorted Spec.not_older (get_user_orders st uid)
  /\ (forall t, filter (fun o => created_at o = t) (get_user_orders st uid)
                = filter (fun o => created_at o = t)
                         (filter (fun o => user_id (data o) = uid) (orders st))).
Proof.
  unfold get_user_orders. split; [|split; [|split]].
  - apply sorted_desc_perm.
  - intros o. rewrite sorted_desc_perm, list_elem_of_filter. intuition.
  - apply sorted_desc_sorted.
  - intros t. apply sorted_desc_stable.
Qed.

(** X3. Asked for a status, [get_all_orders] returns the stored orders of
    that status in stored order; asked for none, or for the empty text, it
    returns every stored order, newest first. *)
Theorem get_all_orders_spec (st : Store) (wanted : option string) :
  (forall s, wanted = Some s -> s <> ""%string ->
             get_all_orders st wanted = filter (fun o => status o = s) (orders st))
  /\ (wanted = None \/ wanted = Some ""%string ->
      get_all_orders st wanted ≡ₚ orders st
      /\ Sorted Spec.not_older (get_all_orders st wanted)).
Proof.
  split.
  - intros s -> Hs. unfold get_all_orders.
    destruct s; [congruence | reflexivity].
  - intros [-> | ->]; simpl; split;
      (apply sorted_desc_perm || apply sorted_desc_sorted).
Qed.

(** The asked status decides between the two branches. *)
Lemma get_all_orders_witness :
  get_all_orders Sample.shop (Some "delivered"%string) = [Sample.past_order]
  /\ get_all_orders Sample.shop None ≡ₚ orders Sample.shop.
Proof.
  destruct (get_all_orders_spec Sample.shop (Some "delivered"%string)) as [H1 _].
  destruct (get_all_orders_spec Sample.shop None) as [_ H2].
  split.
  - rewrite (H1 "delivered"%string eq_refl); [reflexivity | discriminate].
  - apply H2. now left.
Defined.

(** ** Creating an order and finding it again *)

Lemma create_order_orders (now : Clock.datetime) (od : OrderData) (st : Store) :
  orders (fst (create_order now od st))
  = orders st ++ [mkOrder (snd (create_order now od st)) "new"
                          (Clock.strftime now) None od].
Proof.
  unfold create_order. cbn [fst snd].
  destruct (get_user _ (user_id od)); [|reflexivity].
  destruct (0 <? _); [|reflexivity].
  unfold _update_statistics, add_bonus_points.
  now destruct (get_user _ (user_id od)).
Qed.

Lemma first_app_one {A} (p : A -> bool) (xs : list A) (x : A) :
  Py.first p (xs ++ [x])
  = match Py.first p xs with
    | Some y => Some y
    | None => if p x then Some x else None
    end.
Proof.
  induction xs as [|y r IH]; simpl; [reflexivity|].
  destruct (p y); [reflexivity | exact IH].
Qed.

Lemma create_order_id_fresh (now : Clock.datetime) (od : OrderData) (st : Store) :
  Forall (fun o => id o < snd (create_order now od st)) (orders st).
Proof.
  change (snd (create_order now od st))
    with (Py.max_default (map id (orders st)) 0 + 1).
  destruct (max_default_spec (map id (orders st)) 0) as (_ & _ & Hmax).
  destruct (orders st) as [|o r] eqn:E; [constructor|].
  rewrite <- E in *.
  assert (Hne : map id (orders st) <> []) by (rewrite E; discriminate).
  specialize (Hmax Hne). rewrite List.Forall_forall in Hmax.
  apply List.Forall_forall. intros o' Ho'.
  specialize (Hmax (id o') (in_map id _ _ Ho')). lia.
Qed.

(** X4. The id [create_order] returns is not in use before the call; after
    the call it finds the new order, which has the status 'new', the
    creation time and the data handed in; every other id finds what it
    found before, and ids that were unique stay unique. *)
Theorem create_order_then_get_order (now : Clock.datetime) (od : OrderData)
    (st : Store) :
  let st' := fst (create_order now od st) in
  let order_id := snd (create_order now od st) in
  get_order st order_id = None
  /\ get_order st' order_id
     = Some (mkOrder order_id "new" (Clock.strftime now) None od)
  /\ (forall i, i <> order_id -> get_order st' i = get_order st i)
  /\ (Spec.unique_ids st -> Spec.unique_ids st').
Proof.
  intros st' order_id.
  pose proof (create_order_id_fresh now od st) as Hfresh.
  fold order_id in Hfresh.
  assert (Hnone : get_order st order_id = None).
  { apply first_None_Forall. eapply List.Forall_impl; [|exact Hfresh].
    intros o Ho. simpl in Ho. apply Z.eqb_neq. lia. }
  assert (Horders : orders st' = orders st ++ [mkOrder order_id "new"
                                  (Clock.strftime now) None od])
    by apply create_order_orders.
  split; [exact Hnone|]. split; [|split].
  - unfold get_order in *. rewrite Horders, first_app_one, Hnone.
    cbn [id]. now rewrite Z.eqb_refl.
  - intros i Hi. unfold get_order. rewrite Horders, first_app_one.
    destruct (Py.first _ (orders st)); [reflexivity|].
    cbn [id]. apply Z.eqb_neq in Hi. rewrite Z.eqb_sym in Hi. now rewrite Hi.
  - unfold Spec.unique_ids. rewrite Horders, map_app. intros Hnd.
    apply NoDup_app. split; [exact Hnd|]. split; [|apply NoDup_singleton].
    intros x Hx Hx'. apply list_elem_of_singleton in Hx'. subst x.
    apply list_elem_of_fmap in Hx as (o & Ho & Hin). cbn [id] in Ho.
    rewrite List.Forall_forall in Hfresh.
    apply list_elem_of_In in Hin. specialize (Hfresh o Hin). simpl in Hfresh. lia.
Qed.

(** The shop numbers the new order 9 and keeps its ids unique. *)
Lemma create_order_then_get_order_witness :
  Spec.unique_ids (fst (create_order Sample.noon Sample.draft Sample.shop)).
Proof.
  apply (create_order_then_get_order Sample.noon Sample.draft Sample.shop).
  unfold Spec.unique_ids. simpl.
  apply NoDup_cons. split; [|apply NoDup_singleton].
  intros H. apply list_elem_of_singleton in H. discriminate H.
Defined.

(** ** Series of status changes *)

Lemma last_cons_default {A} (l : list A) (x d : A) :
  List.last (x :: l) d = List.last l x.
Proof.
  revert x d. induction l as [|y r IH]; intros x d; [reflexivity|].
  change (List.last (y :: r) d = List.last (y :: r) x).
  now rewrite !IH.
Qed.

(** X5. After any series of status changes of a stored order, the order
    still has its id, creation time and data; its status is the last one
    written; a delivery timestamp it had is still there, one is there
    whenever 'delivered' was among the statuses written, and otherwise the
    timestamp field is as it was. *)
Theorem update_order_statuses_spec (oid : Z)
    (changes : list (Clock.datetime * string)) (st : Store) (o : Order) :
  get_order st oid = Some o ->
  exists o',
    get_order (update_order_statuses oid changes st) oid = Some o'
    /\ id o' = id o /\ created_at o' = created_at o /\ data o' = data o
    /\ status o' = List.last (map snd changes) (status o)
    /\ (is_Some (delivered_at o) -> is_Some (delivered_at o'))
    /\ (In "delivered"%string (map snd changes) -> is_Some (delivered_at o'))
    /\ (~ In "delivered"%string (map snd changes) ->
        delivered_at o' = delivered_at o).
Proof.
  revert st o. induction changes as [|[now s] changes IH]; intros st o Ho.
  - exists o. simpl. repeat split; auto. intros [].
  - assert (Ho1 : get_order (update_order_status now oid s st) oid
                  = Some (stamp_status now s o))
      by (now rewrite get_order_update_order_status, Ho).
    destruct (IH _ _ Ho1) as (o' & Hget & Hid & Hcr & Hdata & Hst & Hkeep & Hdel & Hno).
    exists o'. split; [exact Hget|].
    split; [now rewrite Hid|]. split; [now rewrite Hcr|].
    split; [now rewrite Hdata|].
    assert (Hstamp : s = "delivered"%string \/ is_Some (delivered_at o) ->
                     is_Some (delivered_at (stamp_status now s o))).
    { simpl. destruct (String.eqb_spec s "delivered"); [eauto|].
      intros [?|?]; [contradiction | assumption]. }
    split; [|split; [|split]].
    + rewrite Hst. cbn [map snd status stamp_status].
      symmetry. apply last_cons_default.
    + intros H. apply Hkeep, Hstamp. now right.
    + cbn [map snd]. intros [H|H]; [apply Hkeep, Hstamp; now left | now apply Hdel].
    + cbn [map snd]. intros H.
      rewrite Hno by (intros Hin; apply H; now right).
      simpl. destruct (String.eqb_spec s "delivered"); [|reflexivity].
      exfalso. apply H. now left.
Qed.

(** The order in the kitchen is sent out, delivered, and then marked
    'preparing' again: the delivery timestamp stays. *)
Lemma update_order_statuses_witness :
  exists o',
    get_order (update_order_statuses 8
                 [(Sample.noon, "on_the_way"%string);
                  (Sample.late_evening, "delivered"%string);
                  (Sample.late_evening, "preparing"%string)] Sample.shop) 8
    = Some o'
    /\ status o' = "preparing"%string
    /\ is_Some (delivered_at o').
Proof.
  destruct (update_order_statuses_spec 8
              [(Sample.noon, "on_the_way"%string);
               (Sample.late_evening, "delivered"%string);
               (Sample.late_evening, "preparing"%string)]
              Sample.shop Sample.open_order eq_refl)
    as (o' & Hget & _ & _ & _ & Hst & _ & Hdel & _).
  exists o'. split; [exact Hget|]. split; [exact Hst|].
  apply Hdel. simpl. tauto.
Defined.

(** ** Status changes and the list of pending orders *)

Lemma pending_elem (st : Store) (o : Order) :
  o ∈ get_pending_orders st <-> o ∈ orders st /\ Spec.pending o.
Proof.
  unfold get_pending_orders. rewrite sorted_desc_perm, list_elem_of_filter.
  unfold Spec.pending. intuition.
Qed.

Lemma update_first_unique_elem (oid : Z) (f : Order -> Order) (l : list Order)
    (o x : Order) :
  NoDup (map id l) ->
  Py.first (fun o => id o =? oid) l = Some o ->
  x ∈ Py.update_first (fun o => id o =? oid) f l
  <-> x = f o \/ (x ∈ l /\ id x <> oid).
Proof.
  induction l as [|y r IH]; simpl; [discriminate|].
  intros Hnd. apply NoDup_cons in Hnd as [Hy Hnd].
  destruct (id y =? oid) eqn:E.
  - apply Z.eqb_eq in E. intros [= <-].
    rewrite !elem_of_cons. split.
    + intros [->|Hx]; [now left|]. right. split; [now right|].
      intros Hid. apply Hy. apply list_elem_of_fmap. exists x. split; [congruence | exact Hx].
    + intros [->|[[->|Hx] Hid]]; [now left | congruence | now right].
  - apply Z.eqb_neq in E. intros Ho.
    rewrite !elem_of_cons, (IH Hnd Ho). split.
    + intros [->|[->|[Hx Hid]]]; [right; split; [now left | exact E] | now left |].
      right. split; [now right | exact Hid].
    + intros [->|[[->|Hx] Hid]]; [right; now left | now left |].
      right. right. split; assumption.
Qed.

(** X6. With unique order ids, writing 'delivered' or 'cancelled' takes the
    order out of the list of pending orders, writing any other status puts
    or keeps it there with that status, and the other orders are pending
    exactly as before. *)
Theorem pending_after_status_change (now : Clock.datetime) (oid : Z)
    (s : string) (st : Store) (o : Order) :
  Spec.unique_ids st ->
  get_order st oid = Some o ->
  let st' := update_order_status now oid s st in
  (s = "delivered"%string \/ s = "cancelled"%string ->
   forall p, p ∈ get_pending_orders st' -> id p <> oid)
  /\ (s <> "delivered"%string -> s <> "cancelled"%string ->
      exists p, p ∈ get_pending_orders st' /\ id p = oid /\ status p = s)
  /\ (forall p, id p <> oid ->
                p ∈ get_pending_orders st' <-> p ∈ get_pending_orders st).
Proof.
  intros Huniq Ho st'.
  assert (Hoid : id o = oid).
  { apply first_Some_true in Ho. now apply Z.eqb_eq in Ho. }
  assert (Helem : forall x, x ∈ orders st'
                            <-> x = stamp_status now s o
                                \/ (x ∈ orders st /\ id x <> oid)).
  { intros x. apply update_first_unique_elem; assumption. }
  split; [|split].
  - intros Hs p Hp Hid. apply pending_elem in Hp as [Hin [Hd Hc]].
    apply Helem in Hin as [->|[_ Hne]]; [|contradiction].
    simpl in Hd, Hc. destruct Hs; contradiction.
  - intros Hd Hc. exists (stamp_status now s o). split; [|split].
    + apply pending_elem. split; [apply Helem; now left|]. split; assumption.
    + exact Hoid.
    + reflexivity.
  - intros p Hid. rewrite !pending_elem, Helem. split.
    + intros [[->|[Hin _]] Hp]; [simpl in Hid; congruence | tauto].
    + intros [Hin Hp]. split; [right|]; tauto.
Qed.

(** Once the order in the kitchen is delivered, nothing is pending. *)
Lemma pending_after_status_change_witness :
  Forall (fun p => id p <> 8)
         (get_pending_orders
            (update_order_status Sample.noon 8 "delivered" Sample.shop)).
Proof.
  apply Forall_forall.
  apply (pending_after_status_change Sample.noon 8 "delivered" Sample.shop
           Sample.open_order).
  - unfold Spec.unique_ids. simpl.
    apply NoDup_cons. split; [|apply NoDup_singleton].
    intros H. apply list_elem_of_singleton in H. discriminate H.
  - reflexivity.
  - now left.
Defined.

(** ** The registry of promo codes *)

Lemma first_update_first_other {A} (p q : A -> bool) (f : A -> A) (xs : list A) :
  (forall x, q (f x) = q x) ->
  (forall x, p x = true -> q x = false) ->
  Py.first q (Py.update_first p f xs) = Py.first q xs.
Proof.
  intros Hkey Hdisj. induction xs as [|y r IH]; simpl; [reflexivity|].
  destruct (p y) eqn:E; simpl.
  - now rewrite Hkey, (Hdisj y E).
  - now rewrite IH.
Qed.

Lemma get_promocode_None_iff (st : Store) (c : string) :
  get_promocode st c = None
  <-> Py.upper c ∉ map (fun p => Py.upper (code p)) (promocodes st).
Proof.
  unfold get_promocode. rewrite first_None_Forall, Forall_forall. split.
  - intros H Hin. apply list_elem_of_fmap in Hin as (p & Hp & Hin).
    specialize (H p Hin). unfold code_matches in H.
    apply String.eqb_neq in H. congruence.
  - intros H p Hin. unfold code_matches. apply String.eqb_neq. intros E.
    apply H. apply list_elem_of_fmap. exists p. split; [congruence | exact Hin].
Qed.

Lemma use_promocode_other (c c' : string) (st : Store) :
  Py.upper c' <> Py.upper c ->
  get_promocode (use_promocode c st) c' = get_promocode st c'.
Proof.
  intros Hne. unfold get_promocode, use_promocode. cbn [promocodes set_promocodes].
  apply first_update_first_other; [reflexivity|].
  intros q Hq. unfold code_matches in *. apply String.eqb_eq in Hq.
  apply String.eqb_neq. congruence.
Qed.

Lemma use_promocode_codes (c : string) (st : Store) :
  map (fun p => Py.upper (code p)) (promocodes (use_promocode c st))
  = map (fun p => Py.upper (code p)) (promocodes st).
Proof.
  unfold use_promocode. cbn [promocodes set_promocodes].
  induction (promocodes st) as [|q r IH]; simpl; [reflexivity|].
  destruct (code_matches c q); simpl; [reflexivity | now rewrite IH].
Qed.

(** ** The registry and the last day of a code, over any case mapping *)

Section RegistryAnyCase.
Variable upper : string -> string.

Lemma get_promocode_any_None_iff (st : Store) (c : string) :
  Promocodes.get_promocode upper st c = None
  <-> upper c ∉ map (fun p => upper (code p)) (promocodes st).
Proof.
  unfold Promocodes.get_promocode. rewrite first_None_Forall, Forall_forall. split.
  - intros H Hin. apply list_elem_of_fmap in Hin as (p & Hp & Hin).
    specialize (H p Hin). unfold Promocodes.code_matches in H.
    apply String.eqb_neq in H. congruence.
  - intros H p Hin. unfold Promocodes.code_matches. apply String.eqb_neq.
    intros E. apply H. apply list_elem_of_fmap. exists p.
    split; [congruence | exact Hin].
Qed.

(** X7. [add_promocode] appends without looking: under a code that no
    entry has, in any letter case, the new entry is found from then on;
    under a code that an entry already has, that older entry is still the
    one found; other codes find what they found before.  Codes that were
    unique stay unique exactly when the new code was not in the registry.
    Codes are compared through [str.upper()], here any case mapping
    [upper]. *)
Theorem add_promocode_spec (p : Promo) (st : Store) :
  (forall c, upper c = upper (code p) ->
             Promocodes.get_promocode upper st c = None ->
             Promocodes.get_promocode upper (add_promocode p st) c = Some p)
  /\ (forall c q, Promocodes.get_promocode upper st c = Some q ->
                  Promocodes.get_promocode upper (add_promocode p st) c = Some q)
  /\ (forall c, upper c <> upper (code p) ->
                Promocodes.get_promocode upper (add_promocode p st) c
                = Promocodes.get_promocode upper st c)
  /\ (Spec.unique_by upper (promocodes st) ->
      Spec.unique_by upper (promocodes (add_promocode p st))
      <-> Promocodes.get_promocode upper st (code p) = None).
Proof.
  assert (Hget : forall c, Promocodes.get_promocode upper (add_promocode p st) c
                 = match Promocodes.get_promocode upper st c with
                   | Some q => Some q
                   | None => if Promocodes.code_matches upper c p
                             then Some p else None
                   end).
  { intros c. unfold Promocodes.get_promocode, add_promocode.
    cbn [promocodes set_promocodes]. apply first_app_one. }
  split; [|split; [|split]].
  - intros c Hc Hnone. rewrite Hget, Hnone. unfold Promocodes.code_matches.
    now rewrite Hc, String.eqb_refl.
  - intros c q Hq. now rewrite Hget, Hq.
  - intros c Hc. rewrite Hget.
    destruct (Promocodes.get_promocode upper st c); [reflexivity|].
    unfold Promocodes.code_matches.
    destruct (String.eqb_spec (upper (code p)) (upper c));
      [congruence | reflexivity].
  - intros Huniq. rewrite get_promocode_any_None_iff.
    unfold Spec.unique_by, add_promocode in *. cbn [promocodes set_promocodes].
    rewrite map_app. cbn [map]. split.
    + intros Hnd Hin. apply NoDup_app in Hnd as (_ & Hdisj & _).
      apply (Hdisj _ Hin). apply list_elem_of_singleton. reflexivity.
    + intros Hnotin. apply NoDup_app. split; [exact Huniq|].
      split; [|apply NoDup_singleton].
      intros x Hx Hx'. apply list_elem_of_singleton in Hx'. now subst x.
Qed.

Lemma use_promocode_any_spec (c : string) (st : Store) :
  (Promocodes.get_promocode upper st c = None ->
   Promocodes.use_promocode upper c st = st)
  /\ (forall p, Promocodes.get_promocode upper st c = Some p ->
      Promocodes.get_promocode upper (Promocodes.use_promocode upper c st) c
      = Some (increment_uses p)).
Proof.
  unfold Promocodes.get_promocode, Promocodes.use_promocode. split.
  - intros H. rewrite update_first_None by exact H. now destruct st.
  - intros p Hp. cbn [promocodes set_promocodes].
    rewrite first_update_first by reflexivity. now rewrite Hp.
Qed.

Lemma use_promocode_any_other (c c' : string) (st : Store) :
  upper c' <> upper c ->
  Promocodes.get_promocode upper (Promocodes.use_promocode upper c st) c'
  = Promocodes.get_promocode upper st c'.
Proof.
  intros Hne. unfold Promocodes.get_promocode, Promocodes.use_promocode.
  cbn [promocodes set_promocodes].
  apply first_update_first_other; [reflexivity|].
  intros q Hq. unfold Promocodes.code_matches in *. apply String.eqb_eq in Hq.
  apply String.eqb_neq. congruence.
Qed.

Lemma use_promocode_any_codes (c : string) (st : Store) :
  map code (promocodes (Promocodes.use_promocode upper c st))
  = map code (promocodes st).
Proof.
  unfold Promocodes.use_promocode. cbn [promocodes set_promocodes].
  induction (promocodes st) as [|q r IH]; simpl; [reflexivity|].
  destruct (Promocodes.code_matches upper c q); simpl;
    [reflexivity | now rewrite IH].
Qed.

(** X8. Redeeming a code [n] times adds exactly [n] to the counter of the
    entry found under that code and changes nothing else of that entry;
    entries of other codes are found unchanged, no code is added, removed
    or moved, and a code that is not in the registry leaves the store as it
    is.  Codes are compared through [str.upper()], here any case mapping
    [upper]. *)
Theorem use_promocode_repeated (c : string) (n : nat) (st : Store) :
  let st' := Nat.iter n (Promocodes.use_promocode upper c) st in
  (Promocodes.get_promocode upper st c = None -> st' = st)
  /\ (forall p, Promocodes.get_promocode upper st c = Some p ->
      exists p',
        Promocodes.get_promocode upper st' c = Some p'
        /\ Spec.uses p' = Spec.uses p + Z.of_nat n
        /\ code p' = code p /\ active p' = active p
        /\ min_order p' = min_order p /\ expiry_date p' = expiry_date p
        /\ max_uses p' = max_uses p
        /\ discount_percent p' = discount_percent p
        /\ discount_fixed p' = discount_fixed p)
  /\ (forall c', upper c' <> upper c ->
      Promocodes.get_promocode upper st' c' = Promocodes.get_promocode upper st c')
  /\ map code (promocodes st') = map code (promocodes st).
Proof.
  cbv zeta.
  induction n as [|n IH];
    [change (Nat.iter 0 (Promocodes.use_promocode upper c) st) with st
    | change (Nat.iter (S n) (Promocodes.use_promocode upper c) st)
        with (Promocodes.use_promocode upper c
                (Nat.iter n (Promocodes.use_promocode upper c) st))].
  - split; [reflexivity|]. split; [|split; reflexivity].
    intros p Hp. exists p. rewrite Z.add_0_r. repeat split; auto.
  - destruct IH as (IH0 & IH1 & IH2 & IH3).
    destruct (use_promocode_any_spec c
                (Nat.iter n (Promocodes.use_promocode upper c) st)) as [U0 U1].
    split; [|split; [|split]].
    + intros Hnone. rewrite (IH0 Hnone) in U0 |- *. now apply U0.
    + intros p Hp. destruct (IH1 p Hp) as (p' & Hget & Huses & Hrest).
      exists (increment_uses p'). split; [exact (U1 p' Hget)|].
      split.
      { unfold Spec.uses in *. cbn [increment_uses current_uses].
        cbn [default from_option Datatypes.id]. lia. }
      destruct Hrest as (? & ? & ? & ? & ? & ? & ?). repeat split; assumption.
    + intros c' Hc'. rewrite use_promocode_any_other by exact Hc'. now apply IH2.
    + now rewrite use_promocode_any_codes.
Qed.

(** X9. For an active code whose minimum and cap allow the order, the date
    alone decides before and after the expiry date: before it the code is
    accepted, after it refused.  On the expiry date itself the code is
    accepted at midnight sharp and refused at every later moment of the
    day.  Codes are compared through [str.upper()], here any case mapping
    [upper]. *)
Theorem check_promocode_expiry_day (now : Clock.datetime) (st : Store)
    (c : string) (order_total : Z) (p : Promo) :
  Spec.unique_by upper (promocodes st) ->
  Promocodes.get_promocode upper st c = Some p ->
  active p = true ->
  Spec.minimum p <= order_total ->
  ~ Spec.cap_reached p ->
  Spec.valid_time (Clock.tod now) ->
  match Py.lex_compare
          [Clock.year now; Clock.month now; Clock.day now]
          [Clock.d_year (expiry_date p); Clock.d_month (expiry_date p);
           Clock.d_day (expiry_date p)] with
  | Lt => Promocodes.check_promocode upper now st c order_total = Some p
  | Eq => (Spec.micros (Clock.tod now) = 0 ->
           Promocodes.check_promocode upper now st c order_total = Some p)
          /\ (0 < Spec.micros (Clock.tod now) ->
              Promocodes.check_promocode upper now st c order_total = None)
  | Gt => Promocodes.check_promocode upper now st c order_total = None
  end.
Proof.
  intros Huniq Hp Hact Hmin Hcap Hv.
  assert (Hcheck : Promocodes.check_promocode upper now st c order_total
                   = check_conditions now order_total p).
  { unfold Promocodes.check_promocode, Promocodes.get_promocode in *.
    now rewrite (first_active_unique_any upper c _ p Huniq Hp), Hact. }
  rewrite Hcheck.
  pose proof (check_conditions_None now order_total p) as Hnone.
  pose proof (past_expiry_iff now p Hv) as Hexp.
  assert (Hsome : ~ Spec.past_expiry now p ->
                  check_conditions now order_total p = Some p).
  { intros Hn. destruct (check_conditions now order_total p) as [q|] eqn:E.
    - apply check_conditions_Some in E. now subst.
    - apply (proj1 (check_conditions_None now order_total p)) in E.
      destruct E as [E|[E|E]]; [lia | contradiction | contradiction]. }
  destruct (Py.lex_compare _ _).
  - split.
    + intros Hz. apply Hsome. rewrite Hexp. lia.
    + intros Hpos. apply Hnone. right; left. now apply Hexp.
  - apply Hsome. now rewrite Hexp.
  - apply Hnone. right; left. now apply Hexp.
Qed.

End RegistryAnyCase.

(** A second SALE10 is shadowed by the first and breaks uniqueness. *)
Lemma add_promocode_witness :
  Promocodes.get_promocode Py.upper (add_promocode Sample.sale Sample.shop)
    "sale10" = Some Sample.sale
  /\ ~ Spec.unique_by Py.upper (promocodes (add_promocode Sample.sale Sample.shop)).
Proof.
  destruct (add_promocode_spec Py.upper Sample.sale Sample.shop)
    as (_ & Hold & _ & Huniq).
  split.
  - apply Hold. reflexivity.
  - intros H. apply Huniq in H; [discriminate H|].
    unfold Spec.unique_by. simpl. apply NoDup_singleton.
Defined.

(** Three redemptions of the sample code take its counter from 0 to 3. *)
Lemma use_promocode_repeated_witness :
  exists p',
    Promocodes.get_promocode Py.upper
      (Nat.iter 3 (Promocodes.use_promocode Py.upper "Sale10") Sample.shop)
      "Sale10" = Some p'
    /\ Spec.uses p' = 3.
Proof.
  destruct (use_promocode_repeated Py.upper "Sale10" 3 Sample.shop)
    as (_ & H & _).
  destruct (H Sample.sale eq_refl) as (p' & Hget & Huses & _).
  exists p'. split; [exact Hget | exact Huses].
Defined.

(** The sample code, valid until 2024-12-31, is refused at one second past
    midnight of that day. *)
Lemma check_promocode_expiry_day_witness :
  Promocodes.check_promocode Py.upper
    (Clock.DateTime 2024 12 31 (Clock.Time 0 0 1 0)) Sample.shop "SALE10" 700
  = None.
Proof.
  pose proof (check_promocode_expiry_day Py.upper
                (Clock.DateTime 2024 12 31 (Clock.Time 0 0 1 0))
                Sample.shop "SALE10" 700 Sample.sale) as H.
  simpl in H. apply H.
  - unfold Spec.unique_by. simpl. apply NoDup_singleton.
  - reflexivity.
  - reflexivity.
  - unfold Spec.minimum. simpl. lia.
  - intros (cap & Hc & Hu). injection Hc as <-. unfold Spec.uses in Hu.
    simpl in Hu. lia.
  - unfold Spec.valid_time. simpl. lia.
  - unfold Spec.micros. simpl. lia.
Defined.

(** ** One customer and the usage caps *)

Lemma session_of_handle (config : Config) (bot : Bot) (u : Update) :
  sessions (handle config bot u) !! upd_user u
  = Some (session_of (handle config bot u) (upd_user u)).
Proof.
  unfold session_of, handle.
  destruct (match upd_action u with PressProduct _ => _ | _ => _ end) as [st ud].
  cbn [sessions]. now rewrite lookup_insert_eq.
Qed.

(** What one update of a customer does to the promo codes of the store and
    to the code the customer has entered: nothing; or a code that has just
    passed the check is entered; or the entered code is redeemed and
    forgotten. *)
Lemma handle_promo_effect (config : Config) (bot : Bot) (u : Update) :
  let st := store bot in
  let ud := session_of bot (upd_user u) in
  let st' := store (handle config bot u) in
  let ud' := session_of (handle config bot u) (upd_user u) in
  (promocodes st' = promocodes st /\ ud_promo_code ud' = ud_promo_code ud)
  \/ (promocodes st' = promocodes st
      /\ exists c p total, ud_promo_code ud' = Some c
                           /\ check_promocode (upd_now u) st c total = Some p)
  \/ (ud_promo_code ud' = None
      /\ (promocodes st' = promocodes st
          \/ exists c, ud_promo_code ud = Some c /\ Py.truthy c = true
                       /\ promocodes st' = promocodes (use_promocode c st))).
Proof.
  intros st ud st' ud'.
  assert (Hud' : ud' = session_of (handle config bot u) (upd_user u)) by reflexivity.
  unfold session_of in Hud'. subst st'. unfold handle in *.
  fold st in Hud' |- *. fold ud in Hud' |- *.
  destruct (upd_action u) as [pid|b|pid|b| | |text| |b|oid|oid].
  - cbn [store sessions] in *. rewrite lookup_insert_eq in Hud'. cbn in Hud'.
    left. split; [reflexivity|]. rewrite Hud'. unfold product_callback.
    now destruct (get_product st pid).
  - cbn [store sessions] in *. rewrite lookup_insert_eq in Hud'. cbn in Hud'.
    left. split; [reflexivity|]. now rewrite Hud'.
  - cbn [store sessions] in *. rewrite lookup_insert_eq in Hud'. cbn in Hud'.
    left. split; [reflexivity|]. rewrite Hud'. unfold add_to_cart_callback.
    now destruct (get_product st pid).
  - cbn [store sessions] in *. rewrite lookup_insert_eq in Hud'. cbn in Hud'.
    left. split; [reflexivity|]. now rewrite Hud'.
  - cbn [store sessions] in *. rewrite lookup_insert_eq in Hud'. cbn in Hud'.
    left. split; [reflexivity|]. now rewrite Hud'.
  - cbn [store sessions] in *. rewrite lookup_insert_eq in Hud'. cbn in Hud'.
    left. split; [reflexivity|]. rewrite Hud'. unfold checkout_callback.
    destruct (default [] (ud_cart ud)); [reflexivity|].
    now destruct (_ <? _).
  - cbn [store sessions] in *. rewrite lookup_insert_eq in Hud'. cbn in Hud'.
    rewrite Hud'. unfold receive_promocode.
    destruct (check_promocode _ st _ _) as [p|] eqn:E.
    + right; left. split; [reflexivity|]. eauto.
    + left. split; reflexivity.
  - cbn [store sessions] in *. rewrite lookup_insert_eq in Hud'. cbn in Hud'.
    left. split; [reflexivity|]. now rewrite Hud'.
  - unfold payment_method_callback in *.
    destruct (create_order _ _ st) as [st1 order_id] eqn:Hco.
    assert (Hpc : promocodes st1 = promocodes st).
    { pose proof (f_equal fst Hco) as E. cbn [fst] in E. rewrite <- E.
      apply create_order_promocodes. }
    cbn [fst store sessions] in *. rewrite lookup_insert_eq in Hud'. cbn in Hud'.
    right; right. split; [now rewrite Hud'|].
    destruct (ud_promo_code ud) as [c|]; [|now left].
    destruct (Py.truthy c) eqn:Ht; [|now left].
    right. exists c. split; [reflexivity|]. split; [exact Ht|].
    unfold use_promocode. cbn [promocodes set_promocodes]. now rewrite Hpc.
  - cbn [store sessions] in *. rewrite lookup_insert_eq in Hud'. cbn in Hud'.
    left. split; [reflexivity|]. rewrite Hud'. unfold reorder_callback.
    destruct (get_order st oid); [|reflexivity].
    now destruct (fold_left _ _ _).
  - cbn [store sessions] in *. rewrite lookup_insert_eq in Hud'. cbn in Hud'.
    left. split; [|now rewrite Hud'].
    unfold cancel_order_callback. destruct (get_order st oid); [|reflexivity].
    now destruct (not_cancellable _).
Qed.

(** X10. As long as one customer alone uses the bot, no usage counter
    passes its cap: from a registry with unique codes and counters within
    their caps, and a session without an entered code, every series of
    updates of that customer leaves every counter within its cap.  Stated
    for codes and for texts sent by the customer that are ASCII, where
    [Py.upper] and [Py.strip] are [str.upper()] and [str.strip()]. *)
Theorem single_customer_keeps_caps (config : Config) (bot : Bot) (uid : Z)
    (updates : list Update) :
  Spec.ascii_codes (promocodes (store bot)) ->
  Forall Spec.ascii_update updates ->
  Spec.unique_codes (promocodes (store bot)) ->
  Forall Spec.within_cap (promocodes (store bot)) ->
  ud_promo_code (session_of bot uid) = None ->
  Forall (fun u => upd_user u = uid) updates ->
  Forall Spec.within_cap (promocodes (store (run config bot updates))).
Proof.
  intros _ _ Huniq Hcap Hnone Hus.
  assert (Hhand : Spec.code_in_hand (store bot) (session_of bot uid)).
  { intros c Hc. rewrite Hnone in Hc. discriminate. }
  clear Hnone. revert bot Huniq Hcap Hhand.
  unfold run. induction Hus as [|u updates Hu _ IH]; intros bot Huniq Hcap Hhand.
  - exact Hcap.
  - cbn [fold_left]. subst uid.
    pose proof (handle_promo_effect config bot u) as Heff. cbv zeta in Heff.
    assert (Hsame : forall st', promocodes st' = promocodes (store bot) ->
                      forall c, get_promocode st' c = get_promocode (store bot) c).
    { intros st' E c. unfold get_promocode. now rewrite E. }
    apply IH.
    + destruct Heff as [[E _]|[[E _]|[_ [E|(c & _ & _ & E)]]]];
        rewrite E; try exact Huniq.
      unfold Spec.unique_codes. now rewrite use_promocode_codes.
    + destruct Heff as [[E _]|[[E _]|[_ [E|(c & Hc & Ht & E)]]]];
        rewrite E; try exact Hcap.
      destruct (Hhand c Hc Ht) as (p & Hp & Hnot).
      destruct (use_promocode_spec c (store bot)) as [_ Huse].
      destruct (Huse p Hp) as (_ & Huses & Hmax & i & Hi & Hins).
      rewrite Hins. apply Forall_insert; [exact Hcap|].
      intros cap Hc'. rewrite Hmax in Hc'. rewrite Huses.
      destruct (Z.le_gt_cases cap (Spec.uses p)); [|lia].
      exfalso. apply Hnot. exists cap. auto.
    + destruct Heff as [[E Hpc]|[[E (c & p & total & Hc & Hchk)]|[Hnone _]]].
      * intros c Hc Ht. rewrite Hpc in Hc.
        destruct (Hhand c Hc Ht) as (p & Hp & Hnot).
        exists p. split; [now rewrite (Hsame _ E)|exact Hnot].
      * intros c' Hc' _. rewrite Hc in Hc'. injection Hc' as <-.
        exists p. rewrite (Hsame _ E).
        assert (Hget : get_promocode (store bot) c = Some p).
        { unfold check_promocode in Hchk. unfold get_promocode.
          destruct (Py.first (fun q => code_matches c q && active q) _)
            as [q|] eqn:Hq; [|discriminate].
          pose proof (check_conditions_Some _ _ _ _ Hchk). subst q.
          destruct (Py.first (code_matches c) _) as [r|] eqn:Hr.
          - rewrite (first_active_unique c _ r Huniq Hr) in Hq.
            destruct (active r); congruence.
          - rewrite (first_active_absent c _ Hr) in Hq. discriminate. }
        split; [exact Hget|].
        intros Hreached.
        assert (Hn : check_conditions (upd_now u) total p = None).
        { apply check_conditions_None. right; right; exact Hreached. }
        unfold check_promocode in Hchk.
        destruct (Py.first _ _) as [q|]; [|discriminate].
        pose proof (check_conditions_Some _ _ _ _ Hchk). subst q. congruence.
      * intros c Hc. rewrite Hnone in Hc. discriminate.
Qed.

(** The first customer alone: browsing, entering the code, paying, and
    entering it again leave the counter at its cap of 1. *)
Lemma single_customer_keeps_caps_witness :
  Forall Spec.within_cap
    (promocodes (store (run Sample.day_config Sample.opening
                          (Sample.shop_and_validate 42
                           ++ [Sample.press 42 (PressPay PayCash)]
                           ++ Sample.shop_and_validate 42
                           ++ [Sample.press 42 (PressPay PayCash)])))).
Proof.
  apply single_customer_keeps_caps with (uid := 42).
  - repeat constructor.
  - repeat constructor.
  - unfold Spec.unique_codes. simpl. apply NoDup_singleton.
  - repeat constructor. intros cap [= <-]. unfold Spec.uses. simpl. lia.
  - reflexivity.
  - repeat constructor.
Defined.

(** ** Saved addresses *)

Lemma existsb_eqb_elem (a : string) (l : list string) :
  existsb (String.eqb a) l = true <-> a ∈ l.
Proof.
  rewrite existsb_exists. split.
  - intros (x & Hin & E). apply String.eqb_eq in E. subst x.
    now apply list_elem_of_In.
  - intros Hin. exists a. split; [now apply list_elem_of_In | apply String.eqb_refl].
Qed.

(** X11. Saving an address for a stored user leaves the address in the
    user's list exactly once more than before if it was absent, and changes
    nothing if it was present: saving the same address again is without
    effect, a list without repetitions stays without repetitions, and no
    other field of the user changes.  For an unknown user nothing is
    stored. *)
Theorem add_user_address_spec (uid : Z) (address : string) (st : Store) :
  (get_user st uid = None -> add_user_address uid address st = st)
  /\ (forall u, get_user st uid = Some u ->
      exists u',
        get_user (add_user_address uid address st) uid = Some u'
        /\ address ∈ addresses u'
        /\ (address ∈ addresses u -> add_user_address uid address st = st)
        /\ (address ∉ addresses u -> addresses u' = addresses u ++ [address])
        /\ (NoDup (addresses u) -> NoDup (addresses u'))
        /\ telegram_id u' = telegram_id u /\ first_name u' = first_name u
        /\ u_phone u' = u_phone u /\ bonus_points u' = bonus_points u
        /\ total_orders u' = total_orders u
        /\ add_user_address uid address (add_user_address uid address st)
           = add_user_address uid address st).
Proof.
  split.
  - intros H. unfold add_user_address. now rewrite H.
  - intros u Hu.
    pose proof (existsb_eqb_elem address (addresses u)) as Hmem.
    destruct (existsb (String.eqb address) (addresses u)) eqn:E.
    + assert (Hst : add_user_address uid address st = st).
      { unfold add_user_address. now rewrite Hu, E. }
      rewrite !Hst.
      exists u. assert (Hin : address ∈ addresses u) by now apply Hmem.
      split; [exact Hu|]. split; [exact Hin|]. split; [reflexivity|].
      split; [intros Hn; contradiction|]. repeat split; auto.
    + assert (Hnin : address ∉ addresses u).
      { intros Hin. apply Hmem in Hin. discriminate. }
      assert (Hst : add_user_address uid address st
                    = update_user uid (with_addresses (addresses u ++ [address])) st).
      { unfold add_user_address. now rewrite Hu, E. }
      rewrite !Hst.
      exists (with_addresses (addresses u ++ [address]) u).
      assert (Hget : get_user (update_user uid
                        (with_addresses (addresses u ++ [address])) st) uid
                     = Some (with_addresses (addresses u ++ [address]) u)).
      { rewrite (get_user_update_user uid _ st) by reflexivity. now rewrite Hu. }
      split; [exact Hget|].
      split; [simpl; apply elem_of_app; right; now apply list_elem_of_singleton|].
      split; [intros Hin; contradiction|]. split; [reflexivity|].
      split.
      { intros Hnd. simpl. apply NoDup_app. split; [exact Hnd|].
        split; [|apply NoDup_singleton].
        intros x Hx Hx'. apply list_elem_of_singleton in Hx'. now subst x. }
      repeat split.
      unfold add_user_address. rewrite Hget.
      assert (Hin : address ∈ addresses (with_addresses (addresses u ++ [address]) u))
        by (simpl; apply elem_of_app; right; now apply list_elem_of_singleton).
      apply existsb_eqb_elem in Hin. now rewrite Hin.
Qed.

(** The first customer saves a second address, twice. *)
Lemma add_user_address_witness :
  exists u',
    get_user (add_user_address 42 "Mira 3" (add_user_address 42 "Mira 3" Sample.shop)) 42
    = Some u'
    /\ addresses u' = ["Lenina 10"; "Mira 3"]%string.
Proof.
  destruct (add_user_address_spec 42 "Mira 3" Sample.shop) as [_ H].
  destruct (H Sample.customer eq_refl)
    as (u' & Hget & _ & _ & Happ & _ & _ & _ & _ & _ & _ & Hidem).
  exists u'. rewrite Hidem. split; [exact Hget|].
  apply Happ. simpl. intros Hin. apply list_elem_of_singleton in Hin. discriminate.
Defined.

(** ** Orders and the other users *)

Lemma get_user_update_user_other (uid uid' : Z) (f : User -> User) (st : Store) :
  (forall u, telegram_id (f u) = telegram_id u) ->
  uid' <> uid ->
  get_user (update_user uid f st) uid' = get_user st uid'.
Proof.
  intros Hkey Hne. unfold get_user, update_user. cbn [users set_users].
  apply first_update_first_other.
  - intros u. now rewrite Hkey.
  - intros u Hu. apply Z.eqb_eq in Hu. apply Z.eqb_neq. lia.
Qed.

Lemma update_user_ids (uid : Z) (f : User -> User) (st : Store) :
  (forall u, telegram_id (f u) = telegram_id u) ->
  map telegram_id (users (update_user uid f st)) = map telegram_id (users st).
Proof.
  intros Hkey. unfold update_user. cbn [users set_users].
  induction (users st) as [|u r IH]; simpl; [reflexivity|].
  destruct (telegram_id u =? uid); simpl; [now rewrite Hkey | now rewrite IH].
Qed.

(** X12. Creating an order touches no user but its owner: every other id
    finds the same user record as before, no user is added or removed, and
    the menu is left alone. *)
Theorem create_order_other_users (now : Clock.datetime) (od : OrderData)
    (st : Store) :
  let st' := fst (create_order now od st) in
  (forall uid, uid <> user_id od -> get_user st' uid = get_user st uid)
  /\ map telegram_id (users st') = map telegram_id (users st)
  /\ products st' = products st.
Proof.
  intros st'. subst st'. unfold create_order. cbn [fst].
  set (st1 := set_orders _ st).
  destruct (get_user st1 (user_id od)) as [u|] eqn:Hu.
  2:{ repeat split. }
  set (st2 := update_user (user_id od) _ st1).
  assert (H2 : forall uid, uid <> user_id od -> get_user st2 uid = get_user st uid).
  { intros uid Hne. unfold st2.
    now rewrite (get_user_update_user_other (user_id od) uid _ st1). }
  assert (I2 : map telegram_id (users st2) = map telegram_id (users st)).
  { unfold st2. now rewrite update_user_ids. }
  destruct (0 <? _).
  - unfold add_bonus_points.
    destruct (get_user st2 (user_id od)) as [u2|]; [|now repeat split].
    split; [|split].
    + intros uid Hne.
      change (get_user (update_user (user_id od)
                (with_bonus_points (default 0 (bonus_points u2)
                                    + Binary64.int_mul_001
                                        (Binary64.of_int (total od)))) st2) uid
              = get_user st uid).
      rewrite (get_user_update_user_other (user_id od) uid _ st2) by auto.
      now apply H2.
    + change (map telegram_id (users (update_user (user_id od)
                (with_bonus_points (default 0 (bonus_points u2)
                                    + Binary64.int_mul_001
                                        (Binary64.of_int (total od)))) st2))
              = map telegram_id (users st)).
      now rewrite update_user_ids.
    + reflexivity.
  - now repeat split.
Qed.

Example create_order_leaves_neighbour :
  get_user (fst (create_order Sample.noon Sample.draft Sample.shop)) 43
  = Some Sample.neighbour.
Proof. reflexivity. Qed.

(** ** Hiding a product *)

Lemma update_first_key_elem {A} (key : A -> Z) (k : Z) (f : A -> A)
    (l : list A) (a x : A) :
  NoDup (map key l) ->
  Py.first (fun y => key y =? k) l = Some a ->
  In x (Py.update_first (fun y => key y =? k) f l)
  <-> x = f a \/ (In x l /\ key x <> k).
Proof.
  induction l as [|y r IH]; simpl; [discriminate|].
  intros Hnd. apply NoDup_cons in Hnd as [Hy Hnd].
  destruct (key y =? k) eqn:E.
  - apply Z.eqb_eq in E. intros [= <-]. simpl. split.
    + intros [<-|Hx]; [now left|]. right. split; [now right|].
      intros Hk. apply Hy. apply list_elem_of_fmap. exists x.
      split; [congruence | now apply list_elem_of_In].
    + intros [->|[[->|Hx] Hk]]; [now left | congruence | now right].
  - apply Z.eqb_neq in E. intros Ha. simpl. rewrite (IH Hnd Ha). split.
    + intros [<-|[->|[Hx Hk]]]; [right; split; [now left | exact E] | now left |].
      right. split; [now right | exact Hk].
    + intros [->|[[->|Hx] Hk]]; [right; now left | now left |].
      right. right. split; assumption.
Qed.

Lemma update_first_has {A} (p : A -> bool) (f : A -> A) (l : list A) (a : A) :
  Py.first p l = Some a -> In (f a) (Py.update_first p f l).
Proof.
  induction l as [|y r IH]; simpl; [discriminate|].
  destruct (p y); [intros [= <-]; now left | intros H; right; now apply IH].
Qed.

Lemma get_products_In (st : Store) (cat : option Z) (q : Product) :
  In q (get_products st cat) ->
  In q (products st) /\ default true (p_available q) = true.
Proof.
  unfold get_products.
  destruct cat as [c|]; [destruct (negb (c =? 0))|];
    rewrite filter_In; [rewrite andb_true_iff|..]; tauto.
Qed.

(** X13. Hiding the product found under an id marks that product
    unavailable and changes nothing else: other ids find what they found,
    the full product list keeps its length, and a reorder drops every line
    of the product.  With unique product ids no category listing shows a
    product of that id any more.  The handler that adds to the cart does
    not look at the mark: it still puts the product into the cart. *)
Theorem delete_product_spec (pid : Z) (st : Store) (p : Product) :
  get_product st pid = Some p ->
  let st' := delete_product pid st in
  get_product st' pid = Some (with_available false p)
  /\ (forall pid', pid' <> pid -> get_product st' pid' = get_product st pid')
  /\ List.length (get_all_products st') = List.length (get_all_products st)
  /\ (forall item, product_id item = pid -> Spec.reprice st' item = None)
  /\ (NoDup (map p_id (products st)) ->
      forall cat q, In q (get_products st' cat) -> p_id q <> pid)
  /\ (forall ud, exists line,
        In line (default [] (ud_cart (fst (add_to_cart_callback pid st' ud))))
        /\ product_id line = pid)
  /\ users st' = users st /\ orders st' = orders st
  /\ promocodes st' = promocodes st /\ statistics st' = statistics st.
Proof.
  intros Hp st'.
  assert (Hget : get_product st' pid = Some (with_available false p)).
  { unfold st', delete_product, update_product, get_product in *.
    cbn [products set_products].
    rewrite first_update_first by reflexivity. now rewrite Hp. }
  split; [exact Hget|]. split; [|split; [|split; [|split; [|split]]]].
  - intros pid' Hne. unfold st', delete_product, update_product, get_product.
    cbn [products set_products].
    apply first_update_first_other; [reflexivity|].
    intros q Hq. apply Z.eqb_eq in Hq. apply Z.eqb_neq. lia.
  - unfold st', delete_product, update_product, get_all_products.
    cbn [products set_products]. apply update_first_length.
  - intros item Hitem. unfold Spec.reprice. now rewrite Hitem, Hget.
  - intros Hnd cat q Hq Hid.
    apply get_products_In in Hq as [Hin Hav].
    unfold st', delete_product, update_product in Hin.
    cbn [products set_products] in Hin.
    apply (update_first_key_elem p_id pid _ _ p q Hnd Hp) in Hin.
    destruct Hin as [->|[_ Hne]]; [discriminate Hav | contradiction].
  - intros ud. unfold add_to_cart_callback. rewrite Hget.
    cbn [fst set_cart ud_cart default from_option].
    destruct (Py.first (has_product pid) (default [] (ud_cart ud))) as [x|] eqn:Hx.
    + exists (add_quantity (default 1 (ud_current_quantity ud)) x). split.
      * now apply update_first_has.
      * apply first_Some_true in Hx. unfold has_product in Hx.
        apply Z.eqb_eq in Hx. exact Hx.
    + eexists. split; [apply in_or_app; right; now left | reflexivity].
  - repeat split.
Qed.

(** Philadelphia is hidden: the menu of category 1 is empty, and a reorder
    of the delivered order finds nothing to buy. *)
Lemma delete_product_witness :
  get_products (delete_product 1 Sample.shop) (Some 1) = []
  /\ Spec.reprice (delete_product 1 Sample.shop)
                  (mkItem 1 "Philadelphia" 300 2) = None.
Proof.
  destruct (delete_product_spec 1 Sample.shop Sample.philadelphia eq_refl)
    as (_ & _ & _ & Hre & _).
  split; [reflexivity|]. now apply Hre.
Defined.

(** ** Checkout *)

Lemma get_delivery_cost_checkout (total : Z) (config : Config) :
  (if total <? default 1500 (free_delivery_from config)
   then default 200 (cfg_delivery_cost config) else 0)
  = get_delivery_cost total config.
Proof.
  unfold get_delivery_cost.
  destruct (Z.ltb_spec total (default 1500 (free_delivery_from config)));
    destruct (Z.leb_spec (default 1500 (free_delivery_from config)) total);
    try reflexivity; lia.
Qed.

(** X14. Checkout refuses an empty cart and a cart below the minimum order
    amount and leaves the session as it was; otherwise it records the cart
    sum as subtotal, the fee [get_delivery_cost] gives for that sum, their
    sum as the amount due and a discount of 0, and keeps the cart.  It
    accepts exactly the carts that [validate_order] accepts or rejects for
    the hour alone: the working hours are not looked at. *)
Theorem checkout_callback_spec (config : Config) (uid : Z) (st : Store)
    (ud : Session) (now : Clock.datetime) :
  let cart := default [] (ud_cart ud) in
  let total := Spec.cart_sum cart in
  let fee := get_delivery_cost total config in
  (cart = [] -> checkout_callback config uid st ud = (ud, CartEmpty))
  /\ (cart <> [] -> total < default 0 (min_order_amount config) ->
      checkout_callback config uid st ud
      = (ud, MinimumOrder (default 0 (min_order_amount config))))
  /\ (cart <> [] -> default 0 (min_order_amount config) <= total ->
      let ud' := fst (checkout_callback config uid st ud) in
      snd (checkout_callback config uid st ud) = CheckoutShown
      /\ ud_order_subtotal ud' = Some total
      /\ ud_delivery_cost ud' = Some fee
      /\ ud_order_total ud' = Some (total + fee)
      /\ ud_discount ud' = Some 0
      /\ ud_cart ud' = ud_cart ud
      /\ ud_promo_code ud' = ud_promo_code ud
      /\ (0 <= total + fee ->
          t_total (calculate_order_totals cart fee 0) = total + fee))
  /\ (snd (checkout_callback config uid st ud) = CheckoutShown
      <-> validate_order cart config now = (true, None)
          \/ validate_order cart config now
             = (false, Some (OutsideHours (start_str config) (end_str config)))).
Proof.
  cbv zeta. remember (default [] (ud_cart ud)) as cart eqn:Ecart.
  unfold checkout_callback, validate_order. rewrite <- Ecart.
  destruct cart as [|item rest].
  - split; [reflexivity|]. split; [congruence|]. split; [congruence|].
    split; [discriminate | intros [H|H]; discriminate H].
  - cbv zeta. rewrite !sum_line_amounts, get_delivery_cost_checkout.
    set (total := Spec.cart_sum (item :: rest)).
    set (fee := get_delivery_cost total config).
    split; [discriminate|].
    destruct (Z.ltb_spec total (default 0 (min_order_amount config))) as [Hlt|Hge].
    + split; [reflexivity|]. split; [intros _ H; lia|].
      split; [discriminate | intros [H|H]; discriminate H].
    + split; [intros _ H; lia|]. split.
      * intros _ _. cbn [fst snd ud_order_subtotal ud_delivery_cost
                         ud_order_total ud_discount ud_cart ud_promo_code].
        repeat split. intros Hnn. unfold calculate_order_totals.
        rewrite sum_line_amounts. cbn [t_total]. fold total. lia.
      * split; [intros _|reflexivity].
        destruct (is_order_within_working_hours config now); [now left | now right].
Qed.

(** Two rolls at 300 under a minimum of 500 and a free-delivery threshold
    of 1500: 600 + 200 are due. *)
Lemma checkout_callback_witness :
  ud_order_total (fst (checkout_callback Sample.day_config 42 Sample.shop
                         (set_cart [Sample.rolls] empty_session)))
  = Some 800.
Proof.
  destruct (checkout_callback_spec Sample.day_config 42 Sample.shop
              (set_cart [Sample.rolls] empty_session) Sample.noon)
    as (_ & _ & H & _).
  destruct H as (_ & _ & _ & Ht & _).
  - discriminate.
  - simpl. lia.
  - exact Ht.
Defined.

(** Checkout at noon with a window of 22:00-02:00: the validation rejects
    the hour, checkout goes ahead. *)
Example checkout_outside_hours :
  validate_order [Sample.rolls] Sample.night_config Sample.noon
  = (false, Some (OutsideHours "22:00" "02:00"))
  /\ snd (checkout_callback Sample.night_config 42 Sample.shop
            (set_cart [Sample.rolls] empty_session)) = CheckoutShown.
Proof. split; reflexivity. Qed.

(** ** From checkout to the stored order *)

Lemma create_order_get_new (now : Clock.datetime) (od : OrderData) (st : Store) :
  get_order (fst (create_order now od st)) (snd (create_order now od st))
  = Some (mkOrder (snd (create_order now od st)) "new" (Clock.strftime now)
                  None od).
Proof.
  pose proof (create_order_id_fresh now od st) as Hfresh.
  unfold get_order. rewrite (create_order_orders now od st).
  set (oid := snd (create_order now od st)) in *.
  assert (Hnone : Py.first (fun o => id o =? oid) (orders st) = None).
  { apply first_None_Forall. eapply List.Forall_impl; [|exact Hfresh].
    intros o Ho. cbv beta in Ho. apply Z.eqb_neq. lia. }
  rewrite first_app_one, Hnone. cbn [id]. now rewrite Z.eqb_refl.
Qed.

Lemma checkout_shown (config : Config) (uid : Z) (st : Store) (ud : Session) :
  snd (checkout_callback config uid st ud) = CheckoutShown ->
  let total := Spec.cart_sum (default [] (ud_cart ud)) in
  let ud1 := fst (checkout_callback config uid st ud) in
  ud_cart ud1 = ud_cart ud
  /\ ud_order_subtotal ud1 = Some total
  /\ ud_delivery_cost ud1 = Some (get_delivery_cost total config)
  /\ ud_order_total ud1 = Some (total + get_delivery_cost total config)
  /\ ud_discount ud1 = Some 0.
Proof.
  cbv zeta. unfold checkout_callback.
  destruct (default [] (ud_cart ud)) as [|item rest]; [discriminate|].
  cbv zeta. rewrite !sum_line_amounts, get_delivery_cost_checkout.
  destruct (_ <? _); [discriminate|]. intros _. repeat split.
Qed.

(** X15. An order placed by checkout, an optional promo code and payment
    is stored under the id the customer is told, with the status 'new',
    the customer as owner, the lines of the cart, the cart sum as subtotal,
    the fee of [get_delivery_cost], and a total equal to subtotal plus fee
    minus discount, whether or not the code was accepted; the session ends
    with an empty cart, no discount and no code. *)
Theorem placed_order_spec (config : Config) (now2 now3 : Clock.datetime)
    (uid : Z) (b : PayButton) (st : Store) (ud : Session)
    (text : option string) :
  snd (checkout_callback config uid st ud) = CheckoutShown ->
  let cart := default [] (ud_cart ud) in
  let ud1 := fst (checkout_callback config uid st ud) in
  let ud2 := match text with
             | Some t => fst (receive_promocode now2 t st ud1)
             | None => ud1
             end in
  let r := payment_method_callback now3 b uid st ud2 in
  exists o,
    snd r = OrderCreated (id o)
    /\ get_order (fst (fst r)) (id o) = Some o
    /\ status o = "new"%string
    /\ created_at o = Clock.strftime now3
    /\ user_id (data o) = uid
    /\ items (data o) = cart
    /\ subtotal (data o) = Spec.cart_sum cart
    /\ delivery_cost (data o) = get_delivery_cost (Spec.cart_sum cart) config
    /\ total (data o)
       = subtotal (data o) + delivery_cost (data o) - discount (data o)
    /\ payment_method (data o) = payment_name b
    /\ ud_cart (snd (fst r)) = Some []
    /\ ud_discount (snd (fst r)) = Some 0
    /\ ud_promo_code (snd (fst r)) = None.
Proof.
  intros Hshown cart ud1 ud2 r.
  destruct (checkout_shown config uid st ud Hshown) as (Hc & Hs & Hd & Ht & Hz).
  fold ud1 in Hc, Hs, Hd, Ht, Hz. fold cart in Hs, Hd, Ht.
  assert (H2 : ud_cart ud2 = ud_cart ud
               /\ ud_order_subtotal ud2 = Some (Spec.cart_sum cart)
               /\ ud_delivery_cost ud2
                  = Some (get_delivery_cost (Spec.cart_sum cart) config)
               /\ default 0 (ud_order_total ud2)
                  = Spec.cart_sum cart
                    + get_delivery_cost (Spec.cart_sum cart) config
                    - default 0 (ud_discount ud2)).
  { subst ud2. destruct text as [t|].
    - unfold receive_promocode.
      destruct (check_promocode _ _ _ _) as [p|]; cbn [fst].
      + cbn [ud_cart ud_order_subtotal ud_delivery_cost ud_order_total
             ud_discount]. rewrite Hs, Hd. cbn [default from_option].
        repeat split; auto.
      + rewrite Ht, Hz.
        split; [exact Hc|]. split; [exact Hs|]. split; [exact Hd|]. simpl. lia.
    - rewrite Ht, Hz.
      split; [exact Hc|]. split; [exact Hs|]. split; [exact Hd|]. simpl. lia. }
  destruct H2 as (Hc2 & Hs2 & Hd2 & Ht2).
  subst r. unfold payment_method_callback.
  set (od := mkOrderData uid _ _ _ _ _ _ _ _ _ _).
  pose proof (create_order_get_new now3 od st) as Hnew.
  destruct (create_order now3 od st) as [st1 oid] eqn:Hco. cbn [fst snd] in *.
  exists (mkOrder oid "new" (Clock.strftime now3) None od).
  split; [reflexivity|]. split.
  { destruct (ud_promo_code ud2) as [c|]; [|exact Hnew].
    destruct (Py.truthy c); exact Hnew. }
  subst od. cbn [id status created_at data user_id items subtotal delivery_cost
                 total discount payment_method ud_cart ud_discount ud_promo_code].
  rewrite Hc2, Hs2, Hd2, Ht2. cbn [default from_option].
  repeat split.
Qed.

(** The first customer checks out two rolls, enters the sample code and
    pays in cash: the order is found under the id told. *)
Lemma placed_order_witness :
  exists o,
    get_order
      (fst (fst (payment_method_callback Sample.noon PayCash 42 Sample.shop
                   (fst (receive_promocode Sample.noon "sale10" Sample.shop
                           (fst (checkout_callback Sample.day_config 42 Sample.shop
                                   (set_cart [Sample.rolls] empty_session))))))))
      (id o) = Some o
    /\ total (data o) = subtotal (data o) + delivery_cost (data o) - discount (data o).
Proof.
  destruct (placed_order_spec Sample.day_config Sample.noon Sample.noon 42 PayCash
              Sample.shop (set_cart [Sample.rolls] empty_session)
              (Some "sale10"%string) eq_refl)
    as (o & _ & Hget & _ & _ & _ & _ & _ & _ & Htot & _).
  exists o. split; [exact Hget | exact Htot].
Defined.

(** ** Fixed-amount promo codes *)

Lemma nonzero_false (x : option Z) :
  nonzero x = false <-> x = None \/ x = Some 0.
Proof.
  unfold nonzero. destruct x as [v|]; [|tauto].
  destruct (Z.eqb_spec v 0); simpl; split; intros H; try tauto.
  - subst. now right.
  - discriminate.
  - destruct H as [H|H]; [discriminate | congruence].
Qed.

(** X16. A promo code without a percentage takes off its fixed amount, but
    never more than the order amount: for a non-negative order amount and a
    non-negative fixed amount the discount lies between 0 and the order
    amount, and it is 0 when no fixed amount is set.  Entering such a code
    at checkout therefore never brings the amount due below the delivery
    fee. *)
Theorem fixed_discount_bounds (promo : Promo) (order_total : Z) :
  nonzero (discount_percent promo) = false ->
  0 <= order_total ->
  0 <= default 0 (discount_fixed promo) ->
  calculate_discount promo order_total
  = Z.min (default 0 (discount_fixed promo)) order_total
  /\ 0 <= calculate_discount promo order_total <= order_total
  /\ (forall now text st ud,
        check_promocode now st (Py.upper (Py.strip text))
                        (default 0 (ud_order_subtotal ud)) = Some promo ->
        default 0 (ud_order_subtotal ud) = order_total ->
        let ud' := fst (receive_promocode now text st ud) in
        ud_discount ud' = Some (calculate_discount promo order_total)
        /\ ud_promo_code ud' = Some (Py.upper (Py.strip text))
        /\ default 0 (ud_delivery_cost ud) <= default 0 (ud_order_total ud')).
Proof.
  intros Hpct Hnn Hfix.
  assert (Hcalc : calculate_discount promo order_total
                  = Z.min (default 0 (discount_fixed promo)) order_total).
  { unfold calculate_discount. rewrite Hpct.
    destruct (nonzero (discount_fixed promo)) eqn:E; [reflexivity|].
    apply nonzero_false in E as [-> | ->]; simpl; lia. }
  split; [exact Hcalc|]. split; [rewrite Hcalc; lia|].
  intros now text st ud Hcheck Hsub. unfold receive_promocode.
  rewrite Hcheck, Hsub. cbn [fst ud_discount ud_promo_code ud_order_total].
  repeat split. simpl. rewrite Hcalc. lia.
Qed.

Lemma fixed_discount_bounds_witness :
  calculate_discount
    (mkPromo "MINUS1000" true None (Clock.Date 2024 12 31) None None None
             (Some 1000)) 500 = 500.
Proof.
  apply (fixed_discount_bounds
           (mkPromo "MINUS1000" true None (Clock.Date 2024 12 31) None None None
                    (Some 1000)) 500).
  - reflexivity.
  - lia.
  - simpl. lia.
Defined.

(** ** Plus and minus in the cart *)

Lemma modify_quantity_absent (minus : bool) (pid : Z) (cart : list Item) :
  Py.first (has_product pid) cart = None ->
  modify_quantity minus pid cart = cart.
Proof.
  induction cart as [|item rest IH]; simpl; [reflexivity|].
  destruct (has_product pid item); [discriminate|].
  intros H. now rewrite IH.
Qed.

(** X17. In a cart whose quantities are at least 1, plus followed by minus
    on the same product gives the cart back; minus followed by plus gives
    it back when the line held at least 2, and when it held 1 minus takes
    the line out, leaving the cart one line shorter.  Either button on a
    product that is not in the cart changes nothing. *)
Theorem cart_plus_minus (pid : Z) (cart : list Item) :
  Spec.quantities_at_least 1 cart ->
  modify_quantity true pid (modify_quantity false pid cart) = cart
  /\ (forall line, Py.first (has_product pid) cart = Some line ->
      (2 <= quantity line ->
       modify_quantity false pid (modify_quantity true pid cart) = cart)
      /\ (quantity line = 1 ->
          S (List.length (modify_quantity true pid cart)) = List.length cart))
  /\ (Py.first (has_product pid) cart = None ->
      modify_quantity true pid cart = cart
      /\ modify_quantity false pid cart = cart).
Proof.
  intros Hq. split; [|split].
  - induction Hq as [|item rest Hitem Hrest IH]; simpl; [reflexivity|].
    destruct (has_product pid item) eqn:E; simpl.
    + unfold has_product in *. cbn [add_quantity product_id]. rewrite E.
      cbn [quantity add_quantity].
      destruct (Z.leb_spec (quantity item + 1 + -1) 0); [lia|].
      destruct item as [i n pr q]. unfold add_quantity. simpl. f_equal. f_equal. lia.
    + rewrite E. now rewrite IH.
  - intros line Hline. split.
    + intros H2. revert Hline.
      induction Hq as [|item rest Hitem Hrest IH]; simpl; [discriminate|].
      destruct (has_product pid item) eqn:E.
      * intros [= ->]. cbn [quantity add_quantity].
        destruct (Z.leb_spec (quantity line + -1) 0); [lia|].
        simpl. unfold has_product in *. cbn [add_quantity product_id]. rewrite E.
        destruct line as [i n pr q]. unfold add_quantity. simpl. f_equal. f_equal. lia.
      * intros Hl. simpl. rewrite E. now rewrite IH.
    + intros H1. revert Hline. clear Hq.
      induction cart as [|item rest IH]; simpl; [discriminate|].
      destruct (has_product pid item) eqn:E.
      * intros [= ->]. cbn [quantity add_quantity].
        destruct (Z.leb_spec (quantity line + -1) 0); [reflexivity | lia].
      * intros Hl. simpl. now rewrite IH.
  - intros Hnone. split; now apply modify_quantity_absent.
Qed.

Lemma cart_plus_minus_witness :
  modify_quantity true 1 (modify_quantity false 1 [Sample.rolls]) = [Sample.rolls].
Proof.
  apply (cart_plus_minus 1 [Sample.rolls]).
  repeat constructor. simpl. lia.
Defined.

(** ** The carts of all customers *)

Lemma update_first_map_key {A B} (p : A -> bool) (f : A -> A) (key : A -> B)
    (l : list A) :
  (forall x, key (f x) = key x) ->
  map key (Py.update_first p f l) = map key l.
Proof.
  intros Hkey. induction l as [|y r IH]; simpl; [reflexivity|].
  destruct (p y); simpl; [now rewrite Hkey | now rewrite IH].
Qed.

Lemma modify_quantity_ids (minus : bool) (pid : Z) (cart : list Item) :
  map product_id (modify_quantity minus pid cart) `sublist_of` map product_id cart.
Proof.
  induction cart as [|item rest IH]; simpl; [reflexivity|].
  destruct (has_product pid item).
  - destruct minus.
    + destruct (_ <=? 0); simpl; [now apply sublist_cons | reflexivity].
    + reflexivity.
  - simpl. now apply sublist_skip.
Qed.

Lemma reprice_ids (st : Store) (lines : list Item) :
  map product_id (omap (Spec.reprice st) lines) `sublist_of` map product_id lines.
Proof.
  induction lines as [|item rest IH]; simpl; [reflexivity|].
  destruct (Spec.reprice st item) as [line|] eqn:E; simpl.
  - apply reprice_Some in E as (product & _ & _ & ->). simpl.
    now apply sublist_skip.
  - now apply sublist_cons.
Qed.

Lemma reprice_quantities (st : Store) (lines : list Item) :
  Spec.quantities_at_least 1 lines ->
  Spec.quantities_at_least 1 (omap (Spec.reprice st) lines).
Proof.
  induction 1 as [|item rest Hitem Hrest IH]; simpl; [constructor|].
  destruct (Spec.reprice st item) as [line|] eqn:E; [|exact IH].
  apply reprice_Some in E as (product & _ & _ & ->).
  constructor; [exact Hitem | exact IH].
Qed.

Lemma cart_of_set_cart (cart : list Item) (ud : Session) :
  default [] (ud_cart (set_cart cart ud)) = cart.
Proof. reflexivity. Qed.

Lemma add_to_cart_ok (pid : Z) (st : Store) (ud : Session) :
  Spec.session_ok ud -> Spec.session_ok (fst (add_to_cart_callback pid st ud)).
Proof.
  intros [[Hnd Hq] Hpick]. split; [split|].
  - unfold add_to_cart_callback.
    destruct (get_product st pid) as [product|]; [|exact Hnd].
    cbn [fst]. rewrite cart_of_set_cart.
    destruct (Py.first (has_product pid) (default [] (ud_cart ud))) eqn:E.
    + rewrite (update_first_map_key (has_product pid)
                 (add_quantity (default 1 (ud_current_quantity ud))) product_id)
        by reflexivity.
      exact Hnd.
    + rewrite map_app. apply NoDup_app. split; [exact Hnd|].
      split; [|apply NoDup_singleton].
      intros x Hx Hx'. apply list_elem_of_singleton in Hx'. cbn in Hx'. subst x.
      apply list_elem_of_fmap in Hx as (item & Hid & Hin).
      apply first_None_Forall in E. rewrite Forall_forall in E.
      specialize (E item Hin). unfold has_product in E.
      apply Z.eqb_neq in E. congruence.
  - apply add_to_cart_at_least; [lia | exact Hq].
  - unfold add_to_cart_callback.
    destruct (get_product st pid); exact Hpick.
Qed.

Lemma cart_modify_ok (b : CartButton) (ud : Session) :
  Spec.session_ok ud -> Spec.session_ok (fst (cart_modify_callback b ud)).
Proof.
  intros [[Hnd Hq] Hpick]. split; [split|].
  - unfold cart_modify_callback. cbn [fst]. rewrite cart_of_set_cart.
    destruct b.
    + eapply sublist_NoDup; [exact Hnd | apply modify_quantity_ids].
    + eapply sublist_NoDup; [exact Hnd | apply modify_quantity_ids].
    + eapply sublist_NoDup; [exact Hnd|].
      apply fmap_sublist, sublist_filter.
  - now apply cart_modify_at_least.
  - exact Hpick.
Qed.

Lemma checkout_keeps_cart (config : Config) (uid : Z) (st : Store)
    (ud : Session) :
  ud_cart (fst (checkout_callback config uid st ud)) = ud_cart ud
  /\ ud_current_quantity (fst (checkout_callback config uid st ud))
     = ud_current_quantity ud.
Proof.
  unfold checkout_callback.
  destruct (default [] (ud_cart ud)); [now split|].
  cbv zeta. destruct (_ <? _); now split.
Qed.

Lemma session_of_ok (bot : Bot) (uid : Z) :
  Spec.bot_ok bot -> Spec.session_ok (session_of bot uid).
Proof.
  intros [Hs _]. unfold session_of.
  destruct (sessions bot !! uid) as [ud|] eqn:E; [exact (Hs uid ud E)|].
  split; [split; [apply NoDup_nil_2 | constructor] | simpl; lia].
Qed.

Lemma get_order_In (st : Store) (oid : Z) (o : Order) :
  get_order st oid = Some o -> In o (orders st).
Proof.
  unfold get_order. induction (orders st) as [|y r IH]; simpl; [discriminate|].
  destruct (id y =? oid); [intros [= <-]; now left | intros H; right; now apply IH].
Qed.

(** X18. Whatever the customers do, carts stay in order: if every session
    has a cart with one line per product and quantities of 1 or more, and a
    chosen quantity between 1 and 99, and the lines of every stored order
    are of that kind too, then the same holds after any series of updates
    of any customers. *)
Theorem carts_stay_in_order (config : Config) (bot : Bot)
    (updates : list Update) :
  Spec.bot_ok bot -> Spec.bot_ok (run config bot updates).
Proof.
  unfold run. revert bot.
  induction updates as [|u updates IH]; intros bot Hok; [exact Hok|].
  cbn [fold_left]. apply IH. clear IH.
  pose proof (session_of_ok bot (upd_user u) Hok) as Hud.
  destruct Hok as [Hsess Hord].
  set (ud := session_of bot (upd_user u)) in *.
  set (st := store bot) in *.
  assert (Hput : forall st' ud',
             Spec.session_ok ud' ->
             Forall (fun o => Spec.cart_ok (items (data o))) (orders st') ->
             Spec.bot_ok (mkBot st' (<[upd_user u := ud']> (sessions bot)))).
  { intros st' ud' Hud' Hord'. split; [|exact Hord'].
    intros uid x. cbn [sessions].
    destruct (decide (upd_user u = uid)) as [<-|Hne].
    - rewrite lookup_insert_eq. now intros [= <-].
    - rewrite lookup_insert_ne by exact Hne. apply Hsess. }
  unfold handle. fold ud. fold st.
  destruct Hud as [Hcart Hpick].
  destruct (upd_action u) as [pid|b|pid|b| | |text| |b|oid|oid].
  - apply Hput; [|exact Hord]. unfold product_callback.
    destruct (get_product st pid); [|now split].
    split; [exact Hcart | simpl; lia].
  - apply Hput; [|exact Hord]. split; [exact Hcart|].
    now apply quantity_callback_range.
  - apply Hput; [|exact Hord]. apply add_to_cart_ok. now split.
  - apply Hput; [|exact Hord]. apply cart_modify_ok. now split.
  - apply Hput; [|exact Hord]. split; [split; constructor | exact Hpick].
  - apply Hput; [|exact Hord].
    destruct (checkout_keeps_cart config (upd_user u) st ud) as [Ec Eq].
    unfold Spec.session_ok. rewrite Ec, Eq. now split.
  - apply Hput; [|exact Hord]. unfold receive_promocode.
    destruct (check_promocode _ _ _ _); cbn [fst]; now split.
  - apply Hput; [now split | exact Hord].
  - unfold payment_method_callback.
    set (od := mkOrderData _ _ _ _ _ _ _ _ _ _ _).
    pose proof (create_order_orders (upd_now u) od st) as Horders.
    destruct (create_order (upd_now u) od st) as [st1 order_id].
    cbn [fst snd] in *. apply Hput.
    + split; [split; constructor | exact Hpick].
    + assert (H1 : Forall (fun o => Spec.cart_ok (items (data o))) (orders st1)).
      { rewrite Horders. apply Forall_app. split; [exact Hord|].
        constructor; [exact Hcart | constructor]. }
      destruct (ud_promo_code ud) as [c|]; [|exact H1].
      destruct (Py.truthy c); exact H1.
  - apply Hput; [|exact Hord]. unfold reorder_callback.
    destruct (get_order st oid) as [order|] eqn:Ho; [|now split].
    rewrite reorder_fold. cbn [app].
    assert (Hitems : Spec.cart_ok (items (data order))).
    { rewrite List.Forall_forall in Hord. apply Hord. now apply (get_order_In st oid). }
    assert (Hnew : Spec.session_ok
                     (set_cart (omap (Spec.reprice st) (items (data order))) ud)).
    { split; [|exact Hpick]. cbn [set_cart ud_cart default from_option].
      destruct Hitems as [Hnd Hq]. split.
      - eapply sublist_NoDup; [exact Hnd | apply reprice_ids].
      - now apply reprice_quantities. }
    now destruct (omap _ _).
  - apply Hput; [now split|].
    unfold cancel_order_callback.
    destruct (get_order st oid); [|exact Hord].
    destruct (not_cancellable _); [exact Hord|].
    cbn [fst]. unfold update_order_status. cbn [orders set_orders].
    apply update_first_Forall; [|exact Hord]. intros x Hx. exact Hx.
Qed.

(** The opening state is in order, so every run from it is. *)
Lemma carts_stay_in_order_witness :
  Spec.bot_ok (run Sample.day_config Sample.opening Sample.two_redemptions).
Proof.
  apply carts_stay_in_order. split.
  - intros uid ud H. unfold Sample.opening in H. cbn [sessions] in H.
    rewrite lookup_empty in H. discriminate.
  - repeat constructor; simpl; try lia.
    + intros H. apply list_elem_of_singleton in H. discriminate H.
    + intros H. inversion H.
    + intros H. inversion H.
Defined.

(** ** Statistics and stored orders *)

Lemma create_order_statistics_eq (now : Clock.datetime) (od : OrderData)
    (st : Store) :
  from_option s_total_orders 0 (statistics (fst (create_order now od st)))
  = from_option s_total_orders 0 (statistics st) + 1
  /\ from_option s_total_revenue 0 (statistics (fst (create_order now od st)))
     = from_option s_total_revenue 0 (statistics st) + total od.
Proof.
  unfold create_order. cbn [fst].
  destruct (get_user _ (user_id od)); [|now split].
  destruct (0 <? _); [|now split].
  unfold add_bonus_points.
  destruct (get_user _ (user_id od)); now split.
Qed.

Lemma foldr_add_app (xs ys : list Z) :
  foldr Z.add 0 (xs ++ ys) = foldr Z.add 0 xs + foldr Z.add 0 ys.
Proof. induction xs as [|x r IH]; simpl; lia. Qed.

Lemma statistics_match_create_order (now : Clock.datetime) (od : OrderData)
    (st : Store) :
  Spec.statistics_match st ->
  Spec.statistics_match (fst (create_order now od st)).
Proof.
  intros [Hn Hr]. unfold Spec.statistics_match.
  destruct (create_order_statistics_eq now od st) as [En Er].
  rewrite En, Er, create_order_orders, length_app, map_app, foldr_add_app.
  simpl. lia.
Qed.

(** X19. The statistics keep step with the stored orders under everything
    customers can do: if the order count of the statistics is the number of
    stored orders and the revenue is the sum of their totals, this is still
    so after any series of updates.  Cancelled orders stay counted, with
    their totals. *)
Theorem statistics_keep_step (config : Config) (bot : Bot)
    (updates : list Update) :
  Spec.statistics_match (store bot) ->
  Spec.statistics_match (store (run config bot updates)).
Proof.
  unfold run. revert bot.
  induction updates as [|u updates IH]; intros bot Hm; [exact Hm|].
  cbn [fold_left]. apply IH. clear IH.
  unfold handle.
  set (ud := session_of bot (upd_user u)). set (st := store bot) in *.
  destruct (upd_action u) as [pid|b|pid|b| | |text| |b|oid|oid];
    try exact Hm.
  - unfold payment_method_callback.
    set (od := mkOrderData _ _ _ _ _ _ _ _ _ _ _).
    pose proof (statistics_match_create_order (upd_now u) od st Hm) as H1.
    destruct (create_order (upd_now u) od st) as [st1 order_id].
    cbn [fst store] in *.
    destruct (ud_promo_code ud) as [c|]; [|exact H1].
    destruct (Py.truthy c); exact H1.
  - cbn [store fst]. unfold cancel_order_callback.
    destruct (get_order st oid); [|exact Hm].
    destruct (not_cancellable _); [exact Hm|].
    cbn [fst]. destruct Hm as [Hn Hr]. unfold Spec.statistics_match.
    unfold update_order_status. cbn [orders statistics set_orders].
    rewrite update_first_length.
    rewrite (update_first_map_key _ _ (fun o => total (data o)))
      by reflexivity.
    now split.
Qed.

(** A shop that starts with no orders and empty statistics. *)
Lemma statistics_keep_step_witness :
  Spec.statistics_match
    (store (run Sample.day_config
              (mkBot (mkStore [Sample.philadelphia] [Sample.customer] []
                              [Sample.sale] None) ∅)
              (Sample.shop_and_validate 42
               ++ [Sample.press 42 (PressPay PayCash);
                   Sample.press 42 (PressCancel 1)]))).
Proof.
  apply statistics_keep_step. split; reflexivity.
Defined.

(** ** The bonus on doubles *)

(** X20. For totals below 2^46 in absolute value, the bonus computed on
    binary64 numbers, [int(total * 0.01)], is the exact quotient of the
    total by 100 cut towards zero; for totals that are not negative this is
    the floor of a hundredth of the total.  The rounding of the product
    never reaches the integer part. *)
Theorem bonus_on_doubles (total : Z) :
  Z.abs total < 2 ^ 46 ->
  Binary64.int_mul_001 total = Z.quot total 100
  /\ (0 <= total -> Binary64.int_mul_001 total = total / 100).
Proof.
  intros Hb. pose proof (int_mul_001_exact total Hb) as H.
  split; [exact H|].
  intros Hnn. rewrite H. apply Z.quot_div_nonneg; lia.
Qed.

Lemma bonus_on_doubles_witness :
  Binary64.int_mul_001 2999 = 29 /\ Binary64.int_mul_001 (-150) = -1.
Proof.
  split.
  - rewrite (proj2 (bonus_on_doubles 2999 ltac:(simpl; lia))) by lia.
    reflexivity.
  - rewrite (proj1 (bonus_on_doubles (-150) ltac:(simpl; lia))). reflexivity.
Defined.

(** ** The forward flow of statuses *)

Lemma get_next_status_cases (s : string) :
  (s = "new"%string /\ get_next_status s = "accepted"%string)
  \/ (s = "accepted"%string /\ get_next_status s = "preparing"%string)
  \/ (s = "preparing"%string /\ get_next_status s = "on_the_way"%string)
  \/ (s = "on_the_way"%string /\ get_next_status s = "delivered"%string)
  \/ (s <> "new"%string /\ s <> "accepted"%string /\ s <> "preparing"%string
      /\ s <> "on_the_way"%string /\ get_next_status s = s).
Proof.
  destruct (String.eqb_spec s "new") as [->|H1]; [left; now split|].
  destruct (String.eqb_spec s "accepted") as [->|H2]; [right; left; now split|].
  destruct (String.eqb_spec s "preparing") as [->|H3];
    [right; right; left; now split|].
  destruct (String.eqb_spec s "on_the_way") as [->|H4];
    [right; right; right; left; now split|].
  right; right; right; right. repeat (split; [assumption|]).
  destruct (String.eqb_spec s "delivered") as [->|H5]; [reflexivity|].
  unfold get_next_status, ORDER_STATUSES. cbn [existsb].
  apply String.eqb_neq in H1, H2, H3, H4, H5.
  now rewrite H1, H2, H3, H4, H5.
Qed.

(** X21. [get_next_status] moves along new, accepted, preparing,
    on_the_way, delivered and stops there: exactly the first four statuses
    are moved, every other text, 'cancelled' and unknown statuses
    included, is returned as it is; from any status of the flow four steps
    end at 'delivered'; and no step leads to 'cancelled' or back to
    'new'. *)
Theorem get_next_status_flow (s : string) :
  (get_next_status s = s
   <-> s <> "new"%string /\ s <> "accepted"%string /\ s <> "preparing"%string
       /\ s <> "on_the_way"%string)
  /\ (In s ORDER_STATUSES ->
      get_next_status (get_next_status (get_next_status (get_next_status s)))
      = "delivered"%string)
  /\ (get_next_status s = "cancelled"%string -> s = "cancelled"%string)
  /\ get_next_status s <> "new"%string.
Proof.
  pose proof (get_next_status_cases s) as H.
  split; [|split; [|split]].
  - split.
    + intros E.
      destruct H as [[-> H]|[[-> H]|[[-> H]|[[-> H]|H]]]];
        try (rewrite E in H; discriminate H). tauto.
    + intros (H1 & H2 & H3 & H4).
      destruct H as [[-> _]|[[-> _]|[[-> _]|[[-> _]|H]]]]; try congruence. tauto.
  - intros Hin. simpl in Hin.
    destruct Hin as [<-|[<-|[<-|[<-|[<-|[]]]]]]; reflexivity.
  - intros E.
    destruct H as [[-> H]|[[-> H]|[[-> H]|[[-> H]|H]]]];
      try (rewrite E in H; discriminate H).
    destruct H as (_ & _ & _ & _ & H). congruence.
  - intros E.
    destruct H as [[-> H]|[[-> H]|[[-> H]|[[-> H]|H]]]];
      try (rewrite E in H; discriminate H).
    destruct H as (H1 & _ & _ & _ & H). congruence.
Qed.

Lemma get_next_status_flow_witness :
  get_next_status (get_next_status (get_next_status (get_next_status "accepted")))
  = "delivered"%string.
Proof.
  apply (get_next_status_flow "accepted"). simpl. tauto.
Defined.

(** ** Order ids through the buttons

    The keyboards print an order id into the data of a button and the
    handlers read it back. *)

Lemma string_of_uint_digits (d : Decimal.uint) :
  Spec.all_chars Py.is_digit (DecimalString.NilEmpty.string_of_uint d) = true.
Proof. induction d; simpl; try reflexivity; exact IHd. Qed.

Lemma string_of_uint_nonempty (d : Decimal.uint) :
  d <> Decimal.Nil -> DecimalString.NilEmpty.string_of_uint d <> EmptyString.
Proof. destruct d; simpl; congruence. Qed.

Lemma digit_not_space c : Py.is_digit c = true -> Py.is_space c = false.
Proof.
  unfold Py.is_digit, Py.is_space. cbv zeta. intros H.
  apply andb_true_iff in H as [H1 H2].
  apply Nat.leb_le in H1, H2.
  apply orb_false_iff. split; apply andb_false_iff.
  - right. apply Nat.leb_gt. lia.
  - right. apply Nat.leb_gt. lia.
Qed.

Lemma rstrip_digits s :
  Spec.all_chars Py.is_digit s = true -> Py.rstrip s = s.
Proof.
  induction s as [|c r IH]; simpl; [reflexivity|].
  intros H. apply andb_true_iff in H as [Hc Hr].
  rewrite (IH Hr). destruct r; [|reflexivity].
  now rewrite (digit_not_space c Hc).
Qed.

Lemma strip_digits s :
  Spec.all_chars Py.is_digit s = true -> Py.strip s = s.
Proof.
  intros H. unfold Py.strip.
  assert (Py.lstrip s = s) as ->.
  { destruct s as [|c r]; [reflexivity|]. simpl in *.
    apply andb_true_iff in H as [Hc _]. now rewrite (digit_not_space c Hc). }
  now apply rstrip_digits.
Qed.

Lemma digits_of_digits s b :
  Spec.all_chars Py.is_digit s = true -> s <> EmptyString \/ b = true ->
  Py.digits_of b s = Some s.
Proof.
  revert b. induction s as [|c r IH]; simpl; intros b H Hb.
  - destruct Hb as [Hb| ->]; [congruence | reflexivity].
  - apply andb_true_iff in H as [Hc Hr]. rewrite Hc.
    rewrite (IH true Hr); [reflexivity | now right].
Qed.

Lemma is_digit_head_not_sign c :
  Py.is_digit c = true -> c <> "-"%char /\ c <> "+"%char /\ c <> "_"%char.
Proof.
  intros H. repeat split; intros ->; discriminate H.
Qed.

Lemma int_of_digits (s : string) (d : Decimal.uint) :
  Spec.all_chars Py.is_digit s = true -> s <> EmptyString ->
  (String.length s <= Py.max_str_digits)%nat ->
  DecimalString.NilEmpty.uint_of_string s = Some d ->
  Py.int s = Some (Z.of_uint d) /\ Py.int (String "-" s) = Some (- Z.of_uint d).
Proof.
  intros Hd Hne Hlen Hu.
  assert (Hbody : Py.digits_of false s = Some s)
    by (apply digits_of_digits; [exact Hd | now left]).
  apply Nat.leb_le in Hlen.
  split.
  - unfold Py.int. rewrite (strip_digits s Hd).
    destruct s as [|c r]; [congruence|].
    simpl in Hd. apply andb_true_iff in Hd as [Hc _].
    destruct (is_digit_head_not_sign c Hc) as (Hm & Hp & _).
    assert (E : match String c r with
                | String "-" r0 => (true, r0)
                | String "+" r0 => (false, r0)
                | _ => (false, String c r)
                end = (false, String c r)).
    { destruct (Ascii.eqb_spec c "-") as [->|_]; [congruence|].
      destruct (Ascii.eqb_spec c "+") as [->|_]; [congruence|].
      destruct c as [[] [] [] [] [] [] [] []]; try reflexivity; congruence. }
    rewrite E. rewrite Hbody, Hlen, Hu. reflexivity.
  - unfold Py.int.
    assert (Py.strip (String "-" s) = String "-" s) as ->.
    { unfold Py.strip. change (Py.lstrip (String "-" s)) with (String "-" s).
      change (Py.rstrip (String "-" s))
        with (match Py.rstrip s with
              | EmptyString => String "-" EmptyString
              | r' => String "-" r'
              end).
      rewrite (rstrip_digits s Hd). destruct s; [congruence | reflexivity]. }
    rewrite Hbody, Hlen, Hu. reflexivity.
Qed.

(** Printing an integer and reading the text back gives the integer. *)
Lemma int_str (z : Z) (s : string) : Py.str z = Some s -> Py.int s = Some z.
Proof.
  unfold Py.str. destruct z as [|p|p]; cbn [Z.to_int].
  - cbn. intros [= <-]. reflexivity.
  - pose proof (DecimalPos.Unsigned.to_uint_nonnil p) as Hn.
    assert (E : DecimalString.NilZero.string_of_uint (Pos.to_uint p)
                = DecimalString.NilEmpty.string_of_uint (Pos.to_uint p))
      by (destruct (Pos.to_uint p); [congruence | reflexivity..]).
    rewrite E.
    destruct (String.length _ <=? Py.max_str_digits)%nat eqn:L; [|discriminate].
    intros [= <-].
    rewrite (proj1 (int_of_digits _ (Pos.to_uint p)
                      (string_of_uint_digits _)
                      (string_of_uint_nonempty _ Hn)
                      (proj1 (Nat.leb_le _ _) L)
                      (DecimalString.NilEmpty.usu _))).
    f_equal. exact (DecimalZ.of_to (Z.pos p)).
  - pose proof (DecimalPos.Unsigned.to_uint_nonnil p) as Hn.
    assert (E : DecimalString.NilZero.string_of_uint (Pos.to_uint p)
                = DecimalString.NilEmpty.string_of_uint (Pos.to_uint p))
      by (destruct (Pos.to_uint p); [congruence | reflexivity..]).
    rewrite E.
    destruct (String.length _ <=? Py.max_str_digits)%nat eqn:L; [|discriminate].
    intros [= <-].
    rewrite (proj2 (int_of_digits _ (Pos.to_uint p)
                      (string_of_uint_digits _)
                      (string_of_uint_nonempty _ Hn)
                      (proj1 (Nat.leb_le _ _) L)
                      (DecimalString.NilEmpty.usu _))).
    f_equal. exact (DecimalZ.of_to (Z.neg p)).
Qed.

Lemma str_numeric (z : Z) (s : string) :
  Py.str z = Some s -> Spec.all_chars Spec.numeric_char s = true.
Proof.
  assert (Hd : forall d, Spec.all_chars Spec.numeric_char
                           (DecimalString.NilZero.string_of_uint d) = true).
  { intros d.
    assert (H : forall w, Spec.all_chars Py.is_digit w = true ->
                          Spec.all_chars Spec.numeric_char w = true).
    { induction w as [|c r IH]; simpl; [reflexivity|].
      intros H. apply andb_true_iff in H as [Hc Hr].
      rewrite (IH Hr). unfold Spec.numeric_char. now rewrite Hc. }
    destruct d; try (apply H; apply string_of_uint_digits). reflexivity. }
  unfold Py.str. destruct (Z.to_int z) as [d|d].
  - destruct (String.length _ <=? _)%nat; [|discriminate]. intros [= <-]. apply Hd.
  - destruct (String.length _ <=? _)%nat; [|discriminate]. intros [= <-].
    simpl. apply Hd.
Qed.

Lemma split_numeric (s : string) :
  Spec.all_chars Spec.numeric_char s = true -> Py.split "_" s = [s].
Proof.
  induction s as [|c r IH]; simpl; [reflexivity|].
  intros H. apply andb_true_iff in H as [Hc Hr]. rewrite (IH Hr).
  destruct (Ascii.eqb_spec c "_") as [->|_]; [discriminate Hc | reflexivity].
Qed.

Lemma split_nonempty (s : string) : Py.split "_" s <> [].
Proof.
  destruct s as [|c r]; simpl; [discriminate|].
  destruct (Ascii.eqb c "_"); [discriminate|].
  destruct (Py.split "_" r); discriminate.
Qed.

(** Splitting a text that has a separator at a known place: the pieces of
    the part before it, then the pieces of the part after it. *)
Lemma split_app (a b : string) :
  Py.split "_" (a ++ String "_" b) = Py.split "_" a ++ Py.split "_" b.
Proof.
  induction a as [|c r IH]; simpl; [reflexivity|].
  rewrite IH. destruct (Ascii.eqb c "_"); [reflexivity|].
  destruct (Py.split "_" r) as [|w ws] eqn:E; [now apply split_nonempty in E|].
  reflexivity.
Qed.

Lemma last_app_nonempty {A} (l1 l2 : list A) (d : A) :
  l2 <> [] -> List.last (l1 ++ l2) d = List.last l2 d.
Proof.
  intros Hne. induction l1 as [|x r IH]; [reflexivity|].
  simpl. destruct (r ++ l2) eqn:E; [|exact IH].
  apply app_eq_nil in E as [_ E]. contradiction.
Qed.

Lemma last_split_app (a b d : string) :
  List.last (Py.split "_" (a ++ String "_" b)) d = List.last (Py.split "_" b) d.
Proof.
  rewrite split_app. apply last_app_nonempty, split_nonempty.
Qed.

Lemma status_stamp_status (now : Clock.datetime) (s : string) (o : Order) :
  status (stamp_status now s o) = s.
Proof. unfold stamp_status. destruct (String.eqb s "delivered"); reflexivity. Qed.

Lemma last_int_button (prefix s : string) (z : Z) :
  Py.str z = Some s ->
  CallbackQuery.last_int (prefix ++ String "_" s) = Some z.
Proof.
  intros Hs. unfold CallbackQuery.last_int.
  rewrite last_split_app, (split_numeric s (str_numeric z s Hs)).
  exact (int_str z s Hs).
Qed.

Lemma mapM_status_button (oid : Z) (s : string)
    (entries : list (string * string)) :
  Py.str oid = Some s ->
  mapM (Keyboards.status_button oid) entries
  = Some (map (fun entry =>
                 [Keyboards.mkButton (snd entry)
                    ("set_status_" ++ s ++ "_" ++ fst entry)]) entries).
Proof.
  intros Hs. induction entries as [|e r IH]; [reflexivity|].
  assert (He : Keyboards.status_button oid e
               = Some [Keyboards.mkButton (snd e)
                         ("set_status_" ++ s ++ "_" ++ fst e)])
    by (unfold Keyboards.status_button; now rewrite Hs).
  cbn [mapM map]. rewrite IH, He. reflexivity.
Qed.

Lemma admin_keyboard_printed (oid : Z) (current : string)
    (kb : Keyboards.InlineKeyboardMarkup) :
  Keyboards.get_admin_order_status_keyboard oid current = Some kb ->
  exists s, Py.str oid = Some s.
Proof.
  destruct (Py.str oid) as [s|] eqn:E; [eauto|].
  unfold Keyboards.get_admin_order_status_keyboard, Keyboards.statuses.
  assert (Hnone : forall e r, mapM (Keyboards.status_button oid) (e :: r) = None).
  { intros e r.
    assert (He : Keyboards.status_button oid e = None)
      by (unfold Keyboards.status_button; now rewrite E).
    cbn [mapM]. rewrite He. reflexivity. }
  destruct (String.eqb_spec current "new") as [->|Hn].
  - rewrite filter_cons_False by (simpl; tauto).
    rewrite filter_cons_True by (simpl; discriminate).
    rewrite Hnone. discriminate.
  - rewrite filter_cons_True by (simpl; congruence).
    rewrite Hnone. discriminate.
Qed.

Lemma admin_keyboard_rows (oid : Z) (current s : string) :
  Py.str oid = Some s ->
  Keyboards.get_admin_order_status_keyboard oid current
  = Some (map (fun entry =>
                 [Keyboards.mkButton (snd entry)
                    ("set_status_" ++ s ++ "_" ++ fst entry)])
              (filter (fun entry => fst entry <> current) Keyboards.statuses)
          ++ [[Keyboards.mkButton "⬅️ Назад" "admin_back_to_orders"]]).
Proof.
  intros Hs. unfold Keyboards.get_admin_order_status_keyboard.
  now rewrite (mapM_status_button oid s _ Hs).
Qed.

(** What the handler makes of the data of a status button. *)
Lemma set_status_parts (s code : string) :
  Spec.all_chars Spec.numeric_char s = true ->
  Py.split "_" ("set_status_" ++ s ++ "_" ++ code)
  = ["set"; "status"; s]%string ++ Py.split "_" code.
Proof.
  intros Hs.
  change ("set_status_" ++ s ++ "_" ++ code)%string
    with ("set_status" ++ String "_" (s ++ String "_" code))%string.
  rewrite split_app, split_app, (split_numeric s Hs). reflexivity.
Qed.

Lemma set_order_status_pressed (now : Clock.datetime)
    (admin_ids : option (list Z)) (user oid : Z) (s code : string)
    (st : Store) (o : Order) :
  AdminHandlers.is_admin admin_ids user = true ->
  Py.str oid = Some s ->
  get_order st oid = Some o ->
  AdminHandlers.set_order_status_callback now admin_ids user
    ("set_status_" ++ s ++ "_" ++ code) st
  = let written := hd EmptyString (Py.split "_" code) in
    let st' := update_order_status now oid written st in
    (st', AdminHandlers.StatusChanged written (user_id (data o))
                                      (get_pending_orders st')).
Proof.
  intros Ha Hs Ho. unfold AdminHandlers.set_order_status_callback.
  rewrite Ha. cbn [negb]. cbv zeta.
  rewrite (set_status_parts s code (str_numeric oid s Hs)).
  cbn [app nth_error]. rewrite (int_str oid s Hs).
  destruct (Py.split "_" code) as [|w ws] eqn:E; [now apply split_nonempty in E|].
  cbn [nth_error hd]. rewrite Ho. reflexivity.
Qed.

(** X22. Pressed by an administrator on a stored order, the button the
    admin keyboard shows for a status writes that status for 'new',
    'accepted', 'preparing', 'delivered' and 'cancelled'; the button for
    'on_the_way' writes the status 'on', since the handler takes the piece
    of the data between the third and the fourth underscore.  The keyboard
    has such a button for every status but the current one. *)
Theorem set_order_status_buttons (now : Clock.datetime)
    (admin_ids : option (list Z)) (user oid : Z) (current : string)
    (st : Store) (o : Order) (kb : Keyboards.InlineKeyboardMarkup) :
  AdminHandlers.is_admin admin_ids user = true ->
  get_order st oid = Some o ->
  Keyboards.get_admin_order_status_keyboard oid current = Some kb ->
  forall code, In code (map fst Keyboards.statuses) -> code <> current ->
  exists b,
    In [b] kb
    /\ In (code, Keyboards.text b) Keyboards.statuses
    /\ let written := if String.eqb code "on_the_way" then "on"%string
                      else code in
       let st' := update_order_status now oid written st in
       AdminHandlers.set_order_status_callback now admin_ids user
         (Keyboards.callback_data b) st
       = (st', AdminHandlers.StatusChanged written (user_id (data o))
                                           (get_pending_orders st'))
       /\ exists o', get_order st' oid = Some o' /\ status o' = written.
Proof.
  intros Ha Ho Hkb code Hcode Hne.
  destruct (admin_keyboard_printed oid current kb Hkb) as [s Hs].
  rewrite (admin_keyboard_rows oid current s Hs) in Hkb.
  injection Hkb as <-.
  apply in_map_iff in Hcode as ([c label] & <- & Hin). cbn [fst] in *.
  exists (Keyboards.mkButton label ("set_status_" ++ s ++ "_" ++ c)).
  split; [|split].
  - apply in_or_app. left.
    apply (in_map (fun entry =>
                     [Keyboards.mkButton (snd entry)
                        ("set_status_" ++ s ++ "_" ++ fst entry)]) _ (c, label)).
    apply list_elem_of_In, list_elem_of_filter. split; [exact Hne|].
    now apply list_elem_of_In.
  - exact Hin.
  - cbn [Keyboards.callback_data].
    rewrite (set_order_status_pressed now admin_ids user oid s c st o Ha Hs Ho).
    assert (Hw : hd EmptyString (Py.split "_" c)
                 = if String.eqb c "on_the_way" then "on"%string else c).
    { unfold Keyboards.statuses in Hin. simpl in Hin.
      destruct Hin as [E|[E|[E|[E|[E|[E|[]]]]]]];
        injection E as <- _; reflexivity. }
    cbv zeta. rewrite Hw. split; [reflexivity|].
    rewrite get_order_update_order_status, Ho.
    eexists. split; [reflexivity|]. apply status_stamp_status.
Qed.

Lemma set_order_status_buttons_witness :
  exists b,
    In [b] (default [] (Keyboards.get_admin_order_status_keyboard 8 "preparing"))
    /\ In ("on_the_way"%string, Keyboards.text b) Keyboards.statuses
    /\ let st' := update_order_status Sample.noon 8 "on" Sample.shop in
       AdminHandlers.set_order_status_callback Sample.noon (Some [1; 2]) 2
         (Keyboards.callback_data b) Sample.shop
       = (st', AdminHandlers.StatusChanged "on" 43 (get_pending_orders st'))
       /\ exists o', get_order st' 8 = Some o' /\ status o' = "on"%string.
Proof.
  apply (set_order_status_buttons Sample.noon (Some [1; 2]) 2 8 "preparing"
           Sample.shop Sample.open_order
           (default [] (Keyboards.get_admin_order_status_keyboard 8 "preparing"))).
  - reflexivity.
  - reflexivity.
  - reflexivity.
  - simpl. tauto.
  - discriminate.
Defined.

(** ** An order on its way *)

(** X23. When an administrator presses the button 'on the way' of the admin
    keyboard for a stored order, the order is stored with the status 'on':
    it stays among the pending orders, [get_next_status] does not move it,
    the customer's order view offers the cancel button, and pressing that
    button cancels the order. *)
Theorem on_the_way_button (now later : Clock.datetime)
    (admin_ids : option (list Z)) (user oid : Z) (current : string)
    (st : Store) (o : Order) (kb : Keyboards.InlineKeyboardMarkup) :
  AdminHandlers.is_admin admin_ids user = true ->
  get_order st oid = Some o ->
  current <> "on_the_way"%string ->
  Keyboards.get_admin_order_status_keyboard oid current = Some kb ->
  exists b s,
    In [b] kb
    /\ In ("on_the_way"%string, Keyboards.text b) Keyboards.statuses
    /\ Py.str oid = Some s
    /\ Keyboards.callback_data b = ("set_status_" ++ s ++ "_on_the_way")%string
    /\ let st' := fst (AdminHandlers.set_order_status_callback
                         now admin_ids user (Keyboards.callback_data b) st) in
       (exists o', get_order st' oid = Some o'
                   /\ status o' = "on"%string
                   /\ o' ∈ get_pending_orders st')
       /\ get_next_status "on" = "on"%string
       /\ (exists cancel back,
             Keyboards.get_order_detail_keyboard oid "on"
             = Some [[cancel]; back]
             /\ Keyboards.callback_data cancel = ("cancel_order_" ++ s)%string
             /\ CallbackQuery.cancel_order_callback
                  later (Keyboards.callback_data cancel) st'
                = Some (update_order_status later oid "cancelled" st',
                        OrderCancelled oid)).
Proof.
  intros Ha Ho Hne Hkb.
  destruct (admin_keyboard_printed oid current kb Hkb) as [s Hs].
  rewrite (admin_keyboard_rows oid current s Hs) in Hkb.
  injection Hkb as <-.
  exists (Keyboards.mkButton "🚗 В пути" ("set_status_" ++ s ++ "_on_the_way")), s.
  split; [|split; [|split; [|split]]].
  - apply in_or_app. left.
    apply (in_map (fun entry =>
                     [Keyboards.mkButton (snd entry)
                        ("set_status_" ++ s ++ "_" ++ fst entry)]) _
                  ("on_the_way"%string, "🚗 В пути"%string)).
    apply list_elem_of_In, list_elem_of_filter. split; [cbn; congruence|].
    apply list_elem_of_In. simpl. tauto.
  - simpl. tauto.
  - exact Hs.
  - reflexivity.
  - cbn [Keyboards.callback_data].
    change ("set_status_" ++ s ++ "_on_the_way")%string
      with ("set_status_" ++ s ++ "_" ++ "on_the_way")%string.
    rewrite (set_order_status_pressed now admin_ids user oid s "on_the_way"
               st o Ha Hs Ho).
    cbv zeta. cbn [fst].
    change (hd EmptyString (Py.split "_" "on_the_way")) with "on"%string.
    set (st' := update_order_status now oid "on" st).
    assert (Ho' : get_order st' oid = Some (stamp_status now "on" o))
      by (unfold st'; now rewrite get_order_update_order_status, Ho).
    split; [|split].
    + exists (stamp_status now "on" o). split; [exact Ho'|].
      split; [reflexivity|].
      apply pending_elem. split.
      * apply list_elem_of_In. apply (get_order_In st' oid). exact Ho'.
      * split; discriminate.
    + reflexivity.
    + exists (Keyboards.mkButton "❌ Отменить заказ" ("cancel_order_" ++ s)),
             [Keyboards.mkButton "⬅️ К списку заказов" "back_to_orders"].
      split; [|split].
      * unfold Keyboards.get_order_detail_keyboard. cbn. now rewrite Hs.
      * reflexivity.
      * cbn [Keyboards.callback_data].
        unfold CallbackQuery.cancel_order_callback.
        change ("cancel_order_" ++ s)%string
          with ("cancel_order" ++ String "_" s)%string.
        rewrite (last_int_button "cancel_order" s oid Hs).
        unfold cancel_order_callback. rewrite Ho'. reflexivity.
Qed.

Lemma on_the_way_button_witness :
  exists o',
    get_order
      (fst (AdminHandlers.set_order_status_callback Sample.noon (Some [1; 2]) 2
              "set_status_8_on_the_way" Sample.shop)) 8 = Some o'
    /\ status o' = "on"%string.
Proof.
  destruct (on_the_way_button Sample.noon Sample.noon (Some [1; 2]) 2 8
              "preparing" Sample.shop Sample.open_order
              (default [] (Keyboards.get_admin_order_status_keyboard 8 "preparing"))
              eq_refl eq_refl ltac:(discriminate) eq_refl)
    as (b & s & _ & _ & Hs & Hb & (o' & Ho' & Hst & _) & _).
  injection Hs as <-. rewrite Hb in Ho'.
  exists o'. split; [exact Ho' | exact Hst].
Defined.

(** ** The buttons of the customer's order view *)

Lemma order_view_guard (s : string) :
  existsb (String.eqb s) ["cancelled"; "on_the_way"; "delivered"]%string
  = not_cancellable s.
Proof.
  unfold not_cancellable. cbn [existsb].
  destruct (String.eqb s "cancelled"), (String.eqb s "on_the_way"),
    (String.eqb s "delivered"); reflexivity.
Qed.

(** X24. The order view of a stored order, built for the status the order
    has, and the handlers behind its buttons agree.  For a delivered order
    it shows the reorder button, whose data makes [reorder_callback] refill
    the cart from this order.  For an order that is neither delivered, on
    its way nor cancelled it shows the cancel button, whose data makes
    [cancel_order_callback] cancel this order.  For an order on its way or
    cancelled it shows the back button alone. *)
Theorem order_detail_buttons (now : Clock.datetime) (oid : Z) (st : Store)
    (ud : Session) (o : Order) (kb : Keyboards.InlineKeyboardMarkup) :
  get_order st oid = Some o ->
  Keyboards.get_order_detail_keyboard oid (status o) = Some kb ->
  (status o = "delivered"%string ->
   exists b back s,
     kb = [[b]; back] /\ Py.str oid = Some s
     /\ Keyboards.callback_data b = ("reorder_" ++ s)%string
     /\ CallbackQuery.reorder_callback (Keyboards.callback_data b) st ud
        = Some (reorder_callback oid st ud))
  /\ (not_cancellable (status o) = false ->
      exists b back s,
        kb = [[b]; back] /\ Py.str oid = Some s
        /\ Keyboards.callback_data b = ("cancel_order_" ++ s)%string
        /\ CallbackQuery.cancel_order_callback now (Keyboards.callback_data b) st
           = Some (update_order_status now oid "cancelled" st,
                   OrderCancelled oid))
  /\ (status o = "on_the_way"%string \/ status o = "cancelled"%string ->
      map (map Keyboards.callback_data) kb = [["back_to_orders"%string]]
      /\ snd (cancel_order_callback now oid st) = CannotCancel).
Proof.
  intros Ho Hkb. unfold Keyboards.get_order_detail_keyboard in Hkb.
  cbv zeta in Hkb. rewrite order_view_guard in Hkb.
  split; [|split].
  - intros Hd. rewrite Hd in Hkb. cbn [String.eqb] in Hkb.
    change (String.eqb "delivered" "delivered") with true in Hkb.
    cbv iota in Hkb.
    destruct (Py.str oid) as [s|] eqn:Hs; [|discriminate].
    injection Hkb as <-.
    eexists _, _, s.
    split; [reflexivity|]. split; [reflexivity|]. split; [reflexivity|].
    cbn [Keyboards.callback_data]. unfold CallbackQuery.reorder_callback.
    change ("reorder_" ++ s)%string with ("reorder" ++ String "_" s)%string.
    now rewrite (last_int_button "reorder" s oid Hs).
  - intros Hc. rewrite Hc in Hkb. cbn [negb] in Hkb.
    assert (Hnd : String.eqb (status o) "delivered" = false).
    { apply String.eqb_neq. intros E.
      assert (not_cancellable (status o) = true)
        by (apply not_cancellable_iff; tauto).
      congruence. }
    rewrite Hnd in Hkb.
    destruct (Py.str oid) as [s|] eqn:Hs; [|discriminate].
    injection Hkb as <-.
    eexists _, _, s.
    split; [reflexivity|]. split; [reflexivity|]. split; [reflexivity|].
    cbn [Keyboards.callback_data]. unfold CallbackQuery.cancel_order_callback.
    change ("cancel_order_" ++ s)%string
      with ("cancel_order" ++ String "_" s)%string.
    rewrite (last_int_button "cancel_order" s oid Hs).
    unfold cancel_order_callback. now rewrite Ho, Hc.
  - intros Hs.
    assert (Hc : not_cancellable (status o) = true)
      by (apply not_cancellable_iff; tauto).
    assert (Hnd : String.eqb (status o) "delivered" = false)
      by (destruct Hs as [-> | ->]; reflexivity).
    rewrite Hnd, Hc in Hkb. cbn [negb] in Hkb. injection Hkb as <-.
    split; [reflexivity|].
    unfold cancel_order_callback. now rewrite Ho, Hc.
Qed.

Lemma order_detail_buttons_witness :
  exists b back s,
    default [] (Keyboards.get_order_detail_keyboard 8 "preparing") = [[b]; back]
    /\ Py.str 8 = Some s
    /\ Keyboards.callback_data b = ("cancel_order_" ++ s)%string
    /\ CallbackQuery.cancel_order_callback Sample.noon
         (Keyboards.callback_data b) Sample.shop
       = Some (update_order_status Sample.noon 8 "cancelled" Sample.shop,
               OrderCancelled 8).
Proof.
  apply (order_detail_buttons Sample.noon 8 Sample.shop empty_session
           Sample.open_order
           (default [] (Keyboards.get_order_detail_keyboard 8 "preparing"))
           eq_refl eq_refl).
  reflexivity.
Defined.

(** ** The buttons of the cart and of the product view *)

Lemma numeric_not_word (a b : ascii) :
  Spec.numeric_char a = false -> Spec.numeric_char b = true ->
  Ascii.eqb a b = false.
Proof.
  intros Ha Hb. destruct (Ascii.eqb_spec a b) as [->|]; congruence.
Qed.

(** A word without digits and minus signs cannot reach into a printed
    number that follows a text. *)
Lemma startswith_app_numeric (sub q t : string) :
  Spec.all_chars (fun c => negb (Spec.numeric_char c)) sub = true ->
  sub <> EmptyString ->
  Spec.all_chars Spec.numeric_char t = true ->
  Py.startswith (q ++ t) sub = Py.startswith q sub.
Proof.
  intros Hsub Hne Ht. revert sub Hsub Hne.
  induction q as [|c q IH]; intros [|a sub] Hsub Hne; try congruence.
  - cbn [Spec.all_chars] in Hsub. apply andb_true_iff in Hsub as [Ha _].
    apply negb_true_iff in Ha.
    destruct t as [|b t]; [reflexivity|].
    cbn [Spec.all_chars] in Ht. apply andb_true_iff in Ht as [Hb _].
    simpl. now rewrite (numeric_not_word a b Ha Hb).
  - cbn [Spec.all_chars] in Hsub. apply andb_true_iff in Hsub as [_ Hsub].
    change (Py.startswith (String c q ++ t) (String a sub))
      with (Ascii.eqb a c && Py.startswith (q ++ t) sub).
    change (Py.startswith (String c q) (String a sub))
      with (Ascii.eqb a c && Py.startswith q sub).
    destruct sub as [|a' sub]; [reflexivity|].
    rewrite (IH (String a' sub) Hsub); [reflexivity | discriminate].
Qed.

Lemma contains_app_numeric (sub p t : string) :
  Spec.all_chars (fun c => negb (Spec.numeric_char c)) sub = true ->
  sub <> EmptyString ->
  Spec.all_chars Spec.numeric_char t = true ->
  Py.contains sub (p ++ t) = Py.contains sub p.
Proof.
  intros Hsub Hne Ht. induction p as [|c p IH].
  - change (EmptyString ++ t)%string with t.
    destruct sub as [|a sub]; [congruence|].
    cbn [Spec.all_chars] in Hsub. apply andb_true_iff in Hsub as [Ha _].
    apply negb_true_iff in Ha. clear Hne.
    induction t as [|b t IHt]; [reflexivity|].
    cbn [Spec.all_chars] in Ht. apply andb_true_iff in Ht as [Hb Ht].
    change (Py.contains (String a sub) (String b t))
      with (Ascii.eqb a b && Py.startswith t sub
            || Py.contains (String a sub) t).
    rewrite (numeric_not_word a b Ha Hb), (IHt Ht). reflexivity.
  - change (Py.contains sub (String c p ++ t))
      with (Py.startswith (String c p ++ t) sub || Py.contains sub (p ++ t)).
    change (Py.contains sub (String c p))
      with (Py.startswith (String c p) sub || Py.contains sub p).
    now rewrite (startswith_app_numeric sub (String c p) t Hsub Hne Ht), IH.
Qed.

Lemma cart_minus_pressed (pid : Z) (s : string) (ud : Session) :
  Py.str pid = Some s ->
  CallbackQuery.cart_modify_callback ("cart_minus_" ++ s) ud
  = Some (fst (cart_modify_callback (CartMinus pid) ud),
          CallbackQuery.Answer (snd (cart_modify_callback (CartMinus pid) ud))).
Proof.
  intros Hs. pose proof (str_numeric pid s Hs) as Hn.
  unfold CallbackQuery.cart_modify_callback. cbv zeta.
  rewrite !(contains_app_numeric _ "cart_minus_" s) by
    (reflexivity || discriminate || exact Hn).
  change ("cart_minus_" ++ s)%string with ("cart_minus" ++ String "_" s)%string.
  rewrite (last_int_button "cart_minus" s pid Hs). reflexivity.
Qed.

Lemma cart_plus_pressed (pid : Z) (s : string) (ud : Session) :
  Py.str pid = Some s ->
  CallbackQuery.cart_modify_callback ("cart_plus_" ++ s) ud
  = Some (fst (cart_modify_callback (CartPlus pid) ud),
          CallbackQuery.Answer (snd (cart_modify_callback (CartPlus pid) ud))).
Proof.
  intros Hs. pose proof (str_numeric pid s Hs) as Hn.
  unfold CallbackQuery.cart_modify_callback. cbv zeta.
  rewrite !(contains_app_numeric _ "cart_plus_" s) by
    (reflexivity || discriminate || exact Hn).
  change ("cart_plus_" ++ s)%string with ("cart_plus" ++ String "_" s)%string.
  rewrite (last_int_button "cart_plus" s pid Hs). reflexivity.
Qed.

Lemma remove_from_cart_pressed (pid : Z) (s : string) (ud : Session) :
  Py.str pid = Some s ->
  CallbackQuery.cart_modify_callback ("remove_from_cart_" ++ s) ud
  = Some (fst (cart_modify_callback (RemoveFromCart pid) ud),
          CallbackQuery.Answer
            (snd (cart_modify_callback (RemoveFromCart pid) ud))).
Proof.
  intros Hs. pose proof (str_numeric pid s Hs) as Hn.
  unfold CallbackQuery.cart_modify_callback. cbv zeta.
  rewrite !(contains_app_numeric _ "remove_from_cart_" s) by
    (reflexivity || discriminate || exact Hn).
  change ("remove_from_cart_" ++ s)%string
    with ("remove_from_cart" ++ String "_" s)%string.
  rewrite (last_int_button "remove_from_cart" s pid Hs). reflexivity.
Qed.

Lemma cart_rows_In (cart : list Item) (rows : list (list Keyboards.Button))
    (item : Item) :
  mapM Keyboards.cart_row cart = Some rows -> In item cart ->
  exists row, In row rows /\ Keyboards.cart_row item = Some row.
Proof.
  intros Hm. apply mapM_Some_1 in Hm.
  induction Hm as [|x row cart rows Hx _ IH]; intros Hin; [destruct Hin|].
  destruct Hin as [->|Hin].
  - exists row. split; [now left | exact Hx].
  - destruct (IH Hin) as (row' & Hrow & Hitem).
    exists row'. split; [now right | exact Hitem].
Qed.

(** X25. In the cart keyboard every line of the cart has a row of four
    buttons whose data the cart handler reads back as meant: the data of the
    minus button takes one off the line of that product, the data of the
    plus button adds one, the data of the first button removes the lines of
    the product, whatever the session holds; the third button shows the
    quantity and carries the data 'noop'. *)
Theorem cart_keyboard_buttons (cart : list Item)
    (kb : Keyboards.InlineKeyboardMarkup) (ud : Session) :
  Keyboards.get_cart_keyboard cart true = Some kb ->
  forall item, In item cart ->
  exists remove minus shown plus,
    In [remove; minus; shown; plus] kb
    /\ Py.str (quantity item) = Some (Keyboards.text shown)
    /\ Keyboards.callback_data shown = "noop"%string
    /\ CallbackQuery.cart_modify_callback (Keyboards.callback_data minus) ud
       = Some (fst (cart_modify_callback (CartMinus (product_id item)) ud),
               CallbackQuery.Answer
                 (snd (cart_modify_callback (CartMinus (product_id item)) ud)))
    /\ CallbackQuery.cart_modify_callback (Keyboards.callback_data plus) ud
       = Some (fst (cart_modify_callback (CartPlus (product_id item)) ud),
               CallbackQuery.Answer
                 (snd (cart_modify_callback (CartPlus (product_id item)) ud)))
    /\ CallbackQuery.cart_modify_callback (Keyboards.callback_data remove) ud
       = Some (fst (cart_modify_callback (RemoveFromCart (product_id item)) ud),
               CallbackQuery.Answer
                 (snd (cart_modify_callback
                         (RemoveFromCart (product_id item)) ud))).
Proof.
  intros Hkb item Hin. unfold Keyboards.get_cart_keyboard in Hkb.
  cbv zeta in Hkb. cbv iota in Hkb.
  destruct (mapM Keyboards.cart_row cart) as [rows|] eqn:Hrows; [|discriminate].
  injection Hkb as <-.
  destruct (cart_rows_In cart rows item Hrows Hin) as (row & Hrow & Hitem).
  unfold Keyboards.cart_row in Hitem.
  destruct (Py.str (product_id item)) as [p|] eqn:Hp; [|discriminate].
  destruct (Py.str (quantity item)) as [q|] eqn:Hq; [|discriminate].
  injection Hitem as <-.
  eexists _, _, _, _. split; [apply in_or_app; left; exact Hrow|].
  cbn [Keyboards.text Keyboards.callback_data].
  split; [reflexivity|]. split; [reflexivity|].
  split; [exact (cart_minus_pressed _ p ud Hp)|].
  split; [exact (cart_plus_pressed _ p ud Hp)|].
  exact (remove_from_cart_pressed _ p ud Hp).
Qed.

Lemma cart_keyboard_buttons_witness :
  exists remove minus shown plus,
    In [remove; minus; shown; plus]
       (default [] (Keyboards.get_cart_keyboard [Sample.rolls] true))
    /\ Py.str (quantity Sample.rolls) = Some (Keyboards.text shown)
    /\ Keyboards.callback_data shown = "noop"%string
    /\ CallbackQuery.cart_modify_callback (Keyboards.callback_data minus)
         (set_cart [Sample.rolls] empty_session)
       = Some (fst (cart_modify_callback (CartMinus (product_id Sample.rolls))
                      (set_cart [Sample.rolls] empty_session)),
               CallbackQuery.Answer
                 (snd (cart_modify_callback
                         (CartMinus (product_id Sample.rolls))
                         (set_cart [Sample.rolls] empty_session))))
    /\ CallbackQuery.cart_modify_callback (Keyboards.callback_data plus)
         (set_cart [Sample.rolls] empty_session)
       = Some (fst (cart_modify_callback (CartPlus (product_id Sample.rolls))
                      (set_cart [Sample.rolls] empty_session)),
               CallbackQuery.Answer
                 (snd (cart_modify_callback
                         (CartPlus (product_id Sample.rolls))
                         (set_cart [Sample.rolls] empty_session))))
    /\ CallbackQuery.cart_modify_callback (Keyboards.callback_data remove)
         (set_cart [Sample.rolls] empty_session)
       = Some (fst (cart_modify_callback
                      (RemoveFromCart (product_id Sample.rolls))
                      (set_cart [Sample.rolls] empty_session)),
               CallbackQuery.Answer
                 (snd (cart_modify_callback
                         (RemoveFromCart (product_id Sample.rolls))
                         (set_cart [Sample.rolls] empty_session)))).
Proof.
  apply (cart_keyboard_buttons [Sample.rolls]
           (default [] (Keyboards.get_cart_keyboard [Sample.rolls] true))
           (set_cart [Sample.rolls] empty_session) eq_refl Sample.rolls).
  now left.
Defined.

Lemma qty_minus_words (s : string) :
  Spec.all_chars Spec.numeric_char s = true ->
  Py.contains "minus" ("qty_minus_" ++ s) = true
  /\ Py.contains "plus" ("qty_minus_" ++ s) = false
  /\ Py.contains "minus" ("qty_plus_" ++ s) = false
  /\ Py.contains "plus" ("qty_plus_" ++ s) = true.
Proof.
  intros Hn.
  rewrite !(contains_app_numeric _ _ s) by
    (reflexivity || discriminate || exact Hn).
  repeat split; reflexivity.
Qed.

(** X26. In the keyboard under a product the data of the minus and of
    the plus button make the quantity handler change the chosen quantity as
    the button says, within 1 and 99, and the data of the cart button adds
    the product of the keyboard to the cart.  The quantity buttons store
    the new quantity also when the product is not on the menu; the handler
    then fails with a [TypeError] instead of showing the product. *)
Theorem quantity_keyboard_buttons (pid shown_qty : Z) (st : Store)
    (ud : Session) (kb : Keyboards.InlineKeyboardMarkup) :
  Keyboards.get_product_quantity_keyboard pid shown_qty = Some kb ->
  exists minus shown plus add back,
    kb = [[minus; shown; plus]; [add]; [back]]
    /\ Py.str shown_qty = Some (Keyboards.text shown)
    /\ (forall b query_data,
          (b = QtyMinus /\ query_data = Keyboards.callback_data minus)
          \/ (b = QtyPlus /\ query_data = Keyboards.callback_data plus) ->
          CallbackQuery.quantity_callback query_data st ud
          = Some (fst (quantity_callback b ud),
                  match get_product st pid with
                  | Some _ => CallbackQuery.Answer (snd (quantity_callback b ud))
                  | None => CallbackQuery.TypeError
                  end))
    /\ CallbackQuery.add_to_cart_callback (Keyboards.callback_data add) st ud
       = Some (add_to_cart_callback pid st ud).
Proof.
  unfold Keyboards.get_product_quantity_keyboard.
  destruct (Py.str pid) as [p|] eqn:Hp; [|discriminate].
  destruct (Py.str shown_qty) as [q|] eqn:Hq; [|discriminate].
  intros [= <-]. eexists _, _, _, _, _.
  split; [reflexivity|]. split; [reflexivity|].
  cbn [Keyboards.callback_data].
  pose proof (str_numeric pid p Hp) as Hn.
  destruct (qty_minus_words p Hn) as (Hmm & Hpm & Hmp & Hpp).
  split.
  - intros b query_data [[-> ->]|[-> ->]];
      unfold CallbackQuery.quantity_callback, quantity_callback.
    + change ("qty_minus_" ++ p)%string
        with ("qty_minus" ++ String "_" p)%string at 1.
      rewrite (last_int_button "qty_minus" p pid Hp). cbv zeta.
      rewrite Hmm, Hpm. cbn [andb fst snd].
      destruct (1 <? default 1 (ud_current_quantity ud)); reflexivity.
    + change ("qty_plus_" ++ p)%string
        with ("qty_plus" ++ String "_" p)%string at 1.
      rewrite (last_int_button "qty_plus" p pid Hp). cbv zeta.
      rewrite Hmp, Hpp. cbn [andb fst snd].
      destruct (default 1 (ud_current_quantity ud) <? 99); reflexivity.
  - unfold CallbackQuery.add_to_cart_callback.
    change ("add_to_cart_" ++ p)%string
      with ("add_to_cart" ++ String "_" p)%string.
    now rewrite (last_int_button "add_to_cart" p pid Hp).
Qed.

Lemma quantity_keyboard_buttons_witness :
  exists minus shown plus add back,
    default [] (Keyboards.get_product_quantity_keyboard 5 1)
    = [[minus; shown; plus]; [add]; [back]]
    /\ Py.str 1 = Some (Keyboards.text shown)
    /\ (forall b query_data,
          (b = QtyMinus /\ query_data = Keyboards.callback_data minus)
          \/ (b = QtyPlus /\ query_data = Keyboards.callback_data plus) ->
          CallbackQuery.quantity_callback query_data Sample.shop empty_session
          = Some (fst (quantity_callback b empty_session),
                  match get_product Sample.shop 5 with
                  | Some _ =>
                      CallbackQuery.Answer (snd (quantity_callback b empty_session))
                  | None => CallbackQuery.TypeError
                  end))
    /\ CallbackQuery.add_to_cart_callback (Keyboards.callback_data add)
         Sample.shop empty_session
       = Some (add_to_cart_callback 5 Sample.shop empty_session).
Proof.
  apply (quantity_keyboard_buttons 5 1 Sample.shop empty_session
           (default [] (Keyboards.get_product_quantity_keyboard 5 1))).
  reflexivity.
Defined.

(** ** Prices set by an administrator *)

Lemma numeric_not_space (c : ascii) :
  Spec.numeric_char c = true -> Py.is_space c = false.
Proof.
  unfold Spec.numeric_char. intros H. apply orb_true_iff in H as [H|H].
  - now apply digit_not_space.
  - apply Ascii.eqb_eq in H. now subst c.
Qed.

Lemma strip_numeric (s : string) :
  Spec.all_chars Spec.numeric_char s = true -> Py.strip s = s.
Proof.
  intros H. unfold Py.strip.
  assert (Py.lstrip s = s) as ->.
  { destruct s as [|c r]; [reflexivity|]. simpl in *.
    apply andb_true_iff in H as [Hc _]. now rewrite (numeric_not_space c Hc). }
  induction s as [|c r IH]; [reflexivity|].
  cbn [Spec.all_chars] in H. apply andb_true_iff in H as [Hc Hr].
  cbn [Py.rstrip]. rewrite (IH Hr). destruct r; [|reflexivity].
  now rewrite (numeric_not_space c Hc).
Qed.

Lemma update_first_Forall_inv {A} (P : A -> Prop) (p : A -> bool) (f : A -> A)
    (l : list A) :
  (forall x, P x -> P (f x)) -> Forall P l -> Forall P (Py.update_first p f l).
Proof.
  intros Hf H. induction H as [|x l Hx Hl IH]; simpl; [constructor|].
  destruct (p x); constructor; auto.
Qed.

(** X27. For a text typed in ASCII, on which [Py.int] and [Py.strip] are
    [int()] and [str.strip()]: the price is written only if the text
    reads as an integer above 0; then the product under the id kept in the
    session has that price and is otherwise unchanged, and the other
    products are as before.  Any other text, a missing id and the id 0
    leave the store as it is.  So prices that are all above 0 stay above 0.
    The confirmation is sent also when no product has the id. *)
Theorem receive_admin_price_spec (text : string) (admin_product_id : option Z)
    (st : Store) :
  Spec.ascii text ->
  let r := AdminHandlers.receive_admin_price text admin_product_id st in
  (Forall (fun p => 0 < p_price p) (products st) ->
   Forall (fun p => 0 < p_price p) (products (fst r)))
  /\ (forall n, snd r = AdminHandlers.PriceUpdated n ->
      0 < n /\ Py.int (Py.strip text) = Some n
      /\ exists pid,
           admin_product_id = Some pid /\ pid <> 0
           /\ get_product (fst r) pid = with_price n <$> get_product st pid
           /\ (get_product st pid = None -> fst r = st)
           /\ (forall other, other <> pid ->
                 get_product (fst r) other = get_product st other))
  /\ ((forall n, snd r <> AdminHandlers.PriceUpdated n) -> fst r = st)
  /\ (admin_product_id = None \/ admin_product_id = Some 0 -> fst r = st)
  /\ (forall n s pid, Py.str n = Some s -> 0 < n -> pid <> 0 ->
        AdminHandlers.receive_admin_price s (Some pid) st
        = (update_product pid (with_price n) st, AdminHandlers.PriceUpdated n))
  /\ users (fst r) = users st /\ orders (fst r) = orders st
  /\ promocodes (fst r) = promocodes st /\ statistics (fst r) = statistics st.
Proof.
  intros _. cbv zeta. unfold AdminHandlers.receive_admin_price.
  split; [|split; [|split; [|split; [|split]]]].
  - intros Hpos.
    destruct (Py.int (Py.strip text)) as [n|]; [|exact Hpos].
    destruct (n <=? 0) eqn:Hn; [exact Hpos|].
    destruct admin_product_id as [pid|]; [|exact Hpos].
    destruct (pid =? 0); [exact Hpos|].
    apply Z.leb_gt in Hn. cbn [fst]. unfold update_product. simpl.
    apply update_first_Forall_inv; [|exact Hpos].
    intros p _. exact Hn.
  - intros n.
    destruct (Py.int (Py.strip text)) as [m|]; [|discriminate].
    destruct (m <=? 0) eqn:Hm; [discriminate|].
    destruct admin_product_id as [pid|]; [|discriminate].
    destruct (pid =? 0) eqn:Hpid; [discriminate|].
    intros [= <-]. apply Z.leb_gt in Hm. apply Z.eqb_neq in Hpid.
    split; [exact Hm|]. split; [reflexivity|].
    exists pid. split; [reflexivity|]. split; [exact Hpid|].
    cbn [fst]. split; [|split].
    + unfold get_product, update_product. simpl.
      apply first_update_first. reflexivity.
    + intros Hnone. unfold update_product.
      unfold get_product in Hnone.
      rewrite (update_first_None _ _ _ Hnone). now destruct st.
    + intros other Hother. unfold get_product, update_product. simpl.
      apply first_update_first_other; [reflexivity|].
      intros p Hp. apply Z.eqb_eq in Hp. apply Z.eqb_neq. congruence.
  - intros Hno.
    destruct (Py.int (Py.strip text)) as [m|]; [|reflexivity].
    destruct (m <=? 0); [reflexivity|].
    destruct admin_product_id as [pid|]; [|reflexivity].
    destruct (pid =? 0); [reflexivity|].
    now specialize (Hno m).
  - intros [-> | ->];
      destruct (Py.int (Py.strip text)) as [m|]; try reflexivity;
      destruct (m <=? 0); reflexivity.
  - intros n s pid Hs Hn Hpid.
    rewrite (strip_numeric s (str_numeric n s Hs)), (int_str n s Hs).
    apply Z.leb_gt in Hn. apply Z.eqb_neq in Hpid. now rewrite Hn, Hpid.
  - destruct (Py.int (Py.strip text)) as [m|]; [|repeat split].
    destruct (m <=? 0); [repeat split|].
    destruct admin_product_id as [pid|]; [|repeat split].
    destruct (pid =? 0); repeat split.
Qed.

Lemma receive_admin_price_witness :
  0 < 390
  /\ Py.int (Py.strip " 390 ") = Some 390
  /\ exists pid,
       Some 1 = Some pid /\ pid <> 0
       /\ get_product
            (fst (AdminHandlers.receive_admin_price " 390 " (Some 1) Sample.shop))
            pid
          = with_price 390 <$> get_product Sample.shop pid
       /\ (get_product Sample.shop pid = None ->
           fst (AdminHandlers.receive_admin_price " 390 " (Some 1) Sample.shop)
           = Sample.shop)
       /\ (forall other, other <> pid ->
             get_product
               (fst (AdminHandlers.receive_admin_price " 390 " (Some 1)
                       Sample.shop)) other
             = get_product Sample.shop other).
Proof.
  apply (proj1 (proj2 (receive_admin_price_spec " 390 " (Some 1) Sample.shop
                         eq_refl))
           390).
  reflexivity.
Defined.

(** ** Statistics computed from a list of orders *)

Lemma count_orders_lookup (s : string) (os : list Order)
    (m : gmap string OrderHandlers.StatusEntry) :
  fold_left count_order os m !! s
  = match Spec.with_status s os with
    | [] => m !! s
    | found =>
        let entry := default (mkStatusEntry 0 0) (m !! s) in
        Some (mkStatusEntry (se_count entry + Z.of_nat (List.length found))
                            (se_revenue entry + Spec.revenue_of found))
    end.
Proof.
  revert m. induction os as [|o os IH]; intros m; [reflexivity|].
  cbn [fold_left]. rewrite IH. unfold Spec.with_status.
  destruct (decide (status o = s)) as [E|E].
  - rewrite (filter_cons_True (fun o => status o = s) o os E).
    unfold count_order at 1 2 3. rewrite E, lookup_insert_eq. cbv zeta.
    cbn [default from_option se_count se_revenue].
    destruct (filter (fun o0 => status o0 = s) os) as [|o' found] eqn:F.
    + unfold Spec.revenue_of.
      cbn [List.length map foldr se_count se_revenue Datatypes.id].
      do 2 f_equal; lia.
    + unfold Spec.revenue_of.
      cbn [List.length map foldr se_count se_revenue Datatypes.id].
      do 2 f_equal; lia.
  - rewrite (filter_cons_False (fun o => status o = s) o os E).
    unfold count_order. rewrite lookup_insert_ne by exact E. reflexivity.
Qed.

Lemma revenue_without_cancelled (os : list Order) :
  Py.sum (map (fun o => total (data o))
              (filter (fun o => status o <> "cancelled"%string) os))
  = Spec.revenue_of os - Spec.revenue_of (Spec.with_status "cancelled" os).
Proof.
  unfold Spec.with_status, Spec.revenue_of.
  induction os as [|o os IH]; [reflexivity|].
  destruct (decide (status o = "cancelled"%string)) as [E|E].
  - rewrite filter_cons_False by (intros H; now apply H).
    rewrite (filter_cons_True (fun o => status o = "cancelled"%string) o os E).
    rewrite IH. simpl. lia.
  - rewrite (filter_cons_True (fun o => status o <> "cancelled"%string) o os E).
    rewrite (filter_cons_False (fun o => status o = "cancelled"%string) o os E).
    cbn [map]. rewrite sum_cons, IH. simpl. lia.
Qed.

(** X28. [get_order_statistics] sorts the orders by status: [by_status]
    has an entry exactly for the statuses that occur, holding the number of
    orders of that status and the sum of their totals, cancelled orders
    included.  The revenue is the sum of all totals less those of the
    cancelled orders, while the number of orders, by which the average
    divides, counts the cancelled ones too.  The number of completed orders
    is the number of delivered ones; for an empty list that key is not
    written. *)
Theorem get_order_statistics_spec (orders : list Order) :
  let r := get_order_statistics orders in
  (forall s,
     os_by_status r !! s
     = match Spec.with_status s orders with
       | [] => None
       | found => Some (mkStatusEntry (Z.of_nat (List.length found))
                                      (Spec.revenue_of found))
       end)
  /\ os_total_revenue r
     = Spec.revenue_of orders
       - Spec.revenue_of (Spec.with_status "cancelled" orders)
  /\ os_total_orders r = Z.of_nat (List.length orders)
  /\ (orders <> [] ->
      os_average_order r = (os_total_revenue r, Z.of_nat (List.length orders))
      /\ os_completed_orders r
         = Some (Z.of_nat (List.length (Spec.with_status "delivered" orders))))
  /\ (orders = [] -> r = mkOrderStatistics 0 0 (0, 1) None ∅).
Proof.
  cbv zeta. split; [|split; [|split; [|split]]].
  - intros s. destruct orders as [|o os]; [reflexivity|].
    unfold get_order_statistics. cbn [os_by_status].
    rewrite count_orders_lookup, lookup_empty.
    destruct (Spec.with_status s (o :: os)); [reflexivity|].
    cbv zeta. cbn [default from_option se_count se_revenue]. reflexivity.
  - destruct orders as [|o os]; [reflexivity|].
    unfold get_order_statistics. cbn [os_total_revenue].
    apply revenue_without_cancelled.
  - destruct orders as [|o os]; reflexivity.
  - intros Hne. destruct orders as [|o os]; [congruence|]. split; reflexivity.
  - intros ->. reflexivity.
Qed.

Lemma get_order_statistics_witness :
  os_average_order (get_order_statistics (orders Sample.shop)) = (1800, 2)
  /\ os_completed_orders (get_order_statistics (orders Sample.shop)) = Some 1.
Proof.
  destruct (get_order_statistics_spec (orders Sample.shop))
    as (_ & _ & _ & H & _).
  destruct (H ltac:(discriminate)) as [Ha Hc].
  rewrite Ha, Hc. split; reflexivity.
Defined.

(** ** Hiding and showing a product from the admin menu *)

Lemma admin_toggle_pressed (admin_ids : option (list Z)) (user pid : Z)
    (s : string) (st : Store) (visible : bool) :
  AdminHandlers.is_admin admin_ids user = true ->
  Py.str pid = Some s ->
  fst (AdminHandlers.admin_toggle_product_callback admin_ids user
         (if visible then "admin_hide_" ++ s else "admin_show_" ++ s)%string st)
  = update_product pid (with_available (negb visible)) st.
Proof.
  intros Ha Hs. pose proof (str_numeric pid s Hs) as Hn.
  unfold AdminHandlers.admin_toggle_product_callback. rewrite Ha. cbn [negb].
  destruct visible.
  - rewrite (contains_app_numeric "hide" "admin_hide_" s) by
      (reflexivity || discriminate || exact Hn).
    change ("admin_hide_" ++ s)%string
      with ("admin_hide" ++ String "_" s)%string.
    rewrite last_split_app, (split_numeric s Hn). cbn [List.last].
    now rewrite (int_str pid s Hs).
  - rewrite (contains_app_numeric "hide" "admin_show_" s) by
      (reflexivity || discriminate || exact Hn).
    change ("admin_show_" ++ s)%string
      with ("admin_show" ++ String "_" s)%string.
    rewrite last_split_app, (split_numeric s Hn). cbn [List.last].
    now rewrite (int_str pid s Hs).
Qed.

Lemma get_product_update_product (pid : Z) (f : Product -> Product)
    (st : Store) :
  (forall p, p_id (f p) = p_id p) ->
  get_product (update_product pid f st) pid = f <$> get_product st pid.
Proof.
  intros Hid. unfold get_product, update_product. simpl.
  apply first_update_first. intros p. now rewrite Hid.
Qed.

Lemma get_product_update_product_other (pid other : Z)
    (f : Product -> Product) (st : Store) :
  (forall p, p_id (f p) = p_id p) -> other <> pid ->
  get_product (update_product pid f st) other = get_product st other.
Proof.
  intros Hid Hne. unfold get_product, update_product. simpl.
  apply first_update_first_other.
  - intros p. now rewrite Hid.
  - intros p Hp. apply Z.eqb_eq in Hp. apply Z.eqb_neq. congruence.
Qed.

(** X29. In the admin view of a product on the menu the third button
    changes the visibility of exactly that product: pressed by an
    administrator it hides a product that is shown and shows one that is
    hidden, leaving the other products alone; pressing the third button of
    the keyboard built afterwards brings the product back to what it was
    shown as before. *)
Theorem admin_toggle_product_spec (admin_ids : option (list Z))
    (user pid : Z) (st : Store) (p : Product)
    (kb : Keyboards.InlineKeyboardMarkup) :
  AdminHandlers.is_admin admin_ids user = true ->
  get_product st pid = Some p ->
  let visible := default true (p_available p) in
  Keyboards.get_admin_product_actions_keyboard pid visible = Some kb ->
  exists edit_price edit_desc toggle back,
    kb = [[edit_price]; [edit_desc]; [toggle]; [back]]
    /\ let st' := fst (AdminHandlers.admin_toggle_product_callback
                         admin_ids user (Keyboards.callback_data toggle) st) in
       get_product st' pid = Some (with_available (negb visible) p)
       /\ (forall other, other <> pid ->
             get_product st' other = get_product st other)
       /\ exists edit_price' edit_desc' toggle' back',
            Keyboards.get_admin_product_actions_keyboard pid (negb visible)
            = Some [[edit_price']; [edit_desc']; [toggle']; [back']]
            /\ get_product
                 (fst (AdminHandlers.admin_toggle_product_callback
                         admin_ids user (Keyboards.callback_data toggle') st'))
                 pid
               = Some (with_available visible p).
Proof.
  intros Ha Hp visible Hkb.
  destruct (Py.str pid) as [s|] eqn:Hs;
    [|unfold Keyboards.get_admin_product_actions_keyboard in Hkb;
      rewrite Hs in Hkb; discriminate].
  set (toggle := fun v : bool =>
         if v then Keyboards.mkButton "🚫 Скрыть товар" ("admin_hide_" ++ s)
         else Keyboards.mkButton "✅ Показать товар" ("admin_show_" ++ s)).
  assert (Hrows : forall v,
            Keyboards.get_admin_product_actions_keyboard pid v
            = Some [[Keyboards.mkButton "✏️ Изменить цену"
                       ("admin_edit_price_" ++ s)];
                    [Keyboards.mkButton "📝 Изменить описание"
                       ("admin_edit_desc_" ++ s)];
                    [toggle v];
                    [Keyboards.mkButton "⬅️ Назад" "admin_products"]])
    by (intros v; unfold Keyboards.get_admin_product_actions_keyboard;
        rewrite Hs; now destruct v).
  rewrite Hrows in Hkb. injection Hkb as <-.
  assert (Hpress : forall v st0,
            fst (AdminHandlers.admin_toggle_product_callback admin_ids user
                   (Keyboards.callback_data (toggle v)) st0)
            = update_product pid (with_available (negb v)) st0).
  { intros v st0.
    rewrite <- (admin_toggle_pressed admin_ids user pid s st0 v Ha Hs).
    now destruct v. }
  assert (Hfirst : forall b, get_product
                     (update_product pid (with_available b) st) pid
                   = Some (with_available b p))
    by (intros b; rewrite get_product_update_product by reflexivity;
        now rewrite Hp).
  eexists _, _, (toggle visible), _. split; [reflexivity|].
  cbv zeta. rewrite Hpress. split; [|split].
  - apply Hfirst.
  - intros other Hother. now apply get_product_update_product_other.
  - eexists _, _, (toggle (negb visible)), _. split; [apply Hrows|].
    rewrite Hpress, negb_involutive.
    rewrite get_product_update_product by reflexivity.
    now rewrite Hfirst.
Qed.

Lemma admin_toggle_product_witness :
  exists toggle,
    nth_error (default [] (Keyboards.get_admin_product_actions_keyboard 1 true)) 2
    = Some [toggle]
    /\ get_product
         (fst (AdminHandlers.admin_toggle_product_callback (Some [1; 2]) 2
                 (Keyboards.callback_data toggle) Sample.shop)) 1
       = Some (with_available false Sample.philadelphia).
Proof.
  destruct (admin_toggle_product_spec (Some [1; 2]) 2 1 Sample.shop
              Sample.philadelphia
              (default [] (Keyboards.get_admin_product_actions_keyboard 1 true))
              eq_refl eq_refl eq_refl)
    as (e1 & e2 & toggle & back & Hkb & Hget & _).
  exists toggle. rewrite Hkb. split; [reflexivity | exact Hget].
Defined.
